(** * The rumprun boot-time configuration interpreter

    A shallow embedding of [lib/librumprun_base/config.c].  The C functions
    become functions in a small monad that threads the global exec queue and
    the history of calls made to the platform, collects the [warnx] lines,
    and stops at the first [errx]/[err]. *)

From Stdlib Require Import String Ascii List ZArith Lia Bool Permutation.
From Stdlib Require Import DecimalString.
Import ListNotations.

#[local] Set Warnings "-register-all".
#[local] Open Scope string_scope.
#[local] Open Scope list_scope.

(** ** C strings *)

(** [strcmp(a, b) == 0]. *)
Definition streq (a b : string) : bool := String.eqb a b.

(** The double quote and the newline, which the messages and the resolver
    file need. *)
Definition dq : string := String "034"%char EmptyString.

Definition nl : string := String "010"%char EmptyString.

(** What [printf] makes of a format once every directive is filled in: the
    pieces, one after the other. *)
Definition fmt (pieces : list string) : string := String.concat EmptyString pieces.

(** The string from offset [k] on ([s + k]). *)
Fixpoint strfrom (k : nat) (s : string) : string :=
  match k, s with
  | O, _ => s
  | S k', String _ s' => strfrom k' s'
  | S _, EmptyString => EmptyString
  end.

(** The first [k] characters of [s] (what is left of [s] once [s[k] = 0]). *)
Fixpoint strupto (k : nat) (s : string) : string :=
  match k, s with
  | O, _ => EmptyString
  | S k', String a s' => String a (strupto k' s')
  | S _, EmptyString => EmptyString
  end.

(** [strchr(s, c)], as the offset of the first [c]. *)
Fixpoint strchr (s : string) (c : ascii) : option nat :=
  match s with
  | EmptyString => None
  | String a s' => if Ascii.eqb a c then Some O else option_map S (strchr s' c)
  end.

(** [strspn(s, "c")] and [strcspn(s, "c")] for a one-character set. *)
Fixpoint strspn (s : string) (c : ascii) : nat :=
  match s with
  | String a s' => if Ascii.eqb a c then S (strspn s' c) else O
  | EmptyString => O
  end.

Fixpoint strcspn (s : string) (c : ascii) : nat :=
  match s with
  | String a s' => if Ascii.eqb a c then O else S (strcspn s' c)
  | EmptyString => O
  end.

(** [strstr(hay, needle)], as the offset of the first occurrence. *)
Fixpoint strstr (hay needle : string) : option nat :=
  if String.prefix needle hay then Some O
  else match hay with
       | EmptyString => None
       | String _ hay' => option_map S (strstr hay' needle)
       end.

(** [snprintf(buf, size, ...)] keeps at most [size - 1] characters. *)
Definition snprintf (size : nat) (s : string) : string := strupto (size - 1) s.

(** [%d]. *)
Definition fmt_d (z : Z) : string := NilZero.string_of_int (Z.to_int z).

(** *** [atoi]

    The C library's [atoi(s)] is [(int)strtol(s, NULL, 10)]: white space is
    skipped, one sign is read, then the decimal digits up to the first
    character that is not one; no digit at all gives 0.  [strtol] saturates
    at the bounds of [long] (64 bits here) and the cast keeps the low 32
    bits. *)
Definition isspace (a : ascii) : bool :=
  let k := nat_of_ascii a in
  (((9 <=? k) && (k <=? 13)) || (k =? 32))%nat.

Definition isdigit (a : ascii) : bool :=
  let k := nat_of_ascii a in
  ((48 <=? k) && (k <=? 57))%nat.

Definition digit_val (a : ascii) : Z := Z.of_nat (nat_of_ascii a) - 48.

Fixpoint skip_space (s : string) : string :=
  match s with
  | String a s' => if isspace a then skip_space s' else s
  | EmptyString => s
  end.

(** The digits at the head of [s], accumulated onto [acc]. *)
Fixpoint digits (s : string) (acc : Z) : Z :=
  match s with
  | String a s' => if isdigit a then digits s' (10 * acc + digit_val a) else acc
  | EmptyString => acc
  end.

Definition LONG_MAX : Z := 2 ^ 63 - 1.

Definition LONG_MIN : Z := - 2 ^ 63.

Definition strtol10 (s : string) : Z :=
  let s := skip_space s in
  let '(neg, s) :=
    match s with
    | String "-" s' => (true, s')
    | String "+" s' => (false, s')
    | _ => (false, s)
    end in
  let v := digits s 0 in
  if neg then Z.max LONG_MIN (- v) else Z.min LONG_MAX v.

(** The cast to a 32-bit [int]. *)
Definition to_int (z : Z) : Z := (z + 2 ^ 31) mod 2 ^ 32 - 2 ^ 31.

Definition atoi (s : string) : Z := to_int (strtol10 s).

(** ** The document tree ([json.h]) *)

(** Modelled from the spec: the kinds of node of the document tree, whose
    header [rumprun-base/json.h] is not among the sources: null,
    boolean-true, boolean-false, string, array and object, and the kind
    [jnumber] that [sysctl_parse] names as well. *)
Inductive jtypes : Type :=
  jnull | jtrue | jfalse | jstring | jnumber | jarray | jobject.

(** Modelled from the spec: a node of the document tree ([jvalue] of
    [json.h], not among the sources), with the members [config.c] reads:
    the name [n] (the key, for a member of an object), the kind [d] and
    the union [u], [u.s] being the text of a string or number and [u.v]
    the members of an array or object, in their order, names repeated or
    not. *)
Inductive jvalue : Type :=
  Jvalue { n : string; d : jtypes; u_s : string; u_v : list jvalue }.

Definition jtypes_eqb (a b : jtypes) : bool :=
  match a, b with
  | jnull, jnull | jtrue, jtrue | jfalse, jfalse | jstring, jstring
  | jnumber, jnumber | jarray, jarray | jobject, jobject => true
  | _, _ => false
  end.

Definition jtypestr (t : jtypes) : string :=
  match t with
  | jnull => "NULL"
  | jtrue => "BOOLEAN"
  | jfalse => "BOOLEAN"
  | jstring => "STRING"
  | jarray => "ARRAY"
  | jobject => "OBJECT"
  | _ => "UNKNOWN"
  end.

(** ** The boot plan ([rumprun.h]) *)

(** An entry point of a baked-in program, by identity. *)
Definition rre_mainfn : Type := nat.

(** Modelled from the spec: one sysctl assignment ([struct rr_sysctl] of
    [rumprun.h], not among the sources). *)
Record rr_sysctl : Type := mk_sysctl { key : string; value : string }.

(** Modelled from the spec: one planned program invocation ([struct
    rumprun_exec] of [rumprun.h], not among the sources), with the members
    [config.c] sets; the two arrays are lists, and the queue
    [rumprun_execs] is the list of the entries in the order of their
    insertion. *)
Record rumprun_exec : Type := mk_rre {
  rre_main : rre_mainfn;
  rre_flags : Z;
  rre_workdir : option string;
  rre_sc : list rr_sysctl;
  rre_argv : list string
}.

(** [rre_argc] and [rre_nsc] are the lengths of the two arrays. *)
Definition rre_argc (rre : rumprun_exec) : nat := length (rre_argv rre).

Definition rre_nsc (rre : rumprun_exec) : nat := length (rre_sc rre).

(** Modelled from the spec: one program of the static registry ([struct
    rumprun_bin], not among the sources): its name and its entry point. *)
Record rumprun_bin : Type := mk_bin { binname : string; main : rre_mainfn }.

(** ** The platform

    Every function [config.c] calls outside itself, with the arguments it
    passes.  Flags and file-system types of the system headers stay
    symbolic. *)
Inductive oflag : Type := O_RDONLY | O_WRONLY | O_RDWR | O_CREAT.

Inductive fstype : Type :=
  MOUNT_FFS | MOUNT_EXT2FS | MOUNT_CD9660 | MOUNT_KERNFS | MOUNT_TMPFS.

Inductive mntflag : Type := MNT_RDONLY.

Inductive mount_args : Type :=
| ufs_args (fspec : string)
| iso_args (fspec : string)
| tmpfs_args (ta_size_max : Z) (ta_root_mode : Z)
| no_args.

Inductive call : Type :=
| rumprun_sysctlw (k v : string)
| setenv (name val : string) (overwrite : Z)
| rump_pub_netconfig_dhcp_ipv4_oneshot (ifname : string)
| rump_pub_netconfig_ipv4_ifaddr_cidr (ifname addr : string) (mask : Z)
| rump_pub_netconfig_auto_ipv6 (ifname : string)
| rump_pub_netconfig_ipv6_ifaddr (ifname addr : string) (mask : Z)
| rump_pub_netconfig_ifcreate (ifname : string)
| rump_pub_netconfig_ipv4_gw (addr : string)
| rump_pub_netconfig_ipv6_gw (addr : string)
| rump_pub_etfs_register (k hostpath : string)
| mkdir (path : string) (mode : Z)
| chdir (path : string)
| open (path : string) (flags : list oflag) (mode : Z)
| read (fd : Z) (nbytes : Z)
| write (fd : Z) (buf : string)
| close (fd : Z)
| stat (path : string)
| mknod (path : string) (mode : Z) (maj unit part : Z)
| ioctl_VNDIOCSET (fd : Z) (vnd_file : string)
| mount (type : fstype) (dir : string) (flags : list mntflag) (data : mount_args).

(** What a call gives back: its return value, [errno] when it failed, and
    for [stat] and [read] what they store through their pointer. *)
Record sysret : Type := mk_sysret {
  rv : Z;
  errno : Z;
  st_rdev : Z;
  st_size : Z;
  data : string
}.

(** The two values of [errno] that [config.c] tests, as [<errno.h>] has
    them. *)
Definition EEXIST : Z := 17.

Definition ENOENT : Z := 2.

(** The parts of the build and of the system that [config.c] relies on and
    that live elsewhere: the registry of baked-in programs, the run-mode
    bits of [rumprun.h], [RAW_PART] and [major] of the disklabel headers,
    [strerror], [dehumanize_number] (None when it fails), the parser
    [jparse], and the platform itself, which answers a call knowing the
    calls made before it. *)
Record platform : Type := mk_platform {
  rumprun_bins : list rumprun_bin;
  RUMPRUN_EXEC_BACKGROUND : Z;
  RUMPRUN_EXEC_PIPE : Z;
  RAW_PART : Z;
  major : Z -> Z;
  strerror : Z -> string;
  dehumanize_number : string -> option Z;
  jparse : string -> option jvalue;
  os : list call -> call -> sysret
}.

(** ** The monad *)

Record world : Type := mk_world {
  rumprun_execs : list rumprun_exec;
  history : list call
}.

(** How the process ends when it does not return: [errx], [err] (whose
    message the library completes with the text of [errno]), or a null
    pointer followed. *)
Inductive fatal : Type :=
| Errx (msg : string)
| Err (msg : string)
| Null_deref.

Inductive outcome (A : Type) : Type :=
| Ret (a : A) (w : world)
| Exit (e : fatal) (w : world).

Arguments Ret {A} a w.
Arguments Exit {A} e w.

(** A computation: from a world to an outcome and the [warnx] lines. *)
Definition M (A : Type) : Type := world -> outcome A * list string.

Definition ret {A : Type} (a : A) : M A := fun w => (Ret a w, []).

Definition bind {A B : Type} (m : M A) (f : A -> M B) : M B :=
  fun w =>
    match m w with
    | (Ret a w', l1) => let '(r, l2) := f a w' in (r, l1 ++ l2)
    | (Exit e w', l1) => (Exit e w', l1)
    end.

Declare Scope cfg_scope.
Delimit Scope cfg_scope with cfg.
#[local] Open Scope cfg_scope.

Notation "x <- c1 ;; c2" := (bind c1 (fun x => c2))
  (at level 61, c1 at next level, right associativity) : cfg_scope.

Notation "c1 ;; c2" := (bind c1 (fun _ => c2))
  (at level 61, right associativity) : cfg_scope.

Definition errx {A : Type} (pieces : list string) : M A :=
  fun w => (Exit (Errx (fmt pieces)) w, []).

Definition err {A : Type} (pieces : list string) : M A :=
  fun w => (Exit (Err (fmt pieces)) w, []).

Definition null_deref {A : Type} : M A := fun w => (Exit Null_deref w, []).

Definition warnx (pieces : list string) : M unit :=
  fun w => (Ret tt w, [fmt pieces]).

(** The outcome alone, without the warnings. *)
Definition run {A : Type} (m : M A) (w : world) : outcome A := fst (m w).

Definition warnings {A : Type} (m : M A) (w : world) : list string := snd (m w).

Definition world_of {A : Type} (r : outcome A) : world :=
  match r with Ret _ w => w | Exit _ w => w end.

(** A loop over a null-terminated array. *)
Fixpoint for_each {A : Type} (l : list A) (body : A -> M unit) : M unit :=
  match l with
  | [] => ret tt
  | x :: l' => body x ;; for_each l' body
  end.

(** The same loop when its body updates local variables [S]. *)
Fixpoint fold_each {A S : Type} (l : list A) (body : S -> A -> M S) (s : S) : M S :=
  match l with
  | [] => ret s
  | x :: l' => s' <- body s x ;; fold_each l' body s'
  end.

Definition TAILQ_INSERT_TAIL (rre : rumprun_exec) : M unit :=
  fun w => (Ret tt (mk_world (rumprun_execs w ++ [rre]) (history w)), []).

Definition TAILQ_LAST : M (option rumprun_exec) :=
  fun w => (Ret (last (map Some (rumprun_execs w)) None) w, []).

(** [%d] as [sscanf] reads it: white space, one sign, at least one digit.
    The C library converts the digits as [strtol] does, so the value
    saturates at the bounds of [long], and stores it with a cast to
    [int]. *)
Definition scan_d (s : string) : option Z :=
  let s := skip_space s in
  let '(neg, s) :=
    match s with
    | String "-" s' => (true, s')
    | String "+" s' => (false, s')
    | _ => (false, s)
    end in
  match s with
  | String a _ =>
      if isdigit a
      then Some (to_int (if neg then Z.max LONG_MIN (- digits s 0)
                         else Z.min LONG_MAX (digits s 0)))
      else None
  | EmptyString => None
  end.

(** [sscanf(dev, "vnd%d", &unit)]: the unit when one conversion was made. *)
Definition sscanf_vnd_d (dev : string) : option Z :=
  if String.prefix "vnd" dev then scan_d (strfrom 3 dev) else None.

(** ** The interpreter *)

Definition jexpect (t : jtypes) (v : jvalue) (loc : string) : M unit :=
  if negb (jtypes_eqb (d v) t)
  then errx [loc; ": expected "; jtypestr t; ", got "; jtypestr (d v)]
  else ret tt.

Record jhandler : Type := mk_jhandler {
  name : string;
  handler : jvalue -> string -> M unit
}.

(** Pass 1 of [handle_object]: the keys no handler of [h] claims. *)
Definition handle_object_pass1 (v : jvalue) (h : list jhandler) (loc : string) : M unit :=
  for_each (u_v v) (fun i =>
    if existsb (fun hj => streq (n i) (name hj)) h then ret tt
    else warnx [loc; ": no match for key "; dq; n i; dq; ", ignored"]).

(** Pass 2: the handlers in the order of the table, each over the whole
    object. *)
Definition handle_object_pass2 (v : jvalue) (h : list jhandler) (loc : string) : M unit :=
  for_each h (fun hj =>
    for_each (u_v v) (fun i =>
      if streq (n i) (name hj) then handler hj i loc else ret tt)).

Definition handle_object (v : jvalue) (h : list jhandler) (loc : string) : M unit :=
  jexpect jobject v loc ;;
  handle_object_pass1 v h loc ;;
  handle_object_pass2 v h loc.

(** The value of one pair as [sysctl_parse] stores it. *)
Definition sysctl_value (i : jvalue) : string :=
  match d i with
  | jtrue => "1"
  | jfalse => "0"
  | _ => u_s i
  end.

Definition sysctl_key (prefix : option string) (i : jvalue) : string :=
  match prefix with
  | Some p => snprintf (String.length p + String.length (n i) + 2) (fmt [p; "."; n i])
  | None => n i
  end.

(** The body of the first loop of [sysctl_parse], which checks the kinds and
    counts the members. *)
Definition sysctl_count (nsc : nat) (i : jvalue) : M nat :=
  match d i with
  | jtrue | jfalse | jstring | jnumber => ret (nsc + 1)%nat
  | _ => errx ["invalid type for key "; dq; n i; dq; " in "; dq; "sysctl_parse"; dq]
  end.

(** [sysctl_parse]: the array it stores through [osc] ([NULL] and 0 for an
    object with no pair). *)
Definition sysctl_parse (v : jvalue) (prefix : option string) (loc : string)
  : M (list rr_sysctl) :=
  nsc <- fold_each (u_v v) sysctl_count O ;;
  if Nat.eqb nsc 0 then ret []
  else ret (map (fun i => mk_sysctl (sysctl_key prefix i) (sysctl_value i)) (u_v v)).

(** The local variables of [handle_bin]'s first loop. *)
Record bin_vars : Type := mk_bin_vars {
  v_bin : option jvalue;
  v_argv : option jvalue;
  v_runmode : option jvalue;
  v_workdir : option jvalue;
  v_sysctl : option jvalue
}.

Section Interpreter.

Variable plat : platform.

(** A call to the platform: it is recorded, and answered from what was
    called before. *)
Definition sys (c : call) : M sysret :=
  fun w => (Ret (os plat (history w) c)
                (mk_world (rumprun_execs w) (history w ++ [c])), []).

(** [handle_rc_dummy].  The C code leaves [rre_workdir], [rre_sc] and
    [rre_nsc] of the entries it makes unset; they are empty here. *)
Definition handle_rc_dummy : M nat :=
  for_each (rumprun_bins plat) (fun b =>
    TAILQ_INSERT_TAIL (mk_rre (main b) 0 None [] [binname b])) ;;
  ret (length (rumprun_bins plat)).

Definition getmain (bin : string) : M (option rre_mainfn) :=
  if streq "*" bin then
    match rumprun_bins plat with
    | b :: _ => ret (Some (main b))
    | [] => null_deref
    end
  else ret (option_map main (find (fun b => streq (binname b) bin) (rumprun_bins plat))).

(** The loop over the members of [netbsd] inside an [rc] entry. *)
Definition handle_bin_netbsd (vars : bin_vars) (j : jvalue) : M bin_vars :=
  if streq (n j) "sysctl" then
    jexpect jobject j "handle_bin" ;;
    ret (mk_bin_vars (v_bin vars) (v_argv vars) (v_runmode vars) (v_workdir vars) (Some j))
  else errx ["unexpected key "; dq; n j; dq; " in "; dq; "handle_bin"; dq].

(** The body of the first loop of [handle_bin]. *)
Definition handle_bin_scan (vars : bin_vars) (i : jvalue) : M bin_vars :=
  if streq (n i) "bin" then
    jexpect jstring i "handle_bin" ;;
    ret (mk_bin_vars (Some i) (v_argv vars) (v_runmode vars) (v_workdir vars) (v_sysctl vars))
  else if streq (n i) "argv" then
    jexpect jarray i "handle_bin" ;;
    ret (mk_bin_vars (v_bin vars) (Some i) (v_runmode vars) (v_workdir vars) (v_sysctl vars))
  else if streq (n i) "runmode" then
    jexpect jstring i "handle_bin" ;;
    ret (mk_bin_vars (v_bin vars) (v_argv vars) (Some i) (v_workdir vars) (v_sysctl vars))
  else if streq (n i) "workdir" then
    jexpect jstring i "handle_bin" ;;
    ret (mk_bin_vars (v_bin vars) (v_argv vars) (v_runmode vars) (Some i) (v_sysctl vars))
  else if streq (n i) "netbsd" then
    jexpect jobject i "handle_bin" ;;
    fold_each (u_v i) handle_bin_netbsd vars
  else errx ["unexpected key "; dq; n i; dq; " in "; dq; "handle_bin"; dq].

Definition handle_bin (v : jvalue) (loc : string) : M unit :=
  jexpect jobject v "handle_bin" ;;
  (* process and validate data *)
  vars <- fold_each (u_v v) handle_bin_scan (mk_bin_vars None None None None None) ;;
  match v_bin vars with
  | None => errx ["missing "; dq; "bin"; dq; " for rc entry"]
  | Some vbin =>
    binmain <- getmain (u_s vbin) ;;
    match binmain with
    | None => errx ["unknown "; dq; "bin"; dq; " "; dq; u_s vbin; dq; " in rc entry"]
    | Some binmain =>
      nargv <- match v_argv vars with
               | Some vargv =>
                   for_each (u_v vargv) (fun i => jexpect jstring i "handle_bin") ;;
                   ret (length (u_v vargv))
               | None => ret O
               end ;;
      let have_argv := negb (Nat.eqb nargv 0) in
      rreflags <- match v_runmode vars with
                  | Some vrunmode =>
                      if streq (u_s vrunmode) "" then ret 0%Z
                      else if streq (u_s vrunmode) "&" then ret (RUMPRUN_EXEC_BACKGROUND plat)
                      else if streq (u_s vrunmode) "|" then ret (RUMPRUN_EXEC_PIPE plat)
                      else errx ["invalid runmode "; dq; u_s vrunmode; dq; " for bin "; dq;
                                 u_s vbin; dq]
                  | None => ret 0%Z
                  end ;;
      (* ok, we got everything.  save into rumprun_exec structure *)
      let argv := if have_argv
                  then match v_argv vars with
                       | Some vargv => map u_s (u_v vargv)
                       | None => []
                       end
                  else [u_s vbin] in
      let workdir := option_map u_s (v_workdir vars) in
      sc <- match v_sysctl vars with
            | Some vsysctl => sysctl_parse vsysctl (Some "proc.curproc") "handle_bin"
            | None => ret []
            end ;;
      TAILQ_INSERT_TAIL (mk_rre binmain rreflags workdir sc argv)
    end
  end.

Definition handle_rc (v : jvalue) (loc : string) : M unit :=
  jexpect jarray v "handle_rc" ;;
  for_each (u_v v) (fun i => handle_bin i "handle_rc").

Definition handle_env (v : jvalue) (loc : string) : M unit :=
  jexpect jobject v "handle_env" ;;
  for_each (u_v v) (fun i =>
    jexpect jstring i "handle_env" ;;
    r <- sys (setenv (n i) (u_s i) 1) ;;
    if (rv r =? -1)%Z then err ["setenv"] else ret tt).

Definition config_ipv4 (ifname method : string) (cidr : option string) : M unit :=
  if streq method "dhcp" then
    r <- sys (rump_pub_netconfig_dhcp_ipv4_oneshot ifname) ;;
    if negb (rv r =? 0)%Z
    then errx ["config_ipv4"; ": "; ifname; ": configuring dhcp failed: "; strerror plat (rv r)]
    else ret tt
  else if streq method "static" then
    match cidr with
    | None => errx ["config_ipv4"; ": "; ifname; ": missing "; dq; "addr"; dq]
    | Some cidr =>
      match strchr cidr "/" with
      | None => errx ["config_ipv4"; ": "; ifname; ": invalid "; dq; "addr"; dq; " specified"]
      | Some k =>
        let addr := strupto k cidr in
        let mask := strfrom (k + 1) cidr in
        r <- sys (rump_pub_netconfig_ipv4_ifaddr_cidr ifname addr (atoi mask)) ;;
        if negb (rv r =? 0)%Z
        then errx ["config_ipv4"; ": "; ifname; ": ifconfig "; dq; addr; "/"; mask; dq;
                   " failed: "; strerror plat (rv r)]
        else ret tt
      end
    end
  else errx ["config_ipv4"; ": "; ifname; ": "; "method "; dq; "static"; dq; " or "; dq;
             "dhcp"; dq; " expected, "; "got "; dq; method; dq].

Definition config_ipv6 (ifname method : string) (addrmask : option string) : M unit :=
  if streq method "auto" then
    r <- sys (rump_pub_netconfig_auto_ipv6 ifname) ;;
    if negb (rv r =? 0)%Z
    then errx ["config_ipv6"; ": "; ifname; ": ipv6 autoconfig failed: "; strerror plat (rv r)]
    else ret tt
  else if streq method "static" then
    match addrmask with
    | None => errx ["config_ipv6"; ": "; ifname; ": missing "; dq; "addr"; dq]
    | Some addrmask =>
      match strchr addrmask "/" with
      | None => errx ["config_ipv6"; ": "; ifname; ": invalid "; dq; "addr"; dq; " specified"]
      | Some k =>
        let addr := strupto k addrmask in
        let mask := strfrom (k + 1) addrmask in
        r <- sys (rump_pub_netconfig_ipv6_ifaddr ifname addr (atoi mask)) ;;
        if negb (rv r =? 0)%Z
        then errx ["config_ipv6"; ": "; ifname; ": ifconfig "; dq; addr; "/"; mask; dq;
                   " failed: "; strerror plat (rv r)]
        else ret tt
      end
    end
  else errx ["config_ipv6"; ": "; ifname; ": "; "method "; dq; "static"; dq; " or "; dq;
             "auto"; dq; " expected, "; "got "; dq; method; dq].

(** The members [type], [method] and [addr] are read through [u.s] without
    a look at their kind, here as in the C code. *)
Definition handle_interface (v : jvalue) (loc : string) : M unit :=
  jexpect jobject v "handle_interface" ;;
  let ifname := n v in
  vars <- fold_each (u_v v) (fun (vars : option jvalue * option jvalue) i =>
            let '(addrs, create) := vars in
            if streq (n i) "create" then
              if negb (jtypes_eqb (d i) jtrue) && negb (jtypes_eqb (d i) jfalse)
              then errx ["handle_interface"; ": expected BOOLEAN for key"; dq; "create"; dq;
                         " in "; dq; ifname; dq]
              else ret (addrs, Some i)
            else if streq (n i) "addrs" then
              jexpect jarray i "handle_interface" ;;
              ret (Some i, create)
            else
              warnx ["handle_interface"; ": unexpected key "; dq; n i; dq; " in "; dq;
                     ifname; dq; ", ignored"] ;;
              ret vars) (None, None) ;;
  let '(addrs, create) := vars in
  (match create with
   | Some c =>
       if jtypes_eqb (d c) jtrue then
         r <- sys (rump_pub_netconfig_ifcreate ifname) ;;
         if negb (rv r =? 0)%Z
         then errx ["handle_interface"; ": ifcreate("; ifname; ") failed: ";
                    strerror plat (rv r)]
         else ret tt
       else ret tt
   | None => ret tt
   end) ;;
  match addrs with
  | None =>
      warnx ["handle_interface"; ": no addresses configured for interface "; dq; ifname; dq]
  | Some addrs =>
      for_each (u_v addrs) (fun a =>
        jexpect jobject a "handle_interface" ;;
        tma <- fold_each (u_v a)
                 (fun (tma : option string * option string * option string) i =>
                    let '(type, method, addr) := tma in
                    if streq (n i) "type" then ret (Some (u_s i), method, addr)
                    else if streq (n i) "method" then ret (type, Some (u_s i), addr)
                    else if streq (n i) "addr" then ret (type, method, Some (u_s i))
                    else
                      warnx ["handle_interface"; ": unexpected key "; dq; n i; dq; " in ";
                             dq; ifname; ".addrs[]"; dq] ;;
                      ret tma) (None, None, None) ;;
        let '(type, method, addr) := tma in
        match type, method with
        | Some type, Some method =>
            if streq type "inet" then config_ipv4 ifname method addr
            else if streq type "inet6" then config_ipv6 ifname method addr
            else errx ["handle_interface"; ": address type "; dq; type; dq;
                       " not supported "; "in "; dq; ifname; ".addrs[]"; dq]
        | _, _ =>
            errx ["handle_interface"; ": missing type/method in "; dq; ifname; ".addrs[]"; dq]
        end)
  end.

Definition handle_interfaces (v : jvalue) (loc : string) : M unit :=
  jexpect jobject v "handle_interfaces" ;;
  for_each (u_v v) (fun i => handle_interface i "handle_interfaces").

Definition handle_gateways (v : jvalue) (loc : string) : M unit :=
  jexpect jarray v "handle_gateways" ;;
  for_each (u_v v) (fun a =>
    jexpect jobject a "handle_gateways" ;;
    ta <- fold_each (u_v a) (fun (ta : option string * option string) i =>
            let '(type, addr) := ta in
            if streq (n i) "type" then ret (Some (u_s i), addr)
            else if streq (n i) "addr" then ret (type, Some (u_s i))
            else
              warnx ["handle_gateways"; ": unexpected key "; dq; n i; dq;
                     " in gateways[], ignored"] ;;
              ret ta) (None, None) ;;
    let '(type, addr) := ta in
    match type, addr with
    | Some type, Some addr =>
        if streq type "inet" then
          r <- sys (rump_pub_netconfig_ipv4_gw addr) ;;
          if negb (rv r =? 0)%Z
          then errx ["handle_gateways"; ": gw "; dq; addr; dq; " addition failed: ";
                     strerror plat (rv r)]
          else ret tt
        else if streq type "inet6" then
          r <- sys (rump_pub_netconfig_ipv6_gw addr) ;;
          if negb (rv r =? 0)%Z
          then errx ["handle_gateways"; ": gw "; dq; addr; dq; " addition failed: ";
                     strerror plat (rv r)]
          else ret tt
        else errx ["handle_gateways"; ": gateway type "; dq; type; dq; " not supported ";
                   "in gateways[]"]
    | _, _ => errx ["handle_gateways"; ": missing type/addr in gateways[]"]
    end).

(** The two loops of [handle_dns].  [cnt] is the C variable [n]; the search
    loop also carries [maxlen] and what it has put into [buf] so far. *)
Definition dns_nameserver_line (addr : string) : string :=
  fmt ["nameserver "; addr; nl].

Fixpoint handle_dns_nameservers (l : list jvalue) (fd : Z) (maxlen : Z) (cnt : nat)
  : M unit :=
  match l with
  | [] => ret tt
  | i :: l' =>
      jexpect jstring i "handle_dns" ;;
      let cnt := S cnt in
      if (3 <? cnt)%nat then errx ["handle_dns"; ": too many nameservers (max 3)"]
      else
        let buf := dns_nameserver_line (u_s i) in
        let len := Z.of_nat (String.length buf) in
        if (maxlen <=? len)%Z
        then errx ["handle_dns"; ": nameserver "; dq; u_s i; dq; " too long"]
        else
          r <- sys (write fd buf) ;;
          if (rv r =? -1)%Z then err ["handle_dns"; ": write"]
          else handle_dns_nameservers l' fd maxlen cnt
  end.

Fixpoint handle_dns_search (l : list jvalue) (maxlen : Z) (cnt : nat) (buf : string)
  : M (nat * string) :=
  match l with
  | [] => ret (cnt, buf)
  | i :: l' =>
      jexpect jstring i "handle_dns" ;;
      let cnt := S cnt in
      if (6 <? cnt)%nat then errx ["handle_dns"; ": too many search domains (max 6)"]
      else
        let piece := fmt [(if Nat.eqb cnt 1 then "search" else ""); " "; u_s i;
                          (match l' with [] => nl | _ :: _ => "" end)] in
        let len := Z.of_nat (String.length piece) in
        if (maxlen <=? len)%Z then errx ["handle_dns"; ": search list too long"]
        else handle_dns_search l' (maxlen - len) cnt (buf ++ piece)
  end.

(** The body of the first loop of [handle_dns]; its variables are
    [nameservers] and [search]. *)
Definition handle_dns_scan (vars : option jvalue * option jvalue) (i : jvalue)
  : M (option jvalue * option jvalue) :=
  let '(nameservers, search) := vars in
  if streq (n i) "nameservers" then
    jexpect jarray i "handle_dns" ;;
    ret (Some i, search)
  else if streq (n i) "search" then
    jexpect jarray i "handle_dns" ;;
    ret (nameservers, Some i)
  else
    warnx ["handle_dns"; ": unexpected key "; dq; n i; dq; ", ignored"] ;;
    ret vars.

(** What [handle_dns] does once it has found one of the two members: it
    makes [/etc], opens the resolver file, writes the lines and closes
    it. *)
Definition handle_dns_write (nameservers search : option jvalue) : M unit :=
  (* Create /etc if it does not exist, and truncate /etc/resolv.conf. *)
  r <- sys (mkdir "/etc" 493) ;;
  (if (rv r =? -1)%Z && negb (errno r =? EEXIST)%Z
   then err ["handle_dns"; ": mkdir("; dq; "/etc"; dq; ")"]
   else ret tt) ;;
  r <- sys (open "/etc/resolv.conf" [O_WRONLY; O_CREAT] 420) ;;
  let fd := rv r in
  (if (fd =? -1)%Z
   then err ["handle_dns"; ": open("; dq; "/etc/resolv.conf"; dq; ")"]
   else ret tt) ;;
  let maxlen := (Z.of_nat (String.length "search ") + 1024 + 2)%Z in
  (match nameservers with
   | Some nameservers => handle_dns_nameservers (u_v nameservers) fd maxlen O
   | None => ret tt
   end) ;;
  (match search with
   | Some search =>
       nb <- handle_dns_search (u_v search) maxlen O "" ;;
       let '(cnt, buf) := nb in
       if (0 <? cnt)%nat then
         r <- sys (write fd buf) ;;
         if (rv r =? -1)%Z then err ["handle_dns"; ": write"] else ret tt
       else ret tt
   | None => ret tt
   end) ;;
  sys (close fd) ;;
  ret tt.

Definition handle_dns (v : jvalue) (loc : string) : M unit :=
  jexpect jobject v "handle_dns" ;;
  vars <- fold_each (u_v v) handle_dns_scan (None, None) ;;
  let '(nameservers, search) := vars in
  match nameservers, search with
  | None, None => ret tt
  | _, _ => handle_dns_write nameservers search
  end.

Definition handlers_net : list jhandler :=
  [ mk_jhandler "interfaces" handle_interfaces;
    mk_jhandler "gateways" handle_gateways;
    mk_jhandler "dns" handle_dns ].

Definition handle_net (v : jvalue) (loc : string) : M unit :=
  handle_object v handlers_net "handle_net".

Definition S_IFBLK : Z := 24576.

Definition CFGMAXSIZE : Z := 64 * 1024.

Definition makevnddev (israw : bool) (unit part : Z) (storagesize : nat) : string :=
  snprintf storagesize
    (fmt ["/dev/"; (if israw then "r" else ""); "vnd"; fmt_d unit;
          String (ascii_of_nat (Z.to_nat ((97 + part) mod 256))) EmptyString]).

Definition getvndmajor (israw : bool) : M Z :=
  let path := makevnddev israw 0 (RAW_PART plat) 32 in
  r <- sys (stat path) ;;
  if (rv r =? -1)%Z then err ["failed to stat "; path]
  else ret (major plat (st_rdev r)).

Definition configvnd (dev path : string) : M unit :=
  match sscanf_vnd_d dev with
  | None => errx ["configvnd"; ": invalid vnd name "; dq; dev; dq]
  | Some unit =>
      let bbuf := makevnddev false unit (RAW_PART plat) 32 in
      let rbuf := makevnddev true unit (RAW_PART plat) 32 in
      r <- sys (open rbuf [O_RDWR] 0) ;;
      fd <- (if (rv r =? -1)%Z then
               (* node doesn't exist?  try creating it.  use majors from vnd0 *)
               fd <- (if (errno r =? ENOENT)%Z then
                        bmaj <- getvndmajor false ;;
                        rmaj <- getvndmajor true ;;
                        r1 <- sys (mknod bbuf (Z.lor 438 S_IFBLK) bmaj unit (RAW_PART plat)) ;;
                        (if (rv r1 =? -1)%Z then err ["configvnd"; ": mknod "; bbuf]
                         else ret tt) ;;
                        r2 <- sys (mknod rbuf (Z.lor 438 S_IFBLK) rmaj unit (RAW_PART plat)) ;;
                        (if (rv r2 =? -1)%Z then err ["configvnd"; ": mknod "; rbuf]
                         else ret tt) ;;
                        r3 <- sys (open rbuf [O_RDWR] 0) ;;
                        ret (rv r3)
                      else ret (rv r)) ;;
               if (fd =? -1)%Z then err ["configvnd"; ": open("; rbuf; ")"] else ret fd
             else ret (rv r)) ;;
      r <- sys (ioctl_VNDIOCSET fd path) ;;
      (if (rv r =? -1)%Z then err ["configvnd"; ": VNDIOCSET on "; rbuf; " failed"]
       else ret tt) ;;
      sys (close fd) ;;
      ret tt
  end.

Definition configetfs (dev hostpath : string) (hard : bool) : M unit :=
  let k := snprintf 32 (fmt ["/dev/"; dev]) in
  r <- sys (rump_pub_etfs_register k hostpath) ;;
  if negb (rv r =? 0)%Z && hard
  then errx ["etfs register for "; dq; hostpath; dq; " failed: "; strerror plat (rv r)]
  else ret tt.

Definition handle_blk (v : jvalue) (loc : string) : M unit :=
  jexpect jobject v "handle_blk" ;;
  let dev := n v in
  tp <- fold_each (u_v v) (fun (tp : option string * option string) i =>
          let '(type, path) := tp in
          if streq (n i) "type" then
            jexpect jstring i "handle_blk" ;;
            ret (Some (u_s i), path)
          else if streq (n i) "path" then
            jexpect jstring i "handle_blk" ;;
            ret (type, Some (u_s i))
          else errx ["handle_blk"; ": unexpected key "; dq; n i; dq; " in "; dq; dev; dq])
        (None, None) ;;
  let '(type, path) := tp in
  match type, path with
  | Some type, Some path =>
      if streq type "etfs" then configetfs dev path true
      else if streq type "vnd" then configvnd dev path
      else errx ["handle_blk"; ": unsupported type "; dq; type; dq; " in "; dq; dev; dq]
  | _, _ =>
      errx ["handle_blk"; ": missing "; dq; "path"; dq; "/"; dq; "type"; dq; " in "; dq;
            dev; dq]
  end.

Definition handle_blks (v : jvalue) (loc : string) : M unit :=
  jexpect jobject v "handle_blks" ;;
  for_each (u_v v) (fun i => handle_blk i "handle_blks").

(** [mount(...) == 0]. *)
Definition mount_ok (type : fstype) (mp : string) (flags : list mntflag)
  (args : mount_args) : M bool :=
  r <- sys (mount type mp flags args) ;;
  ret (rv r =? 0)%Z.

Definition mount_blk (dev : option string) (mp : string) (options : option jvalue)
  : M bool :=
  match dev with
  | None => ret false
  | Some dev =>
      ok <- mount_ok MOUNT_FFS mp [] (ufs_args dev) ;;
      if ok then ret true else
      ok <- mount_ok MOUNT_EXT2FS mp [] (ufs_args dev) ;;
      if ok then ret true else
      ok <- mount_ok MOUNT_CD9660 mp [MNT_RDONLY] (iso_args dev) ;;
      if ok then ret true else
      ret false
  end.

Definition mount_kernfs (dev : option string) (mp : string) (options : option jvalue)
  : M bool :=
  ok <- mount_ok MOUNT_KERNFS mp [] no_args ;;
  if ok then ret true else ret false.

Definition mount_tmpfs (dev : option string) (mp : string) (options : option jvalue)
  : M bool :=
  opt_size <- match options with
              | Some options =>
                  jexpect jobject options "mount_tmpfs" ;;
                  fold_each (u_v options) (fun (opt_size : option string) i =>
                    if streq (n i) "size" then
                      jexpect jstring i "mount_tmpfs" ;;
                      ret (Some (u_s i))
                    else errx ["mount_tmpfs"; ": unexpected key "; dq; n i; dq; " in "; dq;
                               "options"; dq]) None
              | None => ret None
              end ;;
  let opt_size := match opt_size with Some s => s | None => "1M" end in
  match dehumanize_number plat opt_size with
  | None => errx ["mount_tmpfs"; ": bad size for "; mp]
  | Some size =>
      ok <- mount_ok MOUNT_TMPFS mp [] (tmpfs_args size 1023) ;;
      if ok then ret true else ret false
  end.

Definition mounters
  : list (string * (option string -> string -> option jvalue -> M bool)) :=
  [ ("blk", mount_blk);
    ("kernfs", mount_kernfs);
    ("tmpfs", mount_tmpfs) ].

(** The [mkdir] of [mkdirhier], which a directory that is there does not
    stop. *)
Definition mkdirhier_mkdir (dir : string) : M unit :=
  r <- sys (mkdir dir 493) ;;
  if (rv r =? -1)%Z && negb (errno r =? EEXIST)%Z
  then err ["mkdirhier"; ": mkdir("; dq; dir; dq; ") failed"]
  else ret tt.

(** The loop of [mkdirhier].  [chunk] is the offset of the C pointer into
    [pathbuf]; every turn but the last moves it forward, so [fuel] turns
    are enough when [fuel] exceeds the length of the path. *)
Fixpoint mkdirhier_loop (fuel : nat) (pathbuf : string) (chunk : nat) : M unit :=
  match fuel with
  | O => ret tt
  | S fuel' =>
      (* find & terminate the next chunk *)
      let chunk := (chunk + strspn (strfrom chunk pathbuf) "/")%nat in
      let chunk := (chunk + strcspn (strfrom chunk pathbuf) "/")%nat in
      let end_ := (String.length pathbuf <=? chunk)%nat in
      mkdirhier_mkdir (strupto chunk pathbuf) ;;
      if end_ then ret tt else mkdirhier_loop fuel' pathbuf chunk
  end.

Definition mkdirhier (path : string) : M unit :=
  mkdirhier_loop (S (String.length path)) path O.

(** The local variables of [handle_mount]'s first loop. *)
Record mount_vars : Type := mk_mount_vars {
  m_source : option string;
  m_path : option string;
  m_options : option jvalue
}.

Definition handle_mount_scan (mp : string) (vars : mount_vars) (i : jvalue) : M mount_vars :=
  if streq (n i) "source" then
    jexpect jstring i "handle_mount" ;;
    ret (mk_mount_vars (Some (u_s i)) (m_path vars) (m_options vars))
  else if streq (n i) "path" then
    jexpect jstring i "handle_mount" ;;
    ret (mk_mount_vars (m_source vars) (Some (u_s i)) (m_options vars))
  else if streq (n i) "options" then
    jexpect jobject i "handle_mount" ;;
    ret (mk_mount_vars (m_source vars) (m_path vars) (Some i))
  else errx ["handle_mount"; ": unexpected key "; dq; n i; dq; " in "; dq; mp; dq].

Definition handle_mount (v : jvalue) (loc : string) : M unit :=
  jexpect jobject v "handle_mount" ;;
  let mp := n v in
  vars <- fold_each (u_v v) (handle_mount_scan mp) (mk_mount_vars None None None) ;;
  match m_source vars with
  | None => errx ["handle_mount"; ": missing "; dq; "source"; dq; " in "; dq; n v; dq]
  | Some source =>
      mkdirhier mp ;;
      match find (fun m => streq source (fst m)) mounters with
      | Some m =>
          ok <- snd m (m_path vars) mp (m_options vars) ;;
          if negb ok
          then err ["handle_mount"; ": mount "; dq;
                    (match m_path vars with Some p => p | None => "(none)" end); dq;
                    " on "; dq; mp; dq; " "; "type "; dq; source; dq; " failed"]
          else ret tt
      | None =>
          errx ["handle_mount"; ": unknown source "; dq; source; dq; " in "; dq; mp; dq]
      end
  end.

Definition handle_mounts (v : jvalue) (loc : string) : M unit :=
  jexpect jobject v "handle_mounts" ;;
  for_each (u_v v) (fun i => handle_mount i "handle_mounts").

Definition handle_sysctl (v : jvalue) (loc : string) : M unit :=
  jexpect jobject v "handle_sysctl" ;;
  sc <- sysctl_parse v None "handle_sysctl" ;;
  for_each sc (fun s =>
    r <- sys (rumprun_sysctlw (key s) (value s)) ;;
    if negb (rv r =? 0)%Z
    then errx ["error writing sysctl key "; dq; key s; dq; ": "; strerror plat (rv r)]
    else ret tt).

Definition handlers_netbsd : list jhandler :=
  [ mk_jhandler "sysctl" handle_sysctl ].

Definition handle_netbsd (v : jvalue) (loc : string) : M unit :=
  handle_object v handlers_netbsd "handle_netbsd".

Definition handlers_root : list jhandler :=
  [ mk_jhandler "netbsd" handle_netbsd;
    mk_jhandler "rc" handle_rc;
    mk_jhandler "env" handle_env;
    mk_jhandler "blk" handle_blks;
    mk_jhandler "mount" handle_mounts;
    mk_jhandler "net" handle_net ].

(** The loop over [tryroot] in [getcmdlinefromroot]: true when one of the
    devices mounted. *)
Fixpoint try_roots (tryroot : list string) : M bool :=
  match tryroot with
  | [] => ret false
  | dev :: rest =>
      ok <- mount_blk (Some dev) "/rootfs" None ;;
      if ok then ret true else try_roots rest
  end.

Definition getcmdlinefromroot (cfgname : string) : M string :=
  r <- sys (mkdir "/rootfs" 511) ;;
  (if (rv r =? -1)%Z then err ["mkdir /rootfs failed"] else ret tt) ;;
  found <- try_roots ["/dev/ld0a"; "/dev/sd0a"] ;;
  (* didn't find it that way.  one more try: etfs for sda1 (EC2) *)
  (if negb found then
     configetfs "rootfs" "blkfront:sda1" false ;;
     ok <- mount_blk (Some "/dev/rootfs") "/rootfs" None ;;
     if negb ok then errx ["failed to mount /rootfs"] else ret tt
   else ret tt) ;;
  (* Ok, we've successfully mounted /rootfs.  Now get the config. *)
  let cfgname := strfrom (strspn cfgname "/") cfgname in
  r <- sys (chdir "/rootfs") ;;
  (if (rv r =? -1)%Z then err ["chdir rootfs"] else ret tt) ;;
  r <- sys (open cfgname [O_RDONLY] 0) ;;
  let fd := rv r in
  (if (fd =? -1)%Z then err ["open "; cfgname] else ret tt) ;;
  sb <- sys (stat cfgname) ;;
  (if (rv sb =? -1)%Z then err ["stat "; cfgname] else ret tt) ;;
  (if (CFGMAXSIZE <? st_size sb)%Z
   then errx ["unbelievable cfg file size, increase CFGMAXSIZE"] else ret tt) ;;
  r <- sys (read fd (st_size sb)) ;;
  (if negb (rv r =? st_size sb)%Z then err ["read cfgfile"] else ret tt) ;;
  sys (close fd) ;;
  ret (data r).

Definition ROOTCFG : string := "_RUMPRUN_ROOTFSCFG=".

Definition rumprun_config_path (cmdline : string) : option string :=
  match strstr cmdline ROOTCFG with
  | Some k => Some (strfrom (k + String.length ROOTCFG) cmdline)
  | None => None
  end.

(** The end of [rumprun_config], from the comment on the missing [rc] on:
    the default plan when the queue is empty, then the sanity check. *)
Definition rumprun_config_finish : M unit :=
  rre <- TAILQ_LAST ;;
  rre <- match rre with
         | None =>
             nbins <- handle_rc_dummy ;;
             (if Nat.eqb nbins 0 then errx ["internal error: no rumprun_execs[]"]
              else ret tt) ;;
             TAILQ_LAST
         | Some _ => ret rre
         end ;;
  match rre with
  | Some rre =>
      if negb (Z.land (rre_flags rre) (RUMPRUN_EXEC_PIPE plat) =? 0)%Z
      then errx ["rumprun_config: last rc entry may not output to pipe"]
      else ret tt
  | None => null_deref
  end.

(** What [rumprun_config] does with the document once it has it. *)
Definition rumprun_config_root (root : jvalue) : M unit :=
  handle_object root handlers_root "rumprun_config".

Definition rumprun_config (cmdline : string) : M unit :=
  (* is the config file on rootfs?  if so, mount & dig it out *)
  cmdline <- match rumprun_config_path cmdline with
             | Some cfg => getcmdlinefromroot cfg
             | None => ret cmdline
             end ;;
  (match strchr cmdline "{" with
   | None => warnx ["could not find start of json.  no config?"]
   | Some k =>
       match jparse plat (strfrom k cmdline) with
       | None => errx ["jparse failed"]
       | Some root => rumprun_config_root root
       end
   end) ;;
  rumprun_config_finish.

End Interpreter.

(** ** The order in which pass 2 calls the handlers *)


(** Two computations that do the same in every world. *)
Definition meq {A : Type} (m1 m2 : M A) : Prop := forall w, m1 w = m2 w.

(** ** Reading an object as the handlers do *)

(** The last member of [l] with the key [k]: the one a loop that stores
    every match in the same variable is left with. *)
Fixpoint find_last (k : string) (l : list jvalue) : option jvalue :=
  match l with
  | [] => None
  | x :: l' =>
      match find_last k l' with
      | Some y => Some y
      | None => if streq (n x) k then Some x else None
      end
  end.

Definition orelse {A : Type} (a b : option A) : option A :=
  match a with Some x => Some x | None => b end.

(** The [sysctl] object of an [rc] entry: the last member [sysctl] of its
    members [netbsd]. *)
Definition rc_sysctl (l : list jvalue) : option jvalue :=
  find_last "sysctl" (flat_map u_v (filter (fun i => streq (n i) "netbsd") l)).

(** The members [handle_bin] accepts in an [rc] entry: [bin], [runmode]
    and [workdir] that are strings, [argv] that is an array, and [netbsd]
    that is an object with nothing but objects [sysctl]. *)
Definition rc_member_ok (i : jvalue) : bool :=
  (streq (n i) "bin" && jtypes_eqb (d i) jstring)
  || (streq (n i) "argv" && jtypes_eqb (d i) jarray)
  || (streq (n i) "runmode" && jtypes_eqb (d i) jstring)
  || (streq (n i) "workdir" && jtypes_eqb (d i) jstring)
  || (streq (n i) "netbsd" && jtypes_eqb (d i) jobject
      && forallb (fun j => streq (n j) "sysctl" && jtypes_eqb (d j) jobject) (u_v i)).

(** The members [handle_mount] accepts in a mount entry. *)
Definition mount_member_ok (i : jvalue) : bool :=
  (streq (n i) "source" && jtypes_eqb (d i) jstring)
  || (streq (n i) "path" && jtypes_eqb (d i) jstring)
  || (streq (n i) "options" && jtypes_eqb (d i) jobject).

(** The directories on the way to [rest], [seen] being the part of the
    path that has been read and [in_seg] telling whether it ends inside a
    name: the path up to the end of each of its names, and the whole
    path. *)
Fixpoint dir_prefixes_from (seen : string) (in_seg : bool) (rest : string) : list string :=
  match rest with
  | EmptyString => [seen]
  | String c rest' =>
      if Ascii.eqb c "/"
      then (if in_seg then [seen] else [])
           ++ dir_prefixes_from (seen ++ "/") false rest'
      else dir_prefixes_from (seen ++ String c EmptyString) true rest'
  end.

Definition dir_prefixes (path : string) : list string :=
  dir_prefixes_from "" false path.

(** ** Documents and a platform to run the interpreter on *)

Definition jstr (k s : string) : jvalue := Jvalue k jstring s [].

Definition jnum (k s : string) : jvalue := Jvalue k jnumber s [].

Definition jbool (k : string) (b : bool) : jvalue :=
  Jvalue k (if b then jtrue else jfalse) "" [].

Definition jarr (k : string) (l : list jvalue) : jvalue := Jvalue k jarray "" l.

Definition jobj (k : string) (l : list jvalue) : jvalue := Jvalue k jobject "" l.

(** A platform on which every call succeeds with 0; two programs are baked
    in. *)
Definition quiet_os (h : list call) (c : call) : sysret := mk_sysret 0 0 0 0 "".

Definition demo_bins : list rumprun_bin := [mk_bin "foo" 1; mk_bin "bar" 2].

Definition demo_plat : platform :=
  mk_platform demo_bins 1 2 3 (fun r => r) (fun _ => "error")
    (fun _ => Some 1048576%Z) (fun _ => None) quiet_os.

Definition w0 : world := mk_world [] [].

(** A file system that starts with [/] and [/mnt]: [mkdir] fails with
    [EEXIST] on a directory that is there or that an earlier [mkdir] of
    the history made. *)
Definition made_before (h : list call) (p : string) : bool :=
  existsb (fun c => match c with mkdir q _ => streq q p | _ => false end) h.

Definition fs_os (h : list call) (c : call) : sysret :=
  match c with
  | mkdir p _ =>
      if streq p "/" || streq p "/mnt" || made_before h p
      then mk_sysret (-1) EEXIST 0 0 ""
      else mk_sysret 0 0 0 0 ""
  | _ => mk_sysret 0 0 0 0 ""
  end.

Definition fs_plat : platform :=
  mk_platform demo_bins 1 2 3 (fun r => r) (fun _ => "error")
    (fun _ => Some 1048576%Z) (fun _ => None) fs_os.

(** ** Notions the statements use *)



(** A string of digits. *)
Fixpoint all_digits (s : string) : bool :=
  match s with
  | String a s' => isdigit a && all_digits s'
  | EmptyString => true
  end.

(** A string that does not go on with a digit. *)
Definition no_digit_ahead (s : string) : bool :=
  match s with
  | String a _ => negb (isdigit a)
  | EmptyString => true
  end.

(** A character that is neither white space, a sign nor a digit. *)
Definition starts_number (a : ascii) : bool :=
  isspace a || isdigit a || Ascii.eqb a "-" || Ascii.eqb a "+".

(** The assignments [sysctl_parse] makes of the members [l]. *)
Definition sysctl_list (prefix : option string) (l : list jvalue) : list rr_sysctl :=
  map (fun i =>
         mk_sysctl
           (match prefix with
            | Some p => (p ++ "." ++ n i)%string
            | None => n i
            end)
           (match d i with
            | jtrue => "1"
            | jfalse => "0"
            | _ => u_s i
            end)) l.

(** The argument vector of an [rc] entry with the members [l] and the
    program name [bin]. *)
Definition rc_argv (l : list jvalue) (bin : string) : list string :=
  match find_last "argv" l with
  | Some a => match u_v a with [] => [bin] | _ :: _ => map u_s (u_v a) end
  | None => [bin]
  end.

(** Its sysctl assignments. *)
Definition rc_sc (l : list jvalue) : list rr_sysctl :=
  match rc_sysctl l with
  | Some o => sysctl_list (Some "proc.curproc") (u_v o)
  | None => []
  end.

(** A computation that does not touch the exec queue, however it ends. *)
Definition keeps_execs {A : Type} (m : M A) : Prop :=
  forall w, rumprun_execs (world_of (run m w)) = rumprun_execs w.

(** The plan [handle_rc_dummy] makes of the registry. *)
Definition dummy_plan (bins : list rumprun_bin) : list rumprun_exec :=
  map (fun b => mk_rre (main b) 0 None [] [binname b]) bins.

(** An inline document: the command line names no file of the root file
    system, and the parser makes [root] of what starts at the first
    brace. *)
Definition inline_document (plat : platform) (cmdline : string) (root : jvalue) : Prop :=
  rumprun_config_path cmdline = None /\
  exists k, strchr cmdline "{" = Some k /\ jparse plat (strfrom k cmdline) = Some root.

(** The part of pass 2 that one entry of the table makes. *)
Definition slot (v : jvalue) (hj : jhandler) (loc : string) : M unit :=
  for_each (u_v v) (fun i => if streq (n i) (name hj) then handler hj i loc else ret tt).

(** The world after the calls [cs]. *)
Definition called (w : world) (cs : list call) : world :=
  mk_world (rumprun_execs w) (history w ++ cs).

(** A platform on which nothing fails but [mkdir] on a directory that is
    there already. *)
Definition benign (plat : platform) : Prop :=
  forall h c, rv (os plat h c) = (-1)%Z ->
              (exists p m, c = mkdir p m) /\ errno (os plat h c) = EEXIST.

(** What the search loop puts into the buffer for the domains [ds]. *)
Fixpoint search_pieces (first : bool) (ds : list string) : string :=
  match ds with
  | [] => ""
  | d0 :: ds' =>
      ((if first then "search" else "") ++ " " ++ d0
       ++ match ds' with [] => nl | _ :: _ => "" end)
      ++ search_pieces false ds'
  end.

(** The search line: the domains joined by spaces. *)
Definition dns_search_line (ds : list string) : string :=
  ("search " ++ String.concat " " ds ++ nl)%string.

(** The calls that write the resolver file for the name servers [a] and
    the search domains [s] through the descriptor [fd]. *)
Definition resolv_conf_calls (fd : Z) (a s : list string) : list call :=
  [mkdir "/etc" 493; open "/etc/resolv.conf" [O_WRONLY; O_CREAT] 420]
  ++ map (fun x => write fd ("nameserver " ++ x ++ nl)%string) a
  ++ [write fd ("search " ++ String.concat " " s ++ nl)%string; close fd].

(** A resolver configuration with three name servers and six search
    domains. *)
Definition dns_full : jvalue :=
  jobj "dns"
    [jarr "nameservers" [jstr "" "10.0.0.1"; jstr "" "10.0.0.2"; jstr "" "10.0.0.3"];
     jarr "search" [jstr "" "a.example"; jstr "" "b.example"; jstr "" "c.example";
                    jstr "" "d.example"; jstr "" "e.example"; jstr "" "f.example"]].

(** ** Notions the further properties use *)

(** An outcome that left the world as it was: a result for which [P]
    holds, or the exit of an [errx]. *)
Definition pure_outcome {A : Type} (r : outcome A) (w : world) (P : A -> Prop) : Prop :=
  match r with
  | Ret a w' => w' = w /\ P a
  | Exit e w' => w' = w /\ exists msg, e = Errx msg
  end.

(** The entry [rre] is the one the [rc] element [e] asks for: the entry
    point of its last [bin], the flags of its last [runmode], its
    argument vector, working directory and sysctl assignments. *)
Definition rc_entry_of (plat : platform) (e : jvalue) (rre : rumprun_exec) : Prop :=
  exists vbin,
    find_last "bin" (u_v e) = Some vbin /\
    (forall w, run (getmain plat (u_s vbin)) w = Ret (Some (rre_main rre)) w) /\
    match find_last "runmode" (u_v e) with
    | None => rre_flags rre = 0%Z
    | Some r =>
        (u_s r = "" /\ rre_flags rre = 0%Z) \/
        (u_s r = "&" /\ rre_flags rre = RUMPRUN_EXEC_BACKGROUND plat) \/
        (u_s r = "|" /\ rre_flags rre = RUMPRUN_EXEC_PIPE plat)
    end /\
    rre_argv rre = rc_argv (u_v e) (u_s vbin) /\
    rre_workdir rre = option_map u_s (find_last "workdir" (u_v e)) /\
    rre_sc rre = rc_sc (u_v e).

(** The call a [gateways] element asks for: that of its last [type] for
    its last [addr]. *)
Definition gateway_call (a : jvalue) : option call :=
  match find_last "type" (u_v a), find_last "addr" (u_v a) with
  | Some t, Some ad =>
      if streq (u_s t) "inet" then Some (rump_pub_netconfig_ipv4_gw (u_s ad))
      else if streq (u_s t) "inet6" then Some (rump_pub_netconfig_ipv6_gw (u_s ad))
      else None
  | _, _ => None
  end.

(** The members [handle_interface] accepts in an interface: a boolean
    [create], an array [addrs], and whatever has another name. *)
Definition interface_member_ok (i : jvalue) : bool :=
  if streq (n i) "create" then jtypes_eqb (d i) jtrue || jtypes_eqb (d i) jfalse
  else if streq (n i) "addrs" then jtypes_eqb (d i) jarray
  else true.

(** The creation of the interface [v], asked for by a last [create] that
    is true. *)
Definition create_calls (v : jvalue) : list call :=
  match find_last "create" (u_v v) with
  | Some c => if jtypes_eqb (d c) jtrue then [rump_pub_netconfig_ifcreate (n v)] else []
  | None => []
  end.

(** An address with its prefix length, cut at the first slash. *)
Definition addr_mask (ad : option string) : option (string * Z) :=
  match ad with
  | Some ad =>
      match strchr ad "/" with
      | Some k => Some (strupto k ad, atoi (strfrom (k + 1) ad))
      | None => None
      end
  | None => None
  end.

(** The one call [config_ipv4] makes for a method and an address, when it
    makes one. *)
Definition ipv4_call (ifname method : string) (cidr : option string) : option call :=
  if streq method "dhcp" then Some (rump_pub_netconfig_dhcp_ipv4_oneshot ifname)
  else if streq method "static" then
    option_map (fun am => rump_pub_netconfig_ipv4_ifaddr_cidr ifname (fst am) (snd am))
               (addr_mask cidr)
  else None.

(** The same for [config_ipv6]. *)
Definition ipv6_call (ifname method : string) (addrmask : option string) : option call :=
  if streq method "auto" then Some (rump_pub_netconfig_auto_ipv6 ifname)
  else if streq method "static" then
    option_map (fun am => rump_pub_netconfig_ipv6_ifaddr ifname (fst am) (snd am))
               (addr_mask addrmask)
  else None.

(** The call an element of [addrs] of the interface [ifname] asks for, by
    its last [type], [method] and [addr]. *)
Definition addr_call (ifname : string) (a : jvalue) : option call :=
  match find_last "type" (u_v a), find_last "method" (u_v a) with
  | Some t, Some m =>
      if streq (u_s t) "inet"
      then ipv4_call ifname (u_s m) (option_map u_s (find_last "addr" (u_v a)))
      else if streq (u_s t) "inet6"
      then ipv6_call ifname (u_s m) (option_map u_s (find_last "addr" (u_v a)))
      else None
  | _, _ => None
  end.

(** The body of the first loop of [handle_interface], under a name. *)
Definition handle_interface_scan (ifname : string) (vars : option jvalue * option jvalue)
  (i : jvalue) : M (option jvalue * option jvalue) :=
  let '(addrs, create) := vars in
  if streq (n i) "create" then
    if negb (jtypes_eqb (d i) jtrue) && negb (jtypes_eqb (d i) jfalse)
    then errx ["handle_interface"; ": expected BOOLEAN for key"; dq; "create"; dq;
               " in "; dq; ifname; dq]
    else ret (addrs, Some i)
  else if streq (n i) "addrs" then
    jexpect jarray i "handle_interface" ;;
    ret (Some i, create)
  else
    warnx ["handle_interface"; ": unexpected key "; dq; n i; dq; " in "; dq;
           ifname; dq; ", ignored"] ;;
    ret vars.

(** The body of its loop over [addrs], under a name. *)
Definition handle_interface_addr (plat : platform) (ifname : string) (a : jvalue) : M unit :=
  jexpect jobject a "handle_interface" ;;
  tma <- fold_each (u_v a)
           (fun (tma : option string * option string * option string) i =>
              let '(type, method, addr) := tma in
              if streq (n i) "type" then ret (Some (u_s i), method, addr)
              else if streq (n i) "method" then ret (type, Some (u_s i), addr)
              else if streq (n i) "addr" then ret (type, method, Some (u_s i))
              else
                warnx ["handle_interface"; ": unexpected key "; dq; n i; dq; " in ";
                       dq; ifname; ".addrs[]"; dq] ;;
                ret tma) (None, None, None) ;;
  let '(type, method, addr) := tma in
  match type, method with
  | Some type, Some method =>
      if streq type "inet" then config_ipv4 plat ifname method addr
      else if streq type "inet6" then config_ipv6 plat ifname method addr
      else errx ["handle_interface"; ": address type "; dq; type; dq;
                 " not supported "; "in "; dq; ifname; ".addrs[]"; dq]
  | _, _ =>
      errx ["handle_interface"; ": missing type/method in "; dq; ifname; ".addrs[]"; dq]
  end.

(** The members [handle_blk] accepts in a block device: strings [type]
    and [path]. *)
Definition blk_member_ok (i : jvalue) : bool :=
  (streq (n i) "type" || streq (n i) "path") && jtypes_eqb (d i) jstring.

(** The body of the loop of [handle_blk], under a name. *)
Definition handle_blk_scan (dev : string) (tp : option string * option string) (i : jvalue)
  : M (option string * option string) :=
  let '(type, path) := tp in
  if streq (n i) "type" then
    jexpect jstring i "handle_blk" ;;
    ret (Some (u_s i), path)
  else if streq (n i) "path" then
    jexpect jstring i "handle_blk" ;;
    ret (type, Some (u_s i))
  else errx ["handle_blk"; ": unexpected key "; dq; n i; dq; " in "; dq; dev; dq].

(** The body of the loop of [mount_tmpfs], under a name. *)
Definition mount_tmpfs_scan (opt_size : option string) (i : jvalue) : M (option string) :=
  if streq (n i) "size" then
    jexpect jstring i "mount_tmpfs" ;;
    ret (Some (u_s i))
  else errx ["mount_tmpfs"; ": unexpected key "; dq; n i; dq; " in "; dq;
             "options"; dq].

(** A platform on which [mkdir] fails for no other reason than that the
    directory is there. *)
Definition mkdir_tolerant (plat : platform) : Prop :=
  forall h p m, rv (os plat h (mkdir p m)) = (-1)%Z ->
                errno (os plat h (mkdir p m)) = EEXIST.

(** The mounts [mount_blk] tries, in its order. *)
Definition blk_probes (dev mp : string) : list call :=
  [ mount MOUNT_FFS mp [] (ufs_args dev);
    mount MOUNT_EXT2FS mp [] (ufs_args dev);
    mount MOUNT_CD9660 mp [MNT_RDONLY] (iso_args dev) ].

(** The size [mount_tmpfs] asks for: the last [size] of the options, or
    one megabyte. *)
Definition tmpfs_size (options : option jvalue) : string :=
  match options with
  | Some o => match find_last "size" (u_v o) with Some s => u_s s | None => "1M" end
  | None => "1M"
  end.

(** A platform without the device nodes of [vnd]: [open] fails with
    [ENOENT] until a node has been made. *)
Definition vnd_os (h : list call) (c : call) : sysret :=
  match c with
  | open _ _ _ =>
      if existsb (fun c' => match c' with mknod _ _ _ _ _ => true | _ => false end) h
      then mk_sysret 3 0 0 0 ""
      else mk_sysret (-1) ENOENT 0 0 ""
  | _ => mk_sysret 0 0 0 0 ""
  end.

Definition vnd_plat : platform :=
  mk_platform demo_bins 1 2 3 (fun r => r) (fun _ => "error")
    (fun _ => Some 1048576%Z) (fun _ => None) vnd_os.

(** A file system with [/mnt] that takes no new directory: [mkdir] fails
    with [EROFS] but on [/mnt], which is there. *)
Definition EROFS : Z := 30.

Definition ro_os (h : list call) (c : call) : sysret :=
  match c with
  | mkdir p _ =>
      if streq p "/mnt" then mk_sysret (-1) EEXIST 0 0 ""
      else mk_sysret (-1) EROFS 0 0 ""
  | _ => mk_sysret 0 0 0 0 ""
  end.

Definition ro_plat : platform :=
  mk_platform demo_bins 1 2 3 (fun r => r) (fun _ => "error")
    (fun _ => Some 1048576%Z) (fun _ => None) ro_os.

(** A machine without a disk: every [mount] fails. *)
Definition ENXIO : Z := 6.

Definition diskless_os (h : list call) (c : call) : sysret :=
  match c with
  | mount _ _ _ _ => mk_sysret (-1) ENXIO 0 0 ""
  | _ => mk_sysret 0 0 0 0 ""
  end.

Definition diskless_plat : platform :=
  mk_platform demo_bins 1 2 3 (fun r => r) (fun _ => "error")
    (fun _ => Some 1048576%Z) (fun _ => None) diskless_os.

(** Every call [m] makes satisfies [P]. *)
Definition emits {A : Type} (P : call -> Prop) (m : M A) : Prop :=
  forall w, exists cs,
    history (world_of (run m w)) = (history w ++ cs)%list /\ Forall P cs.

(** A [read] of at most [CFGMAXSIZE] bytes, or another call. *)
Definition small_read (c : call) : Prop :=
  match c with
  | read _ nbytes => (nbytes <= CFGMAXSIZE)%Z
  | _ => True
  end.

(** The lines [handle_dns] writes for its two members: one for each name
    server, and one for the search domains when there are some. *)
Definition resolv_conf_writes (fd : Z) (ns sd : option jvalue) : list call :=
  (match ns with
   | Some a => map (fun i => write fd ("nameserver " ++ u_s i ++ nl)%string) (u_v a)
   | None => []
   end ++
   match sd with
   | Some s =>
       match u_v s with
       | [] => []
       | _ :: _ => [write fd ("search " ++ String.concat " " (map u_s (u_v s)) ++ nl)%string]
       end
   | None => []
   end)%list.

(** ** Laws of the monad *)

Lemma run_ret {A : Type} (a : A) (w : world) : run (ret a) w = Ret a w.
Proof. reflexivity. Qed.

Lemma run_bind {A B : Type} (m : M A) (f : A -> M B) (w : world) :
  run (bind m f) w =
  match run m w with
  | Ret a w' => run (f a) w'
  | Exit e w' => Exit e w'
  end.
Proof.
  unfold run, bind.
  destruct (m w) as [[a w' | e w'] l1]; simpl; [ | reflexivity ].
  destruct (f a w'); reflexivity.
Qed.

Lemma warnings_bind {A B : Type} (m : M A) (f : A -> M B) (w : world) :
  warnings (bind m f) w =
  warnings m w ++ match run m w with
                  | Ret a w' => warnings (f a) w'
                  | Exit _ _ => []
                  end.
Proof.
  unfold warnings, run, bind.
  destruct (m w) as [[a w' | e w'] l1]; simpl.
  - destruct (f a w'); reflexivity.
  - now rewrite app_nil_r.
Qed.

Lemma run_errx {A : Type} (pieces : list string) (w : world) :
  run (@errx A pieces) w = Exit (Errx (fmt pieces)) w.
Proof. reflexivity. Qed.

Lemma run_err {A : Type} (pieces : list string) (w : world) :
  run (@err A pieces) w = Exit (Err (fmt pieces)) w.
Proof. reflexivity. Qed.

Lemma run_warnx (pieces : list string) (w : world) : run (warnx pieces) w = Ret tt w.
Proof. reflexivity. Qed.

Lemma run_jexpect (t : jtypes) (v : jvalue) (loc : string) (w : world) :
  run (jexpect t v loc) w =
  if jtypes_eqb (d v) t then Ret tt w
  else Exit (Errx (fmt [loc; ": expected "; jtypestr t; ", got "; jtypestr (d v)])) w.
Proof. unfold jexpect. now destruct (jtypes_eqb (d v) t). Qed.

Lemma run_sys (plat : platform) (c : call) (w : world) :
  run (sys plat c) w =
  Ret (os plat (history w) c) (mk_world (rumprun_execs w) (history w ++ [c])).
Proof. reflexivity. Qed.

Lemma run_TAILQ_INSERT_TAIL (rre : rumprun_exec) (w : world) :
  run (TAILQ_INSERT_TAIL rre) w = Ret tt (mk_world (rumprun_execs w ++ [rre]) (history w)).
Proof. reflexivity. Qed.

Lemma run_TAILQ_LAST (w : world) :
  run TAILQ_LAST w = Ret (last (map Some (rumprun_execs w)) None) w.
Proof. reflexivity. Qed.

Create Rewrite HintDb run.

#[local] Hint Rewrite @run_ret @run_bind @run_errx @run_err run_warnx run_jexpect run_sys
  run_TAILQ_INSERT_TAIL run_TAILQ_LAST : run.

Ltac mrun := autorewrite with run; cbn beta iota.

Lemma jtypes_eqb_eq (a b : jtypes) : jtypes_eqb a b = true <-> a = b.
Proof. destruct a, b; simpl; split; congruence. Qed.

Lemma jtypes_eqb_refl (a : jtypes) : jtypes_eqb a a = true.
Proof. now destruct a. Qed.

Lemma meq_refl {A : Type} (m : M A) : meq m m.
Proof. now intros w. Qed.

Lemma meq_trans {A : Type} (m1 m2 m3 : M A) : meq m1 m2 -> meq m2 m3 -> meq m1 m3.
Proof. intros H1 H2 w. now rewrite H1. Qed.

Lemma meq_bind {A B : Type} (m1 m2 : M A) (f1 f2 : A -> M B) :
  meq m1 m2 -> (forall a, meq (f1 a) (f2 a)) -> meq (bind m1 f1) (bind m2 f2).
Proof.
  intros Hm Hf w. unfold bind. rewrite Hm.
  destruct (m2 w) as [[a w' | e w'] l1]; [ now rewrite Hf | reflexivity ].
Qed.

Lemma bind_ret_l {A B : Type} (a : A) (f : A -> M B) : meq (bind (ret a) f) (f a).
Proof. intros w. unfold bind, ret. now destruct (f a w). Qed.

Lemma bind_ret_r {A : Type} (m : M A) : meq (bind m ret) m.
Proof.
  intros w. unfold bind, ret.
  destruct (m w) as [[a w' | e w'] l1]; [ now rewrite app_nil_r | reflexivity ].
Qed.

Lemma bind_assoc {A B C : Type} (m : M A) (f : A -> M B) (g : B -> M C) :
  meq (bind (bind m f) g) (bind m (fun a => bind (f a) g)).
Proof.
  intros w. unfold bind.
  destruct (m w) as [[a w1 | e w1] l1]; [ | reflexivity ].
  destruct (f a w1) as [[b w2 | e w2] l2]; [ | reflexivity ].
  destruct (g b w2) as [r l3]. now rewrite app_assoc.
Qed.

(** ** Loops *)

Lemma for_each_ext {A : Type} (l : list A) (b1 b2 : A -> M unit) :
  (forall x, In x l -> meq (b1 x) (b2 x)) -> meq (for_each l b1) (for_each l b2).
Proof.
  induction l as [ | x l IH]; intros H; simpl.
  - apply meq_refl.
  - apply meq_bind; [ apply H; now left | intros _; apply IH ].
    intros y Hy. apply H. now right.
Qed.

Lemma for_each_app {A : Type} (l1 l2 : list A) (body : A -> M unit) :
  meq (for_each (l1 ++ l2) body) (for_each l1 body ;; for_each l2 body).
Proof.
  induction l1 as [ | x l1 IH]; simpl.
  - intros w. symmetry. apply (bind_ret_l tt (fun _ => for_each l2 body)).
  - eapply meq_trans; [ | intros w; symmetry; apply bind_assoc ].
    apply meq_bind; [ apply meq_refl | intros _; apply IH ].
Qed.

Lemma for_each_map {A B : Type} (g : A -> B) (l : list A) (body : B -> M unit) :
  meq (for_each (map g l) body) (for_each l (fun x => body (g x))).
Proof.
  induction l as [ | x l IH]; simpl; [ apply meq_refl | ].
  apply meq_bind; [ apply meq_refl | intros _; apply IH ].
Qed.

Lemma for_each_filter {A : Type} (p : A -> bool) (l : list A) (body : A -> M unit) :
  meq (for_each l (fun x => if p x then body x else ret tt)) (for_each (filter p l) body).
Proof.
  induction l as [ | x l IH]; simpl; [ apply meq_refl | ].
  destruct (p x); simpl.
  - apply meq_bind; [ apply meq_refl | intros _; apply IH ].
  - eapply meq_trans; [ apply (bind_ret_l tt (fun _ => for_each l _)) | apply IH ].
Qed.


(** Pass 1 neither stops nor touches the world. *)
Lemma handle_object_pass1_run (v : jvalue) (h : list jhandler) (loc : string) (w : world) :
  run (handle_object_pass1 v h loc) w = Ret tt w.
Proof.
  unfold handle_object_pass1.
  induction (u_v v) as [ | i l IH]; simpl; [ reflexivity | ].
  rewrite run_bind.
  destruct (existsb _ h); now mrun.
Qed.


Lemma handle_object_run (v : jvalue) (h : list jhandler) (loc : string) (w : world) :
  d v = jobject ->
  run (handle_object v h loc) w = run (handle_object_pass2 v h loc) w.
Proof.
  intros Hd. unfold handle_object.
  rewrite run_bind, run_jexpect, Hd. cbn [jtypes_eqb].
  now rewrite run_bind, handle_object_pass1_run.
Qed.






(** *** Claim C1 *)




(** *** Claim C9 *)



(** ** The sysctl translator *)

Lemma fmt_3 (a b c : string) : fmt [a; b; c] = (a ++ b ++ c)%string.
Proof. reflexivity. Qed.

Lemma strupto_length (s : string) : strupto (String.length s) s = s.
Proof. induction s as [ | a s IH]; simpl; [ reflexivity | now rewrite IH ]. Qed.

Lemma string_length_app (a b : string) :
  String.length (a ++ b) = (String.length a + String.length b)%nat.
Proof. induction a as [ | c a IH]; simpl; [ reflexivity | now rewrite IH ]. Qed.

(** The buffer [sysctl_parse] allocates for a prefixed key is exactly large
    enough. *)
Lemma sysctl_key_prefix (p : string) (i : jvalue) :
  sysctl_key (Some p) i = (p ++ "." ++ n i)%string.
Proof.
  unfold sysctl_key, snprintf. rewrite fmt_3.
  replace (String.length p + String.length (n i) + 2 - 1)%nat
    with (String.length (p ++ "." ++ n i)).
  - apply strupto_length.
  - rewrite !string_length_app. simpl. lia.
Qed.

Lemma sysctl_count_ok (l : list jvalue) (k : nat) (w : world) :
  Forall (fun i => In (d i) [jtrue; jfalse; jstring; jnumber]) l ->
  run (fold_each l sysctl_count k) w = Ret (k + length l)%nat w.
Proof.
  intros H. revert k. induction H as [ | i l Hi _ IH]; intros k; simpl.
  - now rewrite Nat.add_0_r.
  - rewrite run_bind. unfold sysctl_count at 1.
    assert (Hr : run (match d i with
                      | jtrue | jfalse | jstring | jnumber => ret (k + 1)%nat
                      | _ => errx ["invalid type for key "; dq; n i; dq; " in "; dq;
                                   "sysctl_parse"; dq]
                      end) w = Ret (k + 1)%nat w).
    { simpl in Hi. destruct (d i); try reflexivity; exfalso; intuition discriminate. }
    rewrite Hr, IH. f_equal. lia.
Qed.

Lemma sysctl_count_bad (l : list jvalue) (k : nat) (w : world) :
  Exists (fun i => ~ In (d i) [jtrue; jfalse; jstring; jnumber]) l ->
  exists msg, run (fold_each l sysctl_count k) w = Exit (Errx msg) w.
Proof.
  intros H. revert k. induction H as [ i l Hi | i l _ IH]; intros k; simpl;
    rewrite run_bind; unfold sysctl_count at 1.
  - destruct (d i); simpl in Hi; try (exfalso; apply Hi; tauto);
      eexists; reflexivity.
  - destruct (d i); mrun; try apply IH; eexists; reflexivity.
Qed.

(** *** Claim C3 *)

(** C3, as stated, fails: a number is neither a boolean nor a string, and
    [sysctl_parse] accepts it and stores its text. *)
Lemma C3_number_counterexample :
  In (jnum "kern.maxfiles" "5") (u_v (jobj "sysctl" [jnum "kern.maxfiles" "5"])) /\
  jtypes_eqb (d (jnum "kern.maxfiles" "5")) jtrue = false /\
  jtypes_eqb (d (jnum "kern.maxfiles" "5")) jfalse = false /\
  jtypes_eqb (d (jnum "kern.maxfiles" "5")) jstring = false /\
  run (sysctl_parse (jobj "sysctl" [jnum "kern.maxfiles" "5"]) None "handle_sysctl") w0 =
    Ret [mk_sysctl "kern.maxfiles" "5"] w0.
Proof. repeat split; now left. Qed.

(** C3 (amended): [sysctl_parse] stops with a fatal error when a value is of
    a kind other than boolean, string or number; otherwise it gives one
    assignment per member, in the order of the object, the value being "1"
    for true, "0" for false and the text of a string or number, and the key
    being the prefix, a dot and the member's name when there is a prefix,
    the name itself when there is none. *)
Theorem C3_sysctl_parse (v : jvalue) (prefix : option string) (loc : string) (w : world) :
  (Forall (fun i => In (d i) [jtrue; jfalse; jstring; jnumber]) (u_v v) ->
   run (sysctl_parse v prefix loc) w =
     Ret (map (fun i =>
                 mk_sysctl
                   (match prefix with
                    | Some p => (p ++ "." ++ n i)%string
                    | None => n i
                    end)
                   (match d i with
                    | jtrue => "1"
                    | jfalse => "0"
                    | _ => u_s i
                    end)) (u_v v)) w) /\
  (Exists (fun i => ~ In (d i) [jtrue; jfalse; jstring; jnumber]) (u_v v) ->
   exists msg, run (sysctl_parse v prefix loc) w = Exit (Errx msg) w) /\
  run (sysctl_parse (jobj "sysctl" [jstr "a" "1"; jbool "b" true]) None loc) w =
    Ret [mk_sysctl "a" "1"; mk_sysctl "b" "1"] w.
Proof.
  split; [ | split ].
  - intros H. unfold sysctl_parse. rewrite run_bind.
    rewrite (sysctl_count_ok _ 0 w H). simpl.
    destruct (u_v v) as [ | i l ] eqn:E; [ reflexivity | ].
    cbn [length Nat.eqb]. rewrite run_ret. f_equal.
    apply map_ext. intros j. unfold sysctl_value. f_equal.
    destruct prefix as [p | ]; [ apply sysctl_key_prefix | reflexivity ].
  - intros H. unfold sysctl_parse. rewrite run_bind.
    destruct (sysctl_count_bad _ 0 w H) as [msg Hm]. rewrite Hm. now exists msg.
  - reflexivity.
Qed.

(** The object of the specification's example, with the prefix of an [rc]
    entry. *)
Lemma C3_sysctl_parse_witness :
  run (sysctl_parse (jobj "sysctl" [jstr "a" "1"; jbool "b" true]) (Some "proc.curproc")
         "handle_bin") w0 =
  Ret [mk_sysctl "proc.curproc.a" "1"; mk_sysctl "proc.curproc.b" "1"] w0.
Proof.
  apply (proj1 (C3_sysctl_parse (jobj "sysctl" [jstr "a" "1"; jbool "b" true])
                  (Some "proc.curproc") "handle_bin" w0)).
  repeat constructor; simpl; tauto.
Defined.

(** ** Static IPv4 addresses *)

Lemma strchr_app (a m : string) (c : ascii) :
  strchr a c = None -> strchr (a ++ String c m) c = Some (String.length a).
Proof.
  induction a as [ | x a IH]; simpl; intros H.
  - now rewrite Ascii.eqb_refl.
  - destruct (Ascii.eqb x c); [ discriminate | ].
    destruct (strchr a c); [ discriminate | ]. now rewrite IH.
Qed.

Lemma strupto_app (a m : string) : strupto (String.length a) (a ++ m) = a.
Proof. induction a as [ | x a IH]; simpl; [ now destruct m | now rewrite IH ]. Qed.

Lemma strfrom_app (a m : string) : strfrom (String.length a) (a ++ m) = m.
Proof. induction a as [ | x a IH]; simpl; [ reflexivity | exact IH ]. Qed.

Lemma strfrom_app_S (a m : string) (c : ascii) :
  strfrom (String.length a + 1) (a ++ String c m) = m.
Proof. induction a as [ | x a IH]; simpl; [ reflexivity | exact IH ]. Qed.

Lemma digits_app (ds g : string) (acc : Z) :
  all_digits ds = true -> no_digit_ahead g = true -> digits (ds ++ g) acc = digits ds acc.
Proof.
  revert acc. induction ds as [ | a ds IH]; simpl; intros acc Hd Hg.
  - destruct g as [ | b g]; simpl in *; [ reflexivity | ].
    now destruct (isdigit b).
  - apply andb_true_iff in Hd. destruct Hd as [Ha Hd]. rewrite Ha. now apply IH.
Qed.

Lemma strtol10_digit_head (a : ascii) (s : string) :
  isdigit a = true -> strtol10 (String a s) = Z.min LONG_MAX (digits (String a s) 0).
Proof.
  intros Ha. unfold strtol10.
  destruct a as [[] [] [] [] [] [] [] []]; try discriminate Ha; reflexivity.
Qed.

(** Characters after the digits do not count. *)
Lemma atoi_trailing (a : ascii) (ds g : string) :
  isdigit a = true -> all_digits ds = true -> no_digit_ahead g = true ->
  atoi (String a ds ++ g)%string = atoi (String a ds).
Proof.
  intros Ha Hd Hg. unfold atoi. simpl append.
  rewrite !strtol10_digit_head by assumption.
  change (String a (ds ++ g)) with (String a ds ++ g)%string.
  rewrite digits_app; [ reflexivity | simpl; now rewrite Ha | assumption ].
Qed.

Lemma atoi_no_number (a : ascii) (s : string) :
  starts_number a = false -> atoi (String a s) = 0%Z.
Proof.
  intros Ha. unfold atoi, strtol10.
  destruct a as [[] [] [] [] [] [] [] []]; try discriminate Ha; reflexivity.
Qed.

(** What [config_ipv4] does with a static address [a/m], [a] having no
    slash: one call of the static-assign capability with [a] and
    [atoi m]. *)
Lemma config_ipv4_static_run (plat : platform) (ifname a m : string) (w : world) :
  strchr a "/" = None ->
  let c := rump_pub_netconfig_ipv4_ifaddr_cidr ifname a (atoi m) in
  let w' := mk_world (rumprun_execs w) (history w ++ [c]) in
  run (config_ipv4 plat ifname "static" (Some (a ++ "/" ++ m)%string)) w =
  if (rv (os plat (history w) c) =? 0)%Z then Ret tt w'
  else Exit (Errx (fmt ["config_ipv4"; ": "; ifname; ": ifconfig "; dq; a; "/"; m; dq;
                        " failed: "; strerror plat (rv (os plat (history w) c))])) w'.
Proof.
  intros Ha c w'. unfold config_ipv4. cbn [streq String.eqb Ascii.eqb Bool.eqb].
  change (a ++ "/" ++ m)%string with (a ++ String "/" m)%string.
  rewrite (strchr_app a m "/" Ha), strupto_app, strfrom_app_S.
  rewrite run_bind, run_sys. fold c. fold w'.
  now destruct (rv (os plat (history w) c) =? 0)%Z.
Qed.

(** *** Claim C6 *)

(** C6, as stated, fails: the prefix-length part "24x" has non-numeric
    trailing garbage, and the numeric parse makes 24 of it, not zero. *)
Lemma C6_trailing_garbage_counterexample :
  atoi "24x" = 24%Z /\
  run (config_ipv4 demo_plat "xenif0" "static" (Some "10.0.0.5/24x")) w0 =
    Ret tt (mk_world [] [rump_pub_netconfig_ipv4_ifaddr_cidr "xenif0" "10.0.0.5" 24]).
Proof. split; reflexivity. Qed.

(** C6 (amended): for the method static the [addr] string is split at its
    first slash, and the static-assign capability is called with the part
    before it and the number [atoi] reads at the head of the part after it
    ("10.0.0.5/24" gives "10.0.0.5" and 24); characters after the digits
    are ignored ("24x" gives 24), and a part that does not start a number
    gives zero; without [addr], or without a slash in it, the call is not
    made and the error is fatal. *)
Theorem C6_config_ipv4_static (plat : platform) (ifname : string) (w : world) :
  (forall a m, strchr a "/" = None ->
     let c := rump_pub_netconfig_ipv4_ifaddr_cidr ifname a (atoi m) in
     let w' := mk_world (rumprun_execs w) (history w ++ [c]) in
     ((rv (os plat (history w) c) = 0)%Z ->
        run (config_ipv4 plat ifname "static" (Some (a ++ "/" ++ m)%string)) w = Ret tt w') /\
     ((rv (os plat (history w) c) <> 0)%Z ->
        exists msg,
          run (config_ipv4 plat ifname "static" (Some (a ++ "/" ++ m)%string)) w
          = Exit (Errx msg) w')) /\
  (forall a m,
     (a ++ "/" ++ m)%string = "10.0.0.5/24" -> strchr a "/" = None ->
     a = "10.0.0.5" /\ atoi m = 24%Z) /\
  (forall a ds g, isdigit a = true -> all_digits ds = true -> no_digit_ahead g = true ->
     atoi (String a ds ++ g)%string = atoi (String a ds)) /\
  (forall a s, starts_number a = false -> atoi (String a s) = 0%Z) /\
  atoi "" = 0%Z /\
  (exists msg, run (config_ipv4 plat ifname "static" None) w = Exit (Errx msg) w) /\
  (forall cidr, strchr cidr "/" = None ->
     exists msg, run (config_ipv4 plat ifname "static" (Some cidr)) w = Exit (Errx msg) w).
Proof.
  split; [ | split; [ | split; [ | split; [ | split; [ | split ] ] ] ] ].
  - intros a m Ha c w'. pose proof (config_ipv4_static_run plat ifname a m w Ha) as H.
    cbv zeta in H. fold c in H. fold w' in H. split; intros Hrv.
    + rewrite H, Hrv. reflexivity.
    + rewrite H. apply Z.eqb_neq in Hrv. rewrite Hrv. eexists. reflexivity.
  - intros a m E Ha.
    assert (Hk : strchr (a ++ "/" ++ m)%string "/" = Some (String.length a))
      by (apply (strchr_app a m "/" Ha)).
    rewrite E in Hk. injection Hk as Hk.
    pose proof (strupto_app a ("/" ++ m)%string) as H1.
    pose proof (strfrom_app_S a m "/") as H2.
    change (a ++ String "/" m)%string with (a ++ "/" ++ m)%string in H2.
    rewrite E in H1, H2. rewrite <- Hk in H1, H2.
    split; [ now rewrite <- H1 | now rewrite <- H2 ].
  - apply atoi_trailing.
  - apply atoi_no_number.
  - reflexivity.
  - eexists. reflexivity.
  - intros cidr Hc. unfold config_ipv4. cbn [streq String.eqb Ascii.eqb Bool.eqb].
    rewrite Hc. eexists. reflexivity.
Qed.

(** The specification's example, on a platform where the call succeeds. *)
Lemma C6_config_ipv4_static_witness :
  run (config_ipv4 demo_plat "xenif0" "static" (Some ("10.0.0.5" ++ "/" ++ "24")%string)) w0 =
  Ret tt (mk_world [] [rump_pub_netconfig_ipv4_ifaddr_cidr "xenif0" "10.0.0.5" (atoi "24")]).
Proof.
  apply (proj1 (C6_config_ipv4_static demo_plat "xenif0" w0) "10.0.0.5" "24");
    reflexivity.
Defined.

(** ** The boot plan builder *)

Lemma find_last_app (k : string) (l1 l2 : list jvalue) :
  find_last k (l1 ++ l2) = orelse (find_last k l2) (find_last k l1).
Proof.
  induction l1 as [ | x l1 IH]; simpl.
  - now destruct (find_last k l2).
  - rewrite IH. destruct (find_last k l2), (find_last k l1); reflexivity.
Qed.

Lemma find_last_key (k : string) (l : list jvalue) (x : jvalue) :
  find_last k l = Some x -> In x l /\ n x = k.
Proof.
  induction l as [ | y l IH]; simpl; [ discriminate | ].
  destruct (find_last k l) as [z | ].
  - intros E. injection E as ->. destruct (IH eq_refl). auto.
  - unfold streq. destruct (String.eqb_spec (n y) k); [ | discriminate ].
    intros E. injection E as ->. auto.
Qed.


Lemma orelse_none_r {A : Type} (a : option A) : orelse a None = a.
Proof. now destruct a. Qed.

Lemma orelse_assoc {A : Type} (a b c : option A) :
  orelse a (orelse b c) = orelse (orelse a b) c.
Proof. now destruct a. Qed.

(** The inner loop leaves the world alone and ends with the last [sysctl]
    in [v_sysctl]. *)
Lemma handle_bin_netbsd_fold (l : list jvalue) (vars : bin_vars) (w : world) :
  match run (fold_each l handle_bin_netbsd vars) w with
  | Ret vars' w' =>
      w' = w /\
      v_bin vars' = v_bin vars /\ v_argv vars' = v_argv vars /\
      v_runmode vars' = v_runmode vars /\ v_workdir vars' = v_workdir vars /\
      v_sysctl vars' = orelse (find_last "sysctl" l) (v_sysctl vars)
  | Exit e w' => w' = w /\ exists msg, e = Errx msg
  end.
Proof.
  revert vars. induction l as [ | j l IH]; intros vars; simpl.
  - repeat split.
  - rewrite run_bind. unfold handle_bin_netbsd at 1.
    destruct (streq (n j) "sysctl") eqn:Ej; mrun.
    + destruct (jtypes_eqb (d j) jobject); mrun; [ | split; eauto ].
      specialize (IH (mk_bin_vars (v_bin vars) (v_argv vars) (v_runmode vars)
                        (v_workdir vars) (Some j))).
      destruct (run _ w) as [vars' w' | e w']; [ | exact IH ].
      simpl in IH. destruct IH as (-> & -> & -> & -> & -> & ->).
      repeat split. now destruct (find_last "sysctl" l).
    + split; eauto.
Qed.

Ltac key_eq H :=
  unfold streq in H; apply String.eqb_eq in H.

(** The first loop of [handle_bin] leaves the world alone and ends with the
    last member of each name in its variable. *)
Lemma handle_bin_scan_fold (l : list jvalue) (vars : bin_vars) (w : world) :
  match run (fold_each l handle_bin_scan vars) w with
  | Ret vars' w' =>
      w' = w /\
      v_bin vars' = orelse (find_last "bin" l) (v_bin vars) /\
      v_argv vars' = orelse (find_last "argv" l) (v_argv vars) /\
      v_runmode vars' = orelse (find_last "runmode" l) (v_runmode vars) /\
      v_workdir vars' = orelse (find_last "workdir" l) (v_workdir vars) /\
      v_sysctl vars' = orelse (rc_sysctl l) (v_sysctl vars)
  | Exit e w' => w' = w /\ exists msg, e = Errx msg
  end.
Proof.
  revert vars. induction l as [ | i l IH]; intros vars.
  - simpl. repeat split.
  - cbn [fold_each]. rewrite run_bind. unfold handle_bin_scan at 1.
    unfold rc_sysctl. cbn [find_last filter].
    destruct (streq (n i) "bin") eqn:E1;
      [ | destruct (streq (n i) "argv") eqn:E2;
          [ | destruct (streq (n i) "runmode") eqn:E3;
              [ | destruct (streq (n i) "workdir") eqn:E4;
                  [ | destruct (streq (n i) "netbsd") eqn:E5 ] ] ] ].
    + key_eq E1. rewrite E1. cbn [streq String.eqb Ascii.eqb Bool.eqb].
      mrun. destruct (jtypes_eqb (d i) jstring); mrun; [ | split; eauto ].
      specialize (IH (mk_bin_vars (Some i) (v_argv vars) (v_runmode vars)
                        (v_workdir vars) (v_sysctl vars))).
      destruct (run _ w) as [vars' w' | e w']; [ | exact IH ].
      simpl in IH. destruct IH as (-> & -> & -> & -> & -> & ->).
      repeat split; try (now destruct (find_last _ l)).
    + key_eq E2. rewrite E2. cbn [streq String.eqb Ascii.eqb Bool.eqb].
      mrun. destruct (jtypes_eqb (d i) jarray); mrun; [ | split; eauto ].
      specialize (IH (mk_bin_vars (v_bin vars) (Some i) (v_runmode vars)
                        (v_workdir vars) (v_sysctl vars))).
      destruct (run _ w) as [vars' w' | e w']; [ | exact IH ].
      simpl in IH. destruct IH as (-> & -> & -> & -> & -> & ->).
      repeat split; try (now destruct (find_last _ l)).
    + key_eq E3. rewrite E3. cbn [streq String.eqb Ascii.eqb Bool.eqb].
      mrun. destruct (jtypes_eqb (d i) jstring); mrun; [ | split; eauto ].
      specialize (IH (mk_bin_vars (v_bin vars) (v_argv vars) (Some i)
                        (v_workdir vars) (v_sysctl vars))).
      destruct (run _ w) as [vars' w' | e w']; [ | exact IH ].
      simpl in IH. destruct IH as (-> & -> & -> & -> & -> & ->).
      repeat split; try (now destruct (find_last _ l)).
    + key_eq E4. rewrite E4. cbn [streq String.eqb Ascii.eqb Bool.eqb].
      mrun. destruct (jtypes_eqb (d i) jstring); mrun; [ | split; eauto ].
      specialize (IH (mk_bin_vars (v_bin vars) (v_argv vars) (v_runmode vars)
                        (Some i) (v_sysctl vars))).
      destruct (run _ w) as [vars' w' | e w']; [ | exact IH ].
      simpl in IH. destruct IH as (-> & -> & -> & -> & -> & ->).
      repeat split; try (now destruct (find_last _ l)).
    + mrun. destruct (jtypes_eqb (d i) jobject); mrun; [ | split; eauto ].
      pose proof (handle_bin_netbsd_fold (u_v i) vars w) as Hn.
      destruct (run (fold_each (u_v i) handle_bin_netbsd vars) w) as [vars1 w1 | e w1];
        [ | exact Hn ].
      destruct Hn as (-> & Hb & Ha & Hr & Hw & Hs).
      specialize (IH vars1).
      destruct (run _ w) as [vars' w' | e w']; [ | exact IH ].
      destruct IH as (-> & -> & -> & -> & -> & ->).
      rewrite Hb, Ha, Hr, Hw, Hs. cbn [flat_map]. rewrite find_last_app.
      fold (rc_sysctl l).
      repeat split; try (now destruct (find_last _ l)).
      now rewrite orelse_assoc.
    + mrun. split; eauto.
Qed.

Lemma jexpect_each_run (l : list jvalue) (t : jtypes) (loc : string) (w : world) :
  match run (for_each l (fun i => jexpect t i loc)) w with
  | Ret _ w' => w' = w /\ Forall (fun i => d i = t) l
  | Exit e w' => w' = w /\ exists msg, e = Errx msg
  end.
Proof.
  induction l as [ | i l IH]; simpl.
  - split; [ reflexivity | constructor ].
  - mrun. destruct (jtypes_eqb (d i) t) eqn:E; [ | split; eauto ].
    apply jtypes_eqb_eq in E.
    destruct (run _ w) as [u w' | e w']; [ | exact IH ].
    destruct IH as [-> IH]. split; [ reflexivity | now constructor ].
Qed.

Lemma getmain_run (plat : platform) (bin : string) (w : world) :
  run (getmain plat bin) w =
  if streq "*" bin then
    match rumprun_bins plat with
    | b :: _ => Ret (Some (main b)) w
    | [] => Exit Null_deref w
    end
  else Ret (option_map main (find (fun b => streq (binname b) bin) (rumprun_bins plat))) w.
Proof.
  unfold getmain. destruct (streq "*" bin); [ | reflexivity ].
  now destruct (rumprun_bins plat).
Qed.

Lemma sysctl_kinds_dec (l : list jvalue) :
  Forall (fun i => In (d i) [jtrue; jfalse; jstring; jnumber]) l \/
  Exists (fun i => ~ In (d i) [jtrue; jfalse; jstring; jnumber]) l.
Proof.
  induction l as [ | i l [IH | IH]].
  - left. constructor.
  - destruct (d i) eqn:E.
    all: try (left; constructor; [ rewrite E; simpl; tauto | exact IH ]).
    all: right; apply Exists_cons_hd; rewrite E; simpl; intuition discriminate.
  - right. now apply Exists_cons_tl.
Qed.

Lemma sysctl_parse_ok (v : jvalue) (prefix : option string) (loc : string) (w : world) :
  Forall (fun i => In (d i) [jtrue; jfalse; jstring; jnumber]) (u_v v) ->
  run (sysctl_parse v prefix loc) w = Ret (sysctl_list prefix (u_v v)) w.
Proof.
  intros H. unfold sysctl_parse. rewrite run_bind.
  rewrite (sysctl_count_ok _ 0 w H). simpl.
  destruct (u_v v) as [ | i l ] eqn:E; [ reflexivity | ].
  cbn [length Nat.eqb]. rewrite run_ret. f_equal.
  apply map_ext. intros j. unfold sysctl_value. f_equal.
  destruct prefix as [p | ]; [ apply sysctl_key_prefix | reflexivity ].
Qed.

Lemma sysctl_parse_bad (v : jvalue) (prefix : option string) (loc : string) (w : world) :
  Exists (fun i => ~ In (d i) [jtrue; jfalse; jstring; jnumber]) (u_v v) ->
  exists msg, run (sysctl_parse v prefix loc) w = Exit (Errx msg) w.
Proof.
  intros H. unfold sysctl_parse. rewrite run_bind.
  destruct (sysctl_count_bad _ 0 w H) as [msg Hm]. rewrite Hm. now exists msg.
Qed.

Lemma sysctl_parse_run (v : jvalue) (prefix : option string) (loc : string) (w : world) :
  match run (sysctl_parse v prefix loc) w with
  | Ret sc w' => w' = w /\ sc = sysctl_list prefix (u_v v)
  | Exit e w' => w' = w /\ exists msg, e = Errx msg
  end.
Proof.
  destruct (sysctl_kinds_dec (u_v v)) as [H | H].
  - rewrite (sysctl_parse_ok v prefix loc w H). now split.
  - destruct (sysctl_parse_bad v prefix loc w H) as [msg ->]. split; eauto.
Qed.

(** What [handle_bin] has done when it returns: nothing but appending one
    entry made of the last [bin], [argv], [runmode] and [workdir] and of
    the last [netbsd.sysctl]. *)
Lemma handle_bin_inv (plat : platform) (v : jvalue) (loc : string) (w : world) :
  match run (handle_bin plat v loc) w with
  | Ret _ w' =>
      d v = jobject /\
      exists vbin binmain flags,
        find_last "bin" (u_v v) = Some vbin /\
        run (getmain plat (u_s vbin)) w = Ret (Some binmain) w /\
        match find_last "runmode" (u_v v) with
        | None => flags = 0%Z
        | Some r =>
            (u_s r = "" /\ flags = 0%Z) \/
            (u_s r = "&" /\ flags = RUMPRUN_EXEC_BACKGROUND plat) \/
            (u_s r = "|" /\ flags = RUMPRUN_EXEC_PIPE plat)
        end /\
        match find_last "argv" (u_v v) with
        | Some a => Forall (fun i => d i = jstring) (u_v a)
        | None => True
        end /\
        w' = mk_world
               (rumprun_execs w ++
                [mk_rre binmain flags (option_map u_s (find_last "workdir" (u_v v)))
                   (rc_sc (u_v v)) (rc_argv (u_v v) (u_s vbin))])
               (history w)
  | Exit e w' => w' = w
  end.
Proof.
  unfold handle_bin. rewrite run_bind, run_jexpect.
  destruct (jtypes_eqb (d v) jobject) eqn:Ed; [ | reflexivity ].
  apply jtypes_eqb_eq in Ed. rewrite run_bind.
  pose proof (handle_bin_scan_fold (u_v v) (mk_bin_vars None None None None None) w) as Hs.
  destruct (run (fold_each (u_v v) handle_bin_scan _) w) as [vars w1 | e w1];
    [ | now destruct Hs ].
  destruct Hs as (-> & Hb & Ha & Hr & Hw & Hsc). simpl in Hb, Ha, Hr, Hw, Hsc.
  destruct (v_bin vars) as [vbin | ] eqn:Evb; [ | reflexivity ].
  rewrite run_bind.
  destruct (run (getmain plat (u_s vbin)) w) as [[binmain | ] w1 | e w1] eqn:Eg.
  2: { rewrite getmain_run in Eg. destruct (streq "*" (u_s vbin)).
       - destruct (rumprun_bins plat); inversion Eg; reflexivity.
       - inversion Eg; reflexivity. }
  2: { rewrite getmain_run in Eg. destruct (streq "*" (u_s vbin)).
       - destruct (rumprun_bins plat); inversion Eg; reflexivity.
       - inversion Eg. }
  assert (w1 = w) as ->.
  { rewrite getmain_run in Eg. destruct (streq "*" (u_s vbin)).
    - destruct (rumprun_bins plat); inversion Eg; reflexivity.
    - inversion Eg; reflexivity. }
  rewrite run_bind.
  assert (Hargv :
    match run (match v_argv vars with
               | Some vargv =>
                   for_each (u_v vargv) (fun i => jexpect jstring i "handle_bin") ;;
                   ret (length (u_v vargv))
               | None => ret 0%nat
               end) w with
    | Ret k w' => w' = w /\
        k = match v_argv vars with Some a => length (u_v a) | None => 0%nat end /\
        match v_argv vars with
        | Some a => Forall (fun i => d i = jstring) (u_v a)
        | None => True
        end
    | Exit e w' => w' = w
    end).
  { destruct (v_argv vars) as [vargv | ]; [ | now repeat split ].
    rewrite run_bind.
    pose proof (jexpect_each_run (u_v vargv) jstring "handle_bin" w) as Hj.
    destruct (run (for_each _ _) w) as [u w' | e w']; [ | now destruct Hj ].
    destruct Hj as [-> Hj]. rewrite run_ret. now repeat split. }
  destruct (run (match v_argv vars with Some _ => _ | None => _ end) w)
    as [nargv w1 | e w1]; [ | exact Hargv ].
  destruct Hargv as (-> & -> & Hstr).
  rewrite run_bind.
  assert (Hmode :
    match run (match v_runmode vars with
               | Some vrunmode =>
                   if streq (u_s vrunmode) "" then ret 0%Z
                   else if streq (u_s vrunmode) "&" then ret (RUMPRUN_EXEC_BACKGROUND plat)
                   else if streq (u_s vrunmode) "|" then ret (RUMPRUN_EXEC_PIPE plat)
                   else errx ["invalid runmode "; dq; u_s vrunmode; dq; " for bin "; dq;
                              u_s vbin; dq]
               | None => ret 0%Z
               end) w with
    | Ret flags w' => w' = w /\
        match v_runmode vars with
        | None => flags = 0%Z
        | Some r =>
            (u_s r = "" /\ flags = 0%Z) \/
            (u_s r = "&" /\ flags = RUMPRUN_EXEC_BACKGROUND plat) \/
            (u_s r = "|" /\ flags = RUMPRUN_EXEC_PIPE plat)
        end
    | Exit e w' => w' = w
    end).
  { destruct (v_runmode vars) as [r | ]; [ | now split ].
    destruct (streq (u_s r) "") eqn:E1; [ key_eq E1; split; auto | ].
    destruct (streq (u_s r) "&") eqn:E2; [ key_eq E2; split; auto | ].
    destruct (streq (u_s r) "|") eqn:E3; [ key_eq E3; split; auto | ].
    reflexivity. }
  destruct (run (match v_runmode vars with Some _ => _ | None => _ end) w)
    as [flags w1 | e w1]; [ | exact Hmode ].
  destruct Hmode as (-> & Hflags).
  rewrite run_bind.
  assert (Hsys :
    match run (match v_sysctl vars with
               | Some vsysctl => sysctl_parse vsysctl (Some "proc.curproc") "handle_bin"
               | None => ret []
               end) w with
    | Ret sc w' => w' = w /\ sc = rc_sc (u_v v)
    | Exit e w' => w' = w
    end).
  { unfold rc_sc. rewrite Hsc. destruct (rc_sysctl (u_v v)) as [o | ]; simpl.
    - pose proof (sysctl_parse_run o (Some "proc.curproc") "handle_bin" w) as Hp.
      destruct (run (sysctl_parse o (Some "proc.curproc") "handle_bin") w);
        [ exact Hp | now destruct Hp ].
    - now split. }
  destruct (run (match v_sysctl vars with Some _ => _ | None => _ end) w)
    as [sc w1 | e w1]; [ | exact Hsys ].
  destruct Hsys as (-> & ->).
  rewrite run_TAILQ_INSERT_TAIL.
  split; [ exact Ed | ].
  exists vbin, binmain, flags.
  rewrite orelse_none_r in Hb, Ha, Hr, Hw.
  rewrite Ha in Hstr. rewrite Hr in Hflags.
  repeat split; try assumption; [ congruence | ].
  rewrite Hw, Ha. unfold rc_argv.
  destruct (find_last "argv" (u_v v)) as [a | ]; [ | reflexivity ].
  now destruct (u_v a).
Qed.

Lemma handle_bin_netbsd_progress (l : list jvalue) (vars : bin_vars) (w : world) :
  forallb (fun j => streq (n j) "sysctl" && jtypes_eqb (d j) jobject) l = true ->
  exists vars', run (fold_each l handle_bin_netbsd vars) w = Ret vars' w.
Proof.
  revert vars. induction l as [ | j l IH]; intros vars H; simpl.
  - now exists vars.
  - simpl in H. apply andb_true_iff in H. destruct H as [Hj Hl].
    apply andb_true_iff in Hj. destruct Hj as [Hn Hd].
    rewrite run_bind. unfold handle_bin_netbsd at 1. rewrite Hn. mrun. rewrite Hd.
    apply IH, Hl.
Qed.

Lemma handle_bin_scan_progress (l : list jvalue) (vars : bin_vars) (w : world) :
  forallb rc_member_ok l = true ->
  exists vars', run (fold_each l handle_bin_scan vars) w = Ret vars' w.
Proof.
  revert vars. induction l as [ | i l IH]; intros vars H.
  - now exists vars.
  - cbn [forallb] in H. apply andb_true_iff in H. destruct H as [Hi Hl].
    cbn [fold_each]. rewrite run_bind. unfold handle_bin_scan at 1.
    unfold rc_member_ok in Hi.
    destruct (streq (n i) "bin") eqn:E1;
      [ | destruct (streq (n i) "argv") eqn:E2;
          [ | destruct (streq (n i) "runmode") eqn:E3;
              [ | destruct (streq (n i) "workdir") eqn:E4;
                  [ | destruct (streq (n i) "netbsd") eqn:E5 ] ] ] ].
    + key_eq E1. rewrite E1 in Hi. cbn [streq String.eqb Ascii.eqb Bool.eqb andb orb] in Hi.
      mrun. destruct (jtypes_eqb (d i) jstring); [ apply IH, Hl | discriminate ].
    + key_eq E2. rewrite E2 in Hi. cbn [streq String.eqb Ascii.eqb Bool.eqb andb orb] in Hi.
      mrun. destruct (jtypes_eqb (d i) jarray); [ apply IH, Hl | discriminate ].
    + key_eq E3. rewrite E3 in Hi. cbn [streq String.eqb Ascii.eqb Bool.eqb andb orb] in Hi.
      mrun. destruct (jtypes_eqb (d i) jstring); [ apply IH, Hl | discriminate ].
    + key_eq E4. rewrite E4 in Hi. cbn [streq String.eqb Ascii.eqb Bool.eqb andb orb] in Hi.
      mrun. destruct (jtypes_eqb (d i) jstring); [ apply IH, Hl | discriminate ].
    + cbn [andb orb] in Hi. mrun.
      destruct (jtypes_eqb (d i) jobject); [ | discriminate ]. cbn [andb] in Hi.
      destruct (handle_bin_netbsd_progress (u_v i) vars w Hi) as [vars1 ->].
      apply IH, Hl.
    + discriminate.
Qed.

Lemma jexpect_each_ok (l : list jvalue) (t : jtypes) (loc : string) (w : world) :
  Forall (fun i => d i = t) l -> run (for_each l (fun i => jexpect t i loc)) w = Ret tt w.
Proof.
  intros H. induction H as [ | i l Hi _ IH]; simpl; [ reflexivity | ].
  mrun. now rewrite Hi, jtypes_eqb_refl.
Qed.

(** An entry that is well formed is accepted. *)
Lemma handle_bin_progress (plat : platform) (v : jvalue) (loc : string) (w : world)
  (vbin : jvalue) (binmain : rre_mainfn) :
  d v = jobject ->
  forallb rc_member_ok (u_v v) = true ->
  find_last "bin" (u_v v) = Some vbin ->
  run (getmain plat (u_s vbin)) w = Ret (Some binmain) w ->
  (forall a, find_last "argv" (u_v v) = Some a -> Forall (fun i => d i = jstring) (u_v a)) ->
  (forall r, find_last "runmode" (u_v v) = Some r ->
             u_s r = "" \/ u_s r = "&" \/ u_s r = "|") ->
  (forall o, rc_sysctl (u_v v) = Some o ->
             Forall (fun i => In (d i) [jtrue; jfalse; jstring; jnumber]) (u_v o)) ->
  exists w', run (handle_bin plat v loc) w = Ret tt w'.
Proof.
  intros Hd Hok Hbin Hmain Hargv Hmode Hsys.
  unfold handle_bin. rewrite run_bind, run_jexpect, Hd. cbn [jtypes_eqb].
  rewrite run_bind.
  destruct (handle_bin_scan_progress (u_v v) (mk_bin_vars None None None None None) w Hok)
    as [vars Hv].
  pose proof (handle_bin_scan_fold (u_v v) (mk_bin_vars None None None None None) w) as Hs.
  rewrite Hv in Hs. rewrite Hv.
  destruct Hs as (_ & Hb & Ha & Hr & Hw & Hsc). simpl in Hb, Ha, Hr, Hw, Hsc.
  rewrite orelse_none_r in Hb, Ha, Hr, Hw, Hsc.
  rewrite Hb, Hbin. rewrite run_bind, Hmain. rewrite run_bind.
  rewrite Ha, Hr, Hsc.
  assert (E1 : exists k,
    run (match find_last "argv" (u_v v) with
         | Some vargv =>
             for_each (u_v vargv) (fun i => jexpect jstring i "handle_bin") ;;
             ret (length (u_v vargv))
         | None => ret 0%nat
         end) w = Ret k w).
  { destruct (find_last "argv" (u_v v)) as [a | ]; [ | now exists 0%nat ].
    rewrite run_bind, (jexpect_each_ok _ _ _ _ (Hargv a eq_refl)). eexists. reflexivity. }
  destruct E1 as [k ->]. rewrite run_bind.
  assert (E2 : exists flags,
    run (match find_last "runmode" (u_v v) with
         | Some vrunmode =>
             if streq (u_s vrunmode) "" then ret 0%Z
             else if streq (u_s vrunmode) "&" then ret (RUMPRUN_EXEC_BACKGROUND plat)
             else if streq (u_s vrunmode) "|" then ret (RUMPRUN_EXEC_PIPE plat)
             else errx ["invalid runmode "; dq; u_s vrunmode; dq; " for bin "; dq;
                        u_s vbin; dq]
         | None => ret 0%Z
         end) w = Ret flags w).
  { destruct (find_last "runmode" (u_v v)) as [r | ]; [ | now exists 0%Z ].
    destruct (Hmode r eq_refl) as [E | [E | E]]; rewrite E; eexists; reflexivity. }
  destruct E2 as [flags ->]. rewrite run_bind.
  assert (E3 : exists sc,
    run (match rc_sysctl (u_v v) with
         | Some vsysctl => sysctl_parse vsysctl (Some "proc.curproc") "handle_bin"
         | None => ret []
         end) w = Ret sc w).
  { destruct (rc_sysctl (u_v v)) as [o | ]; [ | now exists [] ].
    rewrite (sysctl_parse_ok o _ _ w (Hsys o eq_refl)). eexists. reflexivity. }
  destruct E3 as [sc ->]. rewrite run_TAILQ_INSERT_TAIL. eexists. reflexivity.
Qed.

(** *** Claim C5 *)

(** C5: [handle_bin] accepts every well-formed [rc] entry, and the entry it
    appends has the argument vector [[bin]] when [argv] is absent or
    empty, the strings of [argv] when it has some, and as flags 0
    (foreground) for no [runmode] or the empty one, the background bit for
    "&" and the pipe bit for "|"; any other [runmode] is fatal. *)
Theorem C5_handle_bin_argv_runmode (plat : platform) (v : jvalue) (loc : string)
  (w : world) :
  (forall vbin binmain,
     d v = jobject ->
     forallb rc_member_ok (u_v v) = true ->
     find_last "bin" (u_v v) = Some vbin ->
     run (getmain plat (u_s vbin)) w = Ret (Some binmain) w ->
     (forall a, find_last "argv" (u_v v) = Some a ->
                Forall (fun i => d i = jstring) (u_v a)) ->
     (forall r, find_last "runmode" (u_v v) = Some r ->
                u_s r = "" \/ u_s r = "&" \/ u_s r = "|") ->
     (forall o, rc_sysctl (u_v v) = Some o ->
                Forall (fun i => In (d i) [jtrue; jfalse; jstring; jnumber]) (u_v o)) ->
     exists w', run (handle_bin plat v loc) w = Ret tt w') /\
  (forall w', run (handle_bin plat v loc) w = Ret tt w' ->
     exists vbin rre,
       find_last "bin" (u_v v) = Some vbin /\
       rumprun_execs w' = rumprun_execs w ++ [rre] /\
       (find_last "argv" (u_v v) = None -> rre_argv rre = [u_s vbin]) /\
       (forall a, find_last "argv" (u_v v) = Some a -> u_v a = [] ->
                  rre_argv rre = [u_s vbin]) /\
       (forall a, find_last "argv" (u_v v) = Some a -> u_v a <> [] ->
                  Forall (fun i => d i = jstring) (u_v a) /\
                  rre_argv rre = map u_s (u_v a)) /\
       (find_last "runmode" (u_v v) = None -> rre_flags rre = 0%Z) /\
       (forall r, find_last "runmode" (u_v v) = Some r ->
                  (u_s r = "" /\ rre_flags rre = 0%Z) \/
                  (u_s r = "&" /\ rre_flags rre = RUMPRUN_EXEC_BACKGROUND plat) \/
                  (u_s r = "|" /\ rre_flags rre = RUMPRUN_EXEC_PIPE plat))) /\
  (forall r, find_last "runmode" (u_v v) = Some r ->
             u_s r <> "" -> u_s r <> "&" -> u_s r <> "|" ->
             exists e, run (handle_bin plat v loc) w = Exit e w) /\
  run (handle_bin demo_plat
         (jobj "" [jstr "bin" "foo"; jarr "argv" [jstr "" "foo"; jstr "" "-v"]]) loc) w =
    Ret tt (mk_world (rumprun_execs w ++ [mk_rre 1 0 None [] ["foo"; "-v"]]) (history w)) /\
  run (handle_bin demo_plat (jobj "" [jstr "bin" "foo"]) loc) w =
    Ret tt (mk_world (rumprun_execs w ++ [mk_rre 1 0 None [] ["foo"]]) (history w)).
Proof.
  split; [ | split; [ | split; [ | split ] ] ].
  - intros vbin binmain. apply handle_bin_progress.
  - intros w' Hrun. pose proof (handle_bin_inv plat v loc w) as H.
    rewrite Hrun in H.
    destruct H as (_ & vbin & binmain & flags & Hb & _ & Hf & Ha & ->).
    exists vbin. eexists. split; [ exact Hb | ]. split; [ reflexivity | ].
    cbn [rre_argv rre_flags]. unfold rc_argv.
    repeat split.
    + intros E. now rewrite E.
    + intros a E1 E2. now rewrite E1, E2.
    + rewrite H in Ha. exact Ha.
    + rewrite H. destruct (u_v a); [ contradiction | reflexivity ].
    + intros E. now rewrite E in Hf.
    + intros r E. now rewrite E in Hf.
  - intros r Er H1 H2 H3. pose proof (handle_bin_inv plat v loc w) as H.
    destruct (run (handle_bin plat v loc) w) as [u w' | e w'].
    + exfalso. destruct H as (_ & vbin & binmain & flags & _ & _ & Hf & _).
      rewrite Er in Hf. intuition congruence.
    + subst w'. now exists e.
  - reflexivity.
  - reflexivity.
Qed.

(** The entry [{"bin":"bar", "argv":["bar","-q"], "runmode":"&"}]. *)
Lemma C5_handle_bin_argv_runmode_witness :
  exists w',
    run (handle_bin demo_plat
           (jobj "" [jstr "bin" "bar"; jarr "argv" [jstr "" "bar"; jstr "" "-q"];
                     jstr "runmode" "&"]) "handle_rc") w0 = Ret tt w'.
Proof.
  apply (proj1 (C5_handle_bin_argv_runmode demo_plat
                  (jobj "" [jstr "bin" "bar"; jarr "argv" [jstr "" "bar"; jstr "" "-q"];
                            jstr "runmode" "&"]) "handle_rc" w0)
           (jstr "bin" "bar") 2%nat).
  - reflexivity.
  - reflexivity.
  - reflexivity.
  - reflexivity.
  - intros a E. injection E as <-. repeat constructor.
  - intros r E. injection E as <-. right. left. reflexivity.
  - intros o E. discriminate E.
Defined.

(** *** Claim C8 *)



(** ** What leaves the boot plan alone *)

Lemma keeps_ret {A : Type} (a : A) : keeps_execs (ret a).
Proof. now intros w. Qed.

Lemma keeps_errx {A : Type} (pieces : list string) : keeps_execs (@errx A pieces).
Proof. now intros w. Qed.

Lemma keeps_err {A : Type} (pieces : list string) : keeps_execs (@err A pieces).
Proof. now intros w. Qed.

Lemma keeps_null_deref {A : Type} : keeps_execs (@null_deref A).
Proof. now intros w. Qed.

Lemma keeps_warnx (pieces : list string) : keeps_execs (warnx pieces).
Proof. now intros w. Qed.

Lemma keeps_sys (plat : platform) (c : call) : keeps_execs (sys plat c).
Proof. now intros w. Qed.

Lemma keeps_jexpect (t : jtypes) (v : jvalue) (loc : string) : keeps_execs (jexpect t v loc).
Proof. intros w. rewrite run_jexpect. now destruct (jtypes_eqb (d v) t). Qed.

Lemma keeps_bind {A B : Type} (m : M A) (f : A -> M B) :
  keeps_execs m -> (forall a, keeps_execs (f a)) -> keeps_execs (bind m f).
Proof.
  intros Hm Hf w. rewrite run_bind. specialize (Hm w).
  destruct (run m w) as [a w' | e w']; simpl in *; [ | exact Hm ].
  now rewrite Hf.
Qed.

Lemma keeps_for_each {A : Type} (l : list A) (body : A -> M unit) :
  (forall x, In x l -> keeps_execs (body x)) -> keeps_execs (for_each l body).
Proof.
  induction l as [ | x l IH]; intros H; simpl; [ apply keeps_ret | ].
  apply keeps_bind; [ apply H; now left | intros _; apply IH ].
  intros y Hy. apply H. now right.
Qed.

Lemma keeps_fold_each {A S : Type} (l : list A) (body : S -> A -> M S) (s : S) :
  (forall s x, keeps_execs (body s x)) -> keeps_execs (fold_each l body s).
Proof.
  intros H. revert s. induction l as [ | x l IH]; intros s; simpl; [ apply keeps_ret | ].
  apply keeps_bind; [ apply H | intros s'; apply IH ].
Qed.

(** One step of a proof that a function keeps the queue: by the shape of
    the computation. *)
Ltac keeps_step :=
  match goal with
  | |- keeps_execs (ret _) => apply keeps_ret
  | |- keeps_execs (errx _) => apply keeps_errx
  | |- keeps_execs (err _) => apply keeps_err
  | |- keeps_execs null_deref => apply keeps_null_deref
  | |- keeps_execs (warnx _) => apply keeps_warnx
  | |- keeps_execs (sys _ _) => apply keeps_sys
  | |- keeps_execs (jexpect _ _ _) => apply keeps_jexpect
  | |- keeps_execs (bind _ _) => apply keeps_bind; [ | intros ? ]
  | |- keeps_execs (for_each _ _) => apply keeps_for_each; intros ? ?
  | |- keeps_execs (fold_each _ _ _) => apply keeps_fold_each; intros ? ?
  | |- keeps_execs (if ?b then _ else _) => destruct b
  | |- keeps_execs (match ?x with _ => _ end) => destruct x
  end.

Ltac keeps := repeat keeps_step.

Lemma keeps_sysctl_parse (v : jvalue) (prefix : option string) (loc : string) :
  keeps_execs (sysctl_parse v prefix loc).
Proof. unfold sysctl_parse, sysctl_count. keeps. Qed.

Lemma keeps_handle_object (v : jvalue) (h : list jhandler) (loc : string) :
  (forall hj i, In hj h -> In i (u_v v) -> streq (n i) (name hj) = true ->
                keeps_execs (handler hj i loc)) ->
  keeps_execs (handle_object v h loc).
Proof.
  intros H. unfold handle_object, handle_object_pass1, handle_object_pass2.
  apply keeps_bind; [ apply keeps_jexpect | intros _ ].
  apply keeps_bind; [ keeps | intros _ ].
  apply keeps_for_each. intros hj Hhj. apply keeps_for_each. intros i Hi.
  destruct (streq (n i) (name hj)) eqn:E; [ now apply H | apply keeps_ret ].
Qed.

Lemma keeps_handle_sysctl (plat : platform) (v : jvalue) (loc : string) :
  keeps_execs (handle_sysctl plat v loc).
Proof.
  unfold handle_sysctl.
  apply keeps_bind; [ apply keeps_jexpect | intros _ ].
  apply keeps_bind; [ apply keeps_sysctl_parse | intros sc ].
  keeps.
Qed.

Lemma keeps_handle_netbsd (plat : platform) (v : jvalue) (loc : string) :
  keeps_execs (handle_netbsd plat v loc).
Proof.
  unfold handle_netbsd. apply keeps_handle_object.
  intros hj i [<- | []] _ _. apply keeps_handle_sysctl.
Qed.

Lemma keeps_handle_env (plat : platform) (v : jvalue) (loc : string) :
  keeps_execs (handle_env plat v loc).
Proof. unfold handle_env. keeps. Qed.

Lemma keeps_config_ipv4 (plat : platform) (ifname method : string) (cidr : option string) :
  keeps_execs (config_ipv4 plat ifname method cidr).
Proof. unfold config_ipv4. keeps. Qed.

Lemma keeps_config_ipv6 (plat : platform) (ifname method : string) (cidr : option string) :
  keeps_execs (config_ipv6 plat ifname method cidr).
Proof. unfold config_ipv6. keeps. Qed.

Lemma keeps_handle_interface (plat : platform) (v : jvalue) (loc : string) :
  keeps_execs (handle_interface plat v loc).
Proof.
  unfold handle_interface. keeps;
    first [ apply keeps_config_ipv4 | apply keeps_config_ipv6 ].
Qed.

Lemma keeps_handle_interfaces (plat : platform) (v : jvalue) (loc : string) :
  keeps_execs (handle_interfaces plat v loc).
Proof. unfold handle_interfaces. keeps. apply keeps_handle_interface. Qed.

Lemma keeps_handle_gateways (plat : platform) (v : jvalue) (loc : string) :
  keeps_execs (handle_gateways plat v loc).
Proof. unfold handle_gateways. keeps. Qed.

Lemma keeps_handle_dns_nameservers (plat : platform) (l : list jvalue) (fd maxlen : Z)
  (cnt : nat) :
  keeps_execs (handle_dns_nameservers plat l fd maxlen cnt).
Proof.
  revert cnt. induction l as [ | i l IH]; intros cnt; simpl; keeps. apply IH.
Qed.

Lemma keeps_handle_dns_search (l : list jvalue) (maxlen : Z) (cnt : nat) (buf : string) :
  keeps_execs (handle_dns_search l maxlen cnt buf).
Proof.
  revert maxlen cnt buf. induction l as [ | i l IH]; intros maxlen cnt buf; simpl; keeps.
  apply IH.
Qed.

Lemma keeps_handle_dns (plat : platform) (v : jvalue) (loc : string) :
  keeps_execs (handle_dns plat v loc).
Proof.
  unfold handle_dns, handle_dns_write, handle_dns_scan. keeps;
    first [ apply keeps_handle_dns_nameservers | apply keeps_handle_dns_search ].
Qed.

Lemma keeps_handle_net (plat : platform) (v : jvalue) (loc : string) :
  keeps_execs (handle_net plat v loc).
Proof.
  unfold handle_net. apply keeps_handle_object.
  intros hj i [<- | [<- | [<- | []]]] _ _.
  - apply keeps_handle_interfaces.
  - apply keeps_handle_gateways.
  - apply keeps_handle_dns.
Qed.

Lemma keeps_getvndmajor (plat : platform) (israw : bool) :
  keeps_execs (getvndmajor plat israw).
Proof. unfold getvndmajor. keeps. Qed.

Lemma keeps_configvnd (plat : platform) (dev path : string) :
  keeps_execs (configvnd plat dev path).
Proof. unfold configvnd. keeps; apply keeps_getvndmajor. Qed.

Lemma keeps_configetfs (plat : platform) (dev hostpath : string) (hard : bool) :
  keeps_execs (configetfs plat dev hostpath hard).
Proof. unfold configetfs. keeps. Qed.

Lemma keeps_handle_blk (plat : platform) (v : jvalue) (loc : string) :
  keeps_execs (handle_blk plat v loc).
Proof.
  unfold handle_blk. keeps; first [ apply keeps_configetfs | apply keeps_configvnd ].
Qed.

Lemma keeps_handle_blks (plat : platform) (v : jvalue) (loc : string) :
  keeps_execs (handle_blks plat v loc).
Proof. unfold handle_blks. keeps. apply keeps_handle_blk. Qed.

Lemma keeps_mount_ok (plat : platform) (t : fstype) (mp : string) (fl : list mntflag)
  (args : mount_args) :
  keeps_execs (mount_ok plat t mp fl args).
Proof. unfold mount_ok. keeps. Qed.

Lemma keeps_mount_blk (plat : platform) (dev : option string) (mp : string)
  (options : option jvalue) :
  keeps_execs (mount_blk plat dev mp options).
Proof. unfold mount_blk. keeps; apply keeps_mount_ok. Qed.

Lemma keeps_mount_kernfs (plat : platform) (dev : option string) (mp : string)
  (options : option jvalue) :
  keeps_execs (mount_kernfs plat dev mp options).
Proof. unfold mount_kernfs. keeps. apply keeps_mount_ok. Qed.

Lemma keeps_mount_tmpfs (plat : platform) (dev : option string) (mp : string)
  (options : option jvalue) :
  keeps_execs (mount_tmpfs plat dev mp options).
Proof. unfold mount_tmpfs. keeps. apply keeps_mount_ok. Qed.

Lemma keeps_mkdirhier_loop (plat : platform) (fuel : nat) (pathbuf : string) (chunk : nat) :
  keeps_execs (mkdirhier_loop plat fuel pathbuf chunk).
Proof.
  revert chunk. induction fuel as [ | fuel IH]; intros chunk; simpl;
    unfold mkdirhier_mkdir; keeps. apply IH.
Qed.

Lemma keeps_handle_mount (plat : platform) (v : jvalue) (loc : string) :
  keeps_execs (handle_mount plat v loc).
Proof.
  unfold handle_mount, handle_mount_scan, mkdirhier.
  apply keeps_bind; [ apply keeps_jexpect | intros _ ].
  apply keeps_bind; [ keeps | intros vars ].
  destruct (m_source vars) as [source | ]; [ | apply keeps_errx ].
  apply keeps_bind; [ apply keeps_mkdirhier_loop | intros _ ].
  destruct (find _ (mounters plat)) as [m | ] eqn:Ef; [ | apply keeps_errx ].
  apply find_some in Ef. destruct Ef as [Hin _].
  apply keeps_bind; [ | intros ok; keeps ].
  destruct Hin as [<- | [<- | [<- | []]]]; simpl.
  - apply keeps_mount_blk.
  - apply keeps_mount_kernfs.
  - apply keeps_mount_tmpfs.
Qed.

Lemma keeps_handle_mounts (plat : platform) (v : jvalue) (loc : string) :
  keeps_execs (handle_mounts plat v loc).
Proof. unfold handle_mounts. keeps. apply keeps_handle_mount. Qed.

(** ** The end of the interpretation *)

Lemma run_bind_Ret {A B : Type} (m : M A) (f : A -> M B) (w w' : world) (b : B) :
  run (bind m f) w = Ret b w' ->
  exists a w1, run m w = Ret a w1 /\ run (f a) w1 = Ret b w'.
Proof.
  rewrite run_bind. destruct (run m w) as [a w1 | e w1]; [ | discriminate ].
  intros H. now exists a, w1.
Qed.

Lemma last_some_app {A : Type} (l : list A) (x : A) :
  last (map Some (l ++ [x])) None = Some x.
Proof. rewrite map_app. simpl. apply last_last. Qed.

Lemma last_some_nil {A : Type} (l : list A) :
  last (map Some l) None = None -> l = [].
Proof.
  destruct l as [ | x l] using rev_ind; [ reflexivity | ].
  rewrite last_some_app. discriminate.
Qed.

Lemma dummy_loop_run (bins : list rumprun_bin) (w : world) :
  run (for_each bins (fun b => TAILQ_INSERT_TAIL (mk_rre (main b) 0 None [] [binname b]))) w
  = Ret tt (mk_world (rumprun_execs w ++ dummy_plan bins) (history w)).
Proof.
  revert w. induction bins as [ | b bins IH]; intros w; simpl.
  - rewrite app_nil_r. now destruct w.
  - mrun. rewrite IH. simpl. now rewrite <- app_assoc.
Qed.

Lemma handle_rc_dummy_run (plat : platform) (w : world) :
  run (handle_rc_dummy plat) w =
  Ret (length (rumprun_bins plat))
      (mk_world (rumprun_execs w ++ dummy_plan (rumprun_bins plat)) (history w)).
Proof. unfold handle_rc_dummy. now rewrite run_bind, dummy_loop_run. Qed.

Lemma dummy_plan_last (b : rumprun_bin) (bins : list rumprun_bin) :
  exists rre, last (map Some (dummy_plan (b :: bins))) None = Some rre /\
              rre_flags rre = 0%Z.
Proof.
  destruct (exists_last (l := b :: bins)) as (l' & x & E); [ discriminate | ].
  rewrite E. unfold dummy_plan. rewrite map_app. simpl map.
  eexists. split; [ apply last_some_app | reflexivity ].
Qed.

(** With an empty queue the end of [rumprun_config] makes the default
    plan, or stops when the registry is empty. *)
Lemma rumprun_config_finish_empty (plat : platform) (w : world) :
  rumprun_execs w = [] ->
  run (rumprun_config_finish plat) w =
  match rumprun_bins plat with
  | [] => Exit (Errx "internal error: no rumprun_execs[]") w
  | _ :: _ => Ret tt (mk_world (dummy_plan (rumprun_bins plat)) (history w))
  end.
Proof.
  intros Hw. unfold rumprun_config_finish.
  rewrite run_bind, run_TAILQ_LAST, Hw. cbn [map last].
  rewrite run_bind, run_bind, handle_rc_dummy_run, Hw. cbn [app].
  destruct (rumprun_bins plat) as [ | b bins] eqn:Eb.
  - simpl. now destruct w; simpl in *; subst.
  - cbn [length Nat.eqb]. rewrite run_bind, run_ret, run_TAILQ_LAST.
    cbn [rumprun_execs]. destruct (dummy_plan_last b bins) as (rre & -> & Hf).
    now rewrite Hf.
Qed.

(** When the end of [rumprun_config] returns, the queue has a last entry
    and the pipe bit is not set in it. *)
Lemma rumprun_config_finish_inv (plat : platform) (w w' : world) :
  run (rumprun_config_finish plat) w = Ret tt w' ->
  exists rre, last (map Some (rumprun_execs w')) None = Some rre /\
              Z.land (rre_flags rre) (RUMPRUN_EXEC_PIPE plat) = 0%Z.
Proof.
  destruct (last (map Some (rumprun_execs w)) None) as [rre | ] eqn:El.
  - unfold rumprun_config_finish.
    rewrite run_bind, run_TAILQ_LAST, El, run_bind, run_ret.
    destruct (Z.land (rre_flags rre) (RUMPRUN_EXEC_PIPE plat) =? 0)%Z eqn:E; simpl.
    + intros H. injection H as <-. exists rre. split; [ exact El | ].
      now apply Z.eqb_eq.
    + discriminate.
  - apply last_some_nil in El. rewrite (rumprun_config_finish_empty plat w El).
    destruct (rumprun_bins plat) as [ | b bins]; [ discriminate | ].
    intros H. injection H as <-. cbn [rumprun_execs].
    destruct (dummy_plan_last b bins) as (rre & Hl & Hf).
    exists rre. split; [ exact Hl | now rewrite Hf ].
Qed.

(** A last entry with the pipe bit stops the interpretation. *)
Lemma rumprun_config_finish_pipe (plat : platform) (w : world) (rre : rumprun_exec) :
  RUMPRUN_EXEC_PIPE plat <> 0%Z ->
  last (map Some (rumprun_execs w)) None = Some rre ->
  rre_flags rre = RUMPRUN_EXEC_PIPE plat ->
  run (rumprun_config_finish plat) w =
  Exit (Errx "rumprun_config: last rc entry may not output to pipe") w.
Proof.
  intros Hp Hl Hf. unfold rumprun_config_finish.
  rewrite run_bind, run_TAILQ_LAST, Hl, run_bind, run_ret, Hf, Z.land_diag.
  apply Z.eqb_neq in Hp. now rewrite Hp.
Qed.

Lemma rumprun_config_inline (plat : platform) (cmdline : string) (root : jvalue)
  (w : world) :
  inline_document plat cmdline root ->
  run (rumprun_config plat cmdline) w =
  run (rumprun_config_root plat root ;; rumprun_config_finish plat) w.
Proof.
  intros (Hp & k & Hk & Hj). unfold rumprun_config.
  rewrite Hp, run_bind, run_ret, Hk, Hj. reflexivity.
Qed.

Lemma keeps_slot (v : jvalue) (hj : jhandler) (loc : string) :
  (forall i, In i (u_v v) -> streq (n i) (name hj) = true -> keeps_execs (handler hj i loc)) ->
  keeps_execs (slot v hj loc).
Proof.
  intros H. apply keeps_for_each. intros i Hi.
  destruct (streq (n i) (name hj)) eqn:E; [ now apply H | apply keeps_ret ].
Qed.

(** Without a member [rc] the document leaves the queue as it is. *)
Lemma keeps_rumprun_config_root (plat : platform) (root : jvalue) :
  (forall i, In i (u_v root) -> n i <> "rc") ->
  keeps_execs (rumprun_config_root plat root).
Proof.
  intros Hno. unfold rumprun_config_root. apply keeps_handle_object.
  intros hj i Hhj Hi Hn.
  destruct Hhj as [<- | [<- | [<- | [<- | [<- | [<- | []]]]]]]; simpl in *.
  - apply keeps_handle_netbsd.
  - key_eq Hn. now apply Hno in Hi.
  - apply keeps_handle_env.
  - apply keeps_handle_blks.
  - apply keeps_handle_mounts.
  - apply keeps_handle_net.
Qed.

(** *** Claim C4 *)

(** C4: when the document has no member [rc] (and its other members are
    applied without a fatal error), the interpretation ends with one entry
    per program of the registry, in the order of the registry, each with
    the flags 0 (foreground), the entry point of the program and its name
    as the only argument; with an empty registry it ends with the fatal
    internal error. *)
Theorem C4_no_rc_default_plan (plat : platform) (root : jvalue) (w w1 : world) :
  (forall i, In i (u_v root) -> n i <> "rc") ->
  rumprun_execs w = [] ->
  run (rumprun_config_root plat root) w = Ret tt w1 ->
  (rumprun_bins plat <> [] ->
   exists w',
     run (rumprun_config_root plat root ;; rumprun_config_finish plat) w = Ret tt w' /\
     history w' = history w1 /\
     map rre_flags (rumprun_execs w') = map (fun _ => 0%Z) (rumprun_bins plat) /\
     map rre_main (rumprun_execs w') = map main (rumprun_bins plat) /\
     map rre_argv (rumprun_execs w') = map (fun b => [binname b]) (rumprun_bins plat)) /\
  (rumprun_bins plat = [] ->
   run (rumprun_config_root plat root ;; rumprun_config_finish plat) w =
   Exit (Errx "internal error: no rumprun_execs[]") w1) /\
  (forall cmdline, inline_document plat cmdline root ->
   run (rumprun_config plat cmdline) w =
   run (rumprun_config_root plat root ;; rumprun_config_finish plat) w).
Proof.
  intros Hno Hw Hrun.
  assert (Hw1 : rumprun_execs w1 = []).
  { pose proof (keeps_rumprun_config_root plat root Hno w) as Hk.
    rewrite Hrun in Hk. simpl in Hk. congruence. }
  assert (Hfin : run (rumprun_config_root plat root ;; rumprun_config_finish plat) w
                 = run (rumprun_config_finish plat) w1)
    by now rewrite run_bind, Hrun.
  rewrite Hfin, (rumprun_config_finish_empty plat w1 Hw1).
  split; [ | split ].
  - intros Hb. destruct (rumprun_bins plat) as [ | b bins] eqn:Eb; [ contradiction | ].
    eexists. split; [ reflexivity | ]. cbn [history rumprun_execs].
    unfold dummy_plan. rewrite !map_map. now repeat split.
  - intros Hb. now rewrite Hb.
  - intros cmdline Hc.
    rewrite (rumprun_config_inline plat cmdline root w Hc), Hfin.
    now rewrite (rumprun_config_finish_empty plat w1 Hw1).
Qed.

(** The document [{"env":{"HOME":"/"}}] on the platform with the programs
    foo and bar. *)
Lemma C4_no_rc_default_plan_witness :
  exists w',
    run (rumprun_config_root demo_plat (jobj "" [jobj "env" [jstr "HOME" "/"]]) ;;
         rumprun_config_finish demo_plat) w0 = Ret tt w' /\
    history w' = history (mk_world [] [setenv "HOME" "/" 1]) /\
    map rre_flags (rumprun_execs w') = map (fun _ => 0%Z) (rumprun_bins demo_plat) /\
    map rre_main (rumprun_execs w') = map main (rumprun_bins demo_plat) /\
    map rre_argv (rumprun_execs w') = map (fun b => [binname b]) (rumprun_bins demo_plat).
Proof.
  apply (proj1 (C4_no_rc_default_plan demo_plat (jobj "" [jobj "env" [jstr "HOME" "/"]])
                  w0 (mk_world [] [setenv "HOME" "/" 1])
                  ltac:(simpl; intuition (subst; discriminate))
                  eq_refl eq_refl)).
  discriminate.
Defined.

(** ** The last entry of the plan *)

Lemma run_for_each_app {A : Type} (l1 l2 : list A) (body : A -> M unit) (w : world) :
  run (for_each (l1 ++ l2) body) w =
  match run (for_each l1 body) w with
  | Ret _ w1 => run (for_each l2 body) w1
  | Exit e w1 => Exit e w1
  end.
Proof. unfold run at 1. rewrite for_each_app. fold (run (for_each l1 body ;; for_each l2 body) w). now rewrite run_bind. Qed.

(** When every [rc] member is handled, the entries of all of them have
    been through [handle_bin], in their order. *)
Lemma handle_rc_each (plat : platform) (rcs : list jvalue) (loc : string) (w w' : world) :
  run (for_each rcs (fun a => handle_rc plat a loc)) w = Ret tt w' ->
  run (for_each (flat_map u_v rcs) (fun i => handle_bin plat i "handle_rc")) w = Ret tt w'.
Proof.
  revert w. induction rcs as [ | a rcs IH]; intros w; simpl; [ easy | ].
  intros H. apply run_bind_Ret in H. destruct H as ([] & wa & Ha & Hrest).
  unfold handle_rc in Ha. apply run_bind_Ret in Ha. destruct Ha as ([] & wj & Hj & Ha).
  rewrite run_jexpect in Hj. destruct (jtypes_eqb (d a) jarray); [ | discriminate ].
  injection Hj as <-.
  rewrite run_for_each_app, Ha. now apply IH.
Qed.

(** If the entries handled end with one whose [runmode] is "|", the queue
    ends with an entry that has the pipe bit for flags. *)
Lemma handle_bin_each_pipe (plat : platform) (es : list jvalue) (e r : jvalue)
  (w w' : world) :
  run (for_each (es ++ [e]) (fun i => handle_bin plat i "handle_rc")) w = Ret tt w' ->
  find_last "runmode" (u_v e) = Some r -> u_s r = "|" ->
  exists rre, last (map Some (rumprun_execs w')) None = Some rre /\
              rre_flags rre = RUMPRUN_EXEC_PIPE plat.
Proof.
  intros H Hr Hs. rewrite run_for_each_app in H.
  destruct (run (for_each es _) w) as [[] w2 | ]; [ | discriminate ].
  simpl in H. apply run_bind_Ret in H. destruct H as ([] & w3 & Hb & Hret).
  rewrite run_ret in Hret. injection Hret as <-.
  pose proof (handle_bin_inv plat e "handle_rc" w2) as Hi. rewrite Hb in Hi.
  destruct Hi as (_ & vbin & binmain & flags & _ & _ & Hf & _ & ->).
  rewrite Hr, Hs in Hf. cbn [rumprun_execs].
  eexists. split; [ apply last_some_app | ]. cbn [rre_flags].
  destruct Hf as [[E _] | [[E _] | [_ E]]]; [ discriminate E | discriminate E | exact E ].
Qed.

(** The six slots of [handlers_root], one after the other. *)
Lemma rumprun_config_root_slots (plat : platform) (root : jvalue) (w : world) :
  d root = jobject ->
  run (rumprun_config_root plat root) w =
  run (slot root (mk_jhandler "netbsd" (handle_netbsd plat)) "rumprun_config" ;;
       slot root (mk_jhandler "rc" (handle_rc plat)) "rumprun_config" ;;
       (slot root (mk_jhandler "env" (handle_env plat)) "rumprun_config" ;;
        slot root (mk_jhandler "blk" (handle_blks plat)) "rumprun_config" ;;
        slot root (mk_jhandler "mount" (handle_mounts plat)) "rumprun_config" ;;
        slot root (mk_jhandler "net" (handle_net plat)) "rumprun_config" ;;
        ret tt)) w.
Proof.
  intros Hd. unfold rumprun_config_root. now rewrite handle_object_run.
Qed.

(** A document whose last [rc] entry has the run mode "|" is rejected. *)
Lemma rumprun_config_root_pipe (plat : platform) (root : jvalue) (es : list jvalue)
  (e r : jvalue) (w : world) :
  RUMPRUN_EXEC_PIPE plat <> 0%Z ->
  flat_map u_v (filter (fun i => streq (n i) "rc") (u_v root)) = es ++ [e] ->
  find_last "runmode" (u_v e) = Some r -> u_s r = "|" ->
  exists fe w',
    run (rumprun_config_root plat root ;; rumprun_config_finish plat) w = Exit fe w'.
Proof.
  intros Hp Hes Hr Hs. rewrite run_bind.
  destruct (jtypes_eqb (d root) jobject) eqn:Ed.
  2: { unfold rumprun_config_root, handle_object.
       rewrite run_bind, run_jexpect, Ed. eauto. }
  apply jtypes_eqb_eq in Ed. rewrite (rumprun_config_root_slots plat root w Ed).
  rewrite run_bind.
  destruct (run (slot root (mk_jhandler "netbsd" _) _) w) as [[] w1 | fe w1]; [ | eauto ].
  rewrite run_bind.
  destruct (run (slot root (mk_jhandler "rc" _) _) w1) as [[] w2 | fe w2] eqn:Erc;
    [ | eauto ].
  assert (Hlast : exists rre, last (map Some (rumprun_execs w2)) None = Some rre /\
                              rre_flags rre = RUMPRUN_EXEC_PIPE plat).
  { unfold slot, run in Erc. cbn [name handler] in Erc.
    rewrite (for_each_filter (fun i => streq (n i) "rc") (u_v root)
               (fun i => handle_rc plat i "rumprun_config")) in Erc.
    fold (run (for_each (filter (fun i => streq (n i) "rc") (u_v root))
                 (fun i => handle_rc plat i "rumprun_config")) w1) in Erc.
    apply handle_rc_each in Erc. rewrite Hes in Erc.
    exact (handle_bin_each_pipe plat es e r w1 w2 Erc Hr Hs). }
  destruct Hlast as (rre & Hl & Hf).
  match goal with
  | |- context [ run ?m w2 ] =>
      assert (Hk : keeps_execs m);
      [ | specialize (Hk w2); destruct (run m w2) as [[] w3 | fe w3]; [ | eauto ] ]
  end.
  { repeat (apply keeps_bind; [ apply keeps_slot; intros i _ _; cbn [handler] | intros _ ]).
    - apply keeps_handle_env.
    - apply keeps_handle_blks.
    - apply keeps_handle_mounts.
    - apply keeps_handle_net.
    - apply keeps_ret. }
  simpl in Hk. rewrite <- Hk in Hl.
  rewrite (rumprun_config_finish_pipe plat w3 rre Hp Hl Hf). eauto.
Qed.

(** *** Claim C2 *)

(** C2: when [rumprun_config] returns, the boot plan is not empty and the
    pipe bit is not set in its last entry, so its run mode is not Pipe; a
    document whose last [rc] entry has the run mode "|" ends with a fatal
    error whatever else it holds. *)
Theorem C2_last_entry_not_pipe (plat : platform) (cmdline : string) (w : world) :
  RUMPRUN_EXEC_PIPE plat <> 0%Z ->
  (forall w', run (rumprun_config plat cmdline) w = Ret tt w' ->
     exists rre,
       last (map Some (rumprun_execs w')) None = Some rre /\
       Z.land (rre_flags rre) (RUMPRUN_EXEC_PIPE plat) = 0%Z /\
       rre_flags rre <> RUMPRUN_EXEC_PIPE plat) /\
  (forall root es e r,
     flat_map u_v (filter (fun i => streq (n i) "rc") (u_v root)) = es ++ [e] ->
     find_last "runmode" (u_v e) = Some r -> u_s r = "|" ->
     (exists fe w',
        run (rumprun_config_root plat root ;; rumprun_config_finish plat) w = Exit fe w') /\
     (inline_document plat cmdline root ->
      exists fe w', run (rumprun_config plat cmdline) w = Exit fe w')).
Proof.
  intros Hp. split.
  - intros w' H. unfold rumprun_config in H.
    apply run_bind_Ret in H. destruct H as (c & w1 & _ & H).
    apply run_bind_Ret in H. destruct H as ([] & w2 & _ & H).
    destruct (rumprun_config_finish_inv plat w2 w' H) as (rre & Hl & Hf).
    exists rre. repeat split; try assumption.
    intros E. rewrite E, Z.land_diag in Hf. contradiction.
  - intros root es e r Hes Hr Hs.
    pose proof (rumprun_config_root_pipe plat root es e r w Hp Hes Hr Hs) as H.
    split; [ exact H | ].
    intros Hc. now rewrite (rumprun_config_inline plat cmdline root w Hc).
Qed.

(** The default plan passes the check, and the document
    [{"rc":[{"bin":"foo", "runmode":"|"}]}] is rejected. *)
Lemma C2_last_entry_not_pipe_witness :
  (exists rre,
     last (map Some (rumprun_execs (mk_world (dummy_plan demo_bins) []))) None = Some rre /\
     Z.land (rre_flags rre) (RUMPRUN_EXEC_PIPE demo_plat) = 0%Z /\
     rre_flags rre <> RUMPRUN_EXEC_PIPE demo_plat) /\
  (exists fe w',
     run (rumprun_config_root demo_plat
            (jobj "" [jarr "rc" [jobj "" [jstr "bin" "foo"; jstr "runmode" "|"]]]) ;;
          rumprun_config_finish demo_plat) w0 = Exit fe w').
Proof.
  assert (Hp : RUMPRUN_EXEC_PIPE demo_plat <> 0%Z) by discriminate.
  split.
  - apply (proj1 (C2_last_entry_not_pipe demo_plat "" w0 Hp)). reflexivity.
  - apply (proj2 (C2_last_entry_not_pipe demo_plat "" w0 Hp)
             (jobj "" [jarr "rc" [jobj "" [jstr "bin" "foo"; jstr "runmode" "|"]]])
             [] (jobj "" [jstr "bin" "foo"; jstr "runmode" "|"]) (jstr "runmode" "|"));
      reflexivity.
Defined.

(** ** The resolver file *)

Lemma called_nil (w : world) : called w [] = w.
Proof. unfold called. rewrite app_nil_r. now destruct w. Qed.

Lemma called_called (w : world) (a b : list call) :
  called (called w a) b = called w (a ++ b).
Proof. unfold called. simpl. now rewrite app_assoc. Qed.

Lemma run_sys_called (plat : platform) (c : call) (w : world) :
  run (sys plat c) w = Ret (os plat (history w) c) (called w [c]).
Proof. reflexivity. Qed.

Lemma string_app_nil_r (a : string) : (a ++ "")%string = a.
Proof. induction a as [ | x a IH]; simpl; [ reflexivity | now rewrite IH ]. Qed.

Lemma string_app_assoc (a b c : string) : ((a ++ b) ++ c = a ++ b ++ c)%string.
Proof. induction a as [ | x a IH]; simpl; [ reflexivity | now rewrite IH ]. Qed.

Lemma handle_dns_scan_fold (l : list jvalue) (vars : option jvalue * option jvalue)
  (w : world) :
  match run (fold_each l handle_dns_scan vars) w with
  | Ret vars' w' =>
      w' = w /\
      fst vars' = orelse (find_last "nameservers" l) (fst vars) /\
      snd vars' = orelse (find_last "search" l) (snd vars)
  | Exit e w' => w' = w /\ exists msg, e = Errx msg
  end.
Proof.
  revert vars. induction l as [ | i l IH]; intros [ns sd].
  - simpl. repeat split.
  - cbn [fold_each]. rewrite run_bind. unfold handle_dns_scan at 1. cbn [find_last].
    destruct (streq (n i) "nameservers") eqn:E1;
      [ | destruct (streq (n i) "search") eqn:E2 ].
    + key_eq E1. rewrite E1. cbn [streq String.eqb Ascii.eqb Bool.eqb].
      mrun. destruct (jtypes_eqb (d i) jarray); mrun; [ | split; eauto ].
      specialize (IH (Some i, sd)).
      destruct (run _ w) as [vars' w' | e w']; [ | exact IH ].
      simpl in IH. destruct IH as (-> & -> & ->).
      repeat split; now destruct (find_last _ l).
    + mrun. destruct (jtypes_eqb (d i) jarray); mrun; [ | split; eauto ].
      specialize (IH (ns, Some i)).
      destruct (run _ w) as [vars' w' | e w']; [ | exact IH ].
      simpl in IH. destruct IH as (-> & -> & ->).
      repeat split; now destruct (find_last _ l).
    + mrun. specialize (IH (ns, sd)).
      destruct (run _ w) as [vars' w' | e w']; [ | exact IH ].
      simpl in IH. destruct IH as (-> & -> & ->).
      repeat split; now destruct (find_last _ l).
Qed.

Lemma handle_dns_scan_progress (l : list jvalue) (vars : option jvalue * option jvalue)
  (w : world) :
  Forall (fun i => n i = "nameservers" \/ n i = "search" -> d i = jarray) l ->
  exists vars', run (fold_each l handle_dns_scan vars) w = Ret vars' w.
Proof.
  intros H. revert vars. induction H as [ | i l Hi _ IH]; intros [ns sd].
  - now eexists.
  - cbn [fold_each]. rewrite run_bind. unfold handle_dns_scan at 1.
    destruct (streq (n i) "nameservers") eqn:E1;
      [ | destruct (streq (n i) "search") eqn:E2 ].
    + key_eq E1. mrun. rewrite (Hi (or_introl E1)). cbn [jtypes_eqb]. apply IH.
    + key_eq E2. mrun. rewrite (Hi (or_intror E2)). cbn [jtypes_eqb]. apply IH.
    + mrun. apply IH.
Qed.

(** More than three name servers never pass. *)
Lemma handle_dns_nameservers_too_many (plat : platform) (l : list jvalue) (fd maxlen : Z)
  (cnt : nat) (w : world) :
  (cnt <= 3)%nat -> (3 < cnt + length l)%nat ->
  exists fe w', run (handle_dns_nameservers plat l fd maxlen cnt) w = Exit fe w'.
Proof.
  revert cnt w. induction l as [ | i l IH]; intros cnt w Hc Hl; simpl in *; [ lia | ].
  mrun. destruct (jtypes_eqb (d i) jstring); [ | eauto ].
  destruct (Nat.ltb_spec 3 (S cnt)); [ mrun; eauto | ].
  destruct (maxlen <=? _)%Z; [ mrun; eauto | ].
  mrun. destruct (rv _ =? -1)%Z; [ mrun; eauto | ].
  apply IH; lia.
Qed.

(** More than six search domains never pass. *)
Lemma handle_dns_search_too_many (l : list jvalue) (maxlen : Z) (cnt : nat) (buf : string)
  (w : world) :
  (cnt <= 6)%nat -> (6 < cnt + length l)%nat ->
  exists msg, run (handle_dns_search l maxlen cnt buf) w = Exit (Errx msg) w.
Proof.
  revert maxlen cnt buf. induction l as [ | i l IH]; intros maxlen cnt buf Hc Hl;
    simpl in *; [ lia | ].
  mrun. destruct (jtypes_eqb (d i) jstring); [ | eauto ].
  destruct (Nat.ltb_spec 6 (S cnt)); [ mrun; eauto | ].
  destruct (maxlen <=? _)%Z; [ mrun; eauto | ].
  apply IH; lia.
Qed.

Lemma benign_write (plat : platform) (h : list call) (fd : Z) (buf : string) :
  benign plat -> (rv (os plat h (write fd buf)) =? -1)%Z = false.
Proof.
  intros Hb. apply Z.eqb_neq. intros E.
  destruct (Hb h _ E) as [(p & m & Hc) _]. discriminate.
Qed.

Lemma benign_open (plat : platform) (h : list call) (p : string) (fl : list oflag)
  (m : Z) :
  benign plat -> (rv (os plat h (open p fl m)) =? -1)%Z = false.
Proof.
  intros Hb. apply Z.eqb_neq. intros E.
  destruct (Hb h _ E) as [(p' & m' & Hc) _]. discriminate.
Qed.

Lemma benign_mkdir (plat : platform) (h : list call) (p : string) (m : Z) :
  benign plat ->
  (rv (os plat h (mkdir p m)) =? -1)%Z && negb (errno (os plat h (mkdir p m)) =? EEXIST)%Z
  = false.
Proof.
  intros Hb. destruct (rv _ =? -1)%Z eqn:E; [ | reflexivity ].
  apply Z.eqb_eq in E. destruct (Hb h _ E) as [_ ->]. reflexivity.
Qed.

(** Up to three name servers whose lines fit are written one by one. *)
Lemma handle_dns_nameservers_ok (plat : platform) (l : list jvalue) (fd maxlen : Z)
  (cnt : nat) (w : world) :
  benign plat ->
  Forall (fun i => d i = jstring) l ->
  (cnt + length l <= 3)%nat ->
  Forall (fun i => (Z.of_nat (String.length ("nameserver " ++ u_s i ++ nl)) < maxlen)%Z) l ->
  run (handle_dns_nameservers plat l fd maxlen cnt) w =
  Ret tt (called w (map (fun i => write fd ("nameserver " ++ u_s i ++ nl)%string) l)).
Proof.
  intros Hb Hs. revert cnt w.
  induction Hs as [ | i l Hi _ IH]; intros cnt w Hc Hfit;
    cbn [handle_dns_nameservers map length] in *.
  - now rewrite called_nil.
  - inversion Hfit as [ | ? ? Hf Hfit' ]; subst.
    rewrite run_bind, run_jexpect, Hi. cbn [jtypes_eqb].
    destruct (Nat.ltb_spec 3 (S cnt)); [ lia | ].
    unfold dns_nameserver_line. rewrite fmt_3.
    match goal with
    | |- context [ (maxlen <=? ?len)%Z ] => destruct (Z.leb_spec maxlen len); [ lia | ]
    end.
    rewrite run_bind, run_sys_called, benign_write by assumption.
    rewrite IH by (assumption || lia).
    now rewrite called_called.
Qed.

Lemma search_pieces_length (first : bool) (d0 : string) (ds : list string) :
  String.length (search_pieces first (d0 :: ds)) =
  (String.length ((if first then "search" else "") ++ " " ++ d0
                  ++ match ds with [] => nl | _ :: _ => "" end)
   + String.length (search_pieces false ds))%nat.
Proof. cbn [search_pieces]. now rewrite string_length_app. Qed.

(** Up to six search domains whose line fits end up in the buffer. *)
Lemma handle_dns_search_ok (l : list jvalue) (maxlen : Z) (cnt : nat) (buf : string)
  (w : world) :
  Forall (fun i => d i = jstring) l ->
  (cnt + length l <= 6)%nat ->
  (Z.of_nat (String.length (search_pieces (Nat.eqb cnt 0) (map u_s l))) < maxlen)%Z ->
  run (handle_dns_search l maxlen cnt buf) w =
  Ret ((cnt + length l)%nat, (buf ++ search_pieces (Nat.eqb cnt 0) (map u_s l))%string) w.
Proof.
  intros Hs. revert maxlen cnt buf.
  induction Hs as [ | i l Hi _ IH]; intros maxlen cnt buf Hc Hfit.
  - cbn [handle_dns_search map search_pieces length].
    now rewrite Nat.add_0_r, string_app_nil_r, run_ret.
  - cbn [handle_dns_search]. rewrite run_bind, run_jexpect, Hi. cbn [jtypes_eqb].
    simpl length in Hc.
    destruct (Nat.ltb_spec 6 (S cnt)); [ lia | ].
    cbn [map] in Hfit. rewrite search_pieces_length in Hfit.
    assert (Epiece :
      fmt [(if Nat.eqb (S cnt) 1 then "search" else ""); " "; u_s i;
           match l with [] => nl | _ :: _ => "" end]
      = ((if Nat.eqb cnt 0 then "search" else "") ++ " " ++ u_s i
         ++ match map u_s l with [] => nl | _ :: _ => "" end)%string).
    { now destruct l. }
    rewrite Epiece.
    match goal with
    | |- context [ (maxlen <=? ?len)%Z ] => destruct (Z.leb_spec maxlen len); [ lia | ]
    end.
    rewrite IH.
    + cbn [Nat.eqb map search_pieces length]. rewrite string_app_assoc.
      f_equal. f_equal. lia.
    + lia.
    + cbn [Nat.eqb]. lia.
Qed.

Lemma search_pieces_rest (ds : list string) (d0 : string) :
  (d0 ++ match ds with [] => nl | _ :: _ => "" end ++ search_pieces false ds
   = String.concat " " (d0 :: ds) ++ nl)%string.
Proof.
  revert d0. induction ds as [ | d1 ds IH]; intros d0.
  - cbn [search_pieces String.concat]. now rewrite string_app_nil_r.
  - cbn [search_pieces].
    change (String.concat " " (d0 :: d1 :: ds))
      with (d0 ++ " " ++ String.concat " " (d1 :: ds))%string.
    rewrite (string_app_assoc d0). f_equal. cbn [append]. f_equal.
    rewrite string_app_assoc. apply IH.
Qed.

(** The buffer holds the search line. *)
Lemma search_pieces_line (d0 : string) (ds : list string) :
  search_pieces true (d0 :: ds) = dns_search_line (d0 :: ds).
Proof.
  unfold dns_search_line. cbn [search_pieces].
  rewrite <- search_pieces_rest.
  rewrite !string_app_assoc. reflexivity.
Qed.

Lemma handle_dns_write_too_many_ns (plat : platform) (a : jvalue) (sd : option jvalue)
  (w : world) :
  (3 < length (u_v a))%nat ->
  exists fe w', run (handle_dns_write plat (Some a) sd) w = Exit fe w'.
Proof.
  intros Hl. unfold handle_dns_write.
  rewrite run_bind, run_sys_called, run_bind.
  destruct (_ && _); [ mrun; eauto | ]. rewrite run_ret.
  rewrite run_bind, run_sys_called, run_bind.
  destruct (_ =? -1)%Z; [ mrun; eauto | ]. rewrite run_ret, run_bind.
  match goal with
  | |- context [ run (handle_dns_nameservers plat (u_v a) ?fd ?ml 0) ?w1 ] =>
      destruct (handle_dns_nameservers_too_many plat (u_v a) fd ml 0 w1) as (fe & w' & ->);
      [ lia | simpl; lia | eauto ]
  end.
Qed.

Lemma handle_dns_write_too_many_sd (plat : platform) (ns : option jvalue) (s : jvalue)
  (w : world) :
  (6 < length (u_v s))%nat ->
  exists fe w', run (handle_dns_write plat ns (Some s)) w = Exit fe w'.
Proof.
  intros Hl. unfold handle_dns_write.
  rewrite run_bind, run_sys_called, run_bind.
  destruct (_ && _); [ mrun; eauto | ]. rewrite run_ret.
  rewrite run_bind, run_sys_called, run_bind.
  destruct (_ =? -1)%Z; [ mrun; eauto | ]. rewrite run_ret, run_bind.
  match goal with
  | |- context [ run ?m ?w1 ] =>
      match m with
      | match ns with _ => _ end => destruct (run m w1) as [[] w2 | fe w2]; [ | eauto ]
      end
  end.
  rewrite run_bind, run_bind.
  match goal with
  | |- context [ run (handle_dns_search (u_v s) ?ml 0 ?b) ?w1 ] =>
      destruct (handle_dns_search_too_many (u_v s) ml 0 b w1) as (msg & ->);
      [ lia | simpl; lia | eauto ]
  end.
Qed.

Lemma handle_dns_write_ok (plat : platform) (a s : jvalue) (w : world) :
  benign plat ->
  Forall (fun i => d i = jstring) (u_v a) -> Forall (fun i => d i = jstring) (u_v s) ->
  (length (u_v a) <= 3)%nat -> (1 <= length (u_v s) <= 6)%nat ->
  Forall (fun i => (String.length (u_s i) <= 1020)%nat) (u_v a) ->
  (String.length ("search " ++ String.concat " " (map u_s (u_v s)) ++ nl) <= 1032)%nat ->
  run (handle_dns_write plat (Some a) (Some s)) w =
  Ret tt (called w
            (resolv_conf_calls
               (rv (os plat (history w ++ [mkdir "/etc" 493])
                      (open "/etc/resolv.conf" [O_WRONLY; O_CREAT] 420)))
               (map u_s (u_v a)) (map u_s (u_v s)))).
Proof.
  intros Hb Ha Hs Hla Hls Hfa Hfs. unfold handle_dns_write.
  rewrite run_bind, run_sys_called, run_bind, benign_mkdir, run_ret by assumption.
  rewrite run_bind, run_sys_called, run_bind, benign_open, run_ret by assumption.
  cbn [history called].
  set (fd := rv (os plat (history w ++ [mkdir "/etc" 493])
                   (open "/etc/resolv.conf" [O_WRONLY; O_CREAT] 420))).
  rewrite run_bind.
  rewrite (handle_dns_nameservers_ok plat (u_v a) fd _ 0); try assumption; try lia.
  2: { eapply Forall_impl; [ | exact Hfa ]. intros i Hi. cbv beta in Hi |- *.
       rewrite !string_length_app. change (String.length "nameserver ") with 11%nat.
       change (String.length nl) with 1%nat. change (String.length "search ") with 7%nat.
       lia. }
  rewrite run_bind, run_bind.
  assert (Es : exists s0 sl, u_v s = s0 :: sl).
  { destruct (u_v s) as [ | s0 sl]; [ simpl in Hls; lia | eauto ]. }
  destruct Es as (s0 & sl & Es).
  assert (Eline : search_pieces (Nat.eqb 0 0) (map u_s (u_v s))
                  = ("search " ++ String.concat " " (map u_s (u_v s)) ++ nl)%string).
  { rewrite Es. cbn [Nat.eqb map]. apply search_pieces_line. }
  rewrite (handle_dns_search_ok (u_v s) _ 0 "");
    [ | assumption | lia
      | rewrite Eline; change (String.length "search ") with 7%nat; lia ].
  rewrite Eline.
  replace (0 <? 0 + length (u_v s))%nat with true
    by (symmetry; apply Nat.ltb_lt; lia).
  rewrite run_bind, run_sys_called, benign_write, run_ret by assumption.
  rewrite run_bind, run_sys_called, run_ret.
  rewrite !called_called. unfold resolv_conf_calls.
  rewrite map_map. cbn [app]. rewrite <- ?app_assoc. reflexivity.
Qed.

(** *** Claim C7 *)

Lemma benign_demo_plat : benign demo_plat.
Proof. intros h c H. discriminate H. Qed.

(** C7: a [nameservers] array of more than three entries, or a [search]
    array of more than six, is fatal; with at most three name servers and
    one to six search domains, all strings that fit the line buffer, on a
    platform where the calls succeed, the resolver file gets one line
    "nameserver <addr>" per name server, in order, then the one line of
    the search domains joined by spaces; and without [nameservers] and
    [search] no call is made at all. *)
Theorem C7_handle_dns (plat : platform) (v : jvalue) (loc : string) (w : world) :
  (forall a, find_last "nameservers" (u_v v) = Some a -> (3 < length (u_v a))%nat ->
     exists fe w', run (handle_dns plat v loc) w = Exit fe w') /\
  (forall s, find_last "search" (u_v v) = Some s -> (6 < length (u_v s))%nat ->
     exists fe w', run (handle_dns plat v loc) w = Exit fe w') /\
  (forall a s,
     benign plat -> d v = jobject ->
     Forall (fun i => n i = "nameservers" \/ n i = "search" -> d i = jarray) (u_v v) ->
     find_last "nameservers" (u_v v) = Some a -> find_last "search" (u_v v) = Some s ->
     Forall (fun i => d i = jstring) (u_v a) -> Forall (fun i => d i = jstring) (u_v s) ->
     (length (u_v a) <= 3)%nat -> (1 <= length (u_v s) <= 6)%nat ->
     Forall (fun i => (String.length (u_s i) <= 1020)%nat) (u_v a) ->
     (String.length ("search " ++ String.concat " " (map u_s (u_v s)) ++ nl) <= 1032)%nat ->
     let fd := rv (os plat (history w ++ [mkdir "/etc" 493])
                     (open "/etc/resolv.conf" [O_WRONLY; O_CREAT] 420)) in
     run (handle_dns plat v loc) w =
     Ret tt (mk_world (rumprun_execs w)
               (history w
                ++ [mkdir "/etc" 493; open "/etc/resolv.conf" [O_WRONLY; O_CREAT] 420]
                ++ map (fun i => write fd ("nameserver " ++ u_s i ++ nl)%string) (u_v a)
                ++ [write fd ("search " ++ String.concat " " (map u_s (u_v s)) ++ nl)%string;
                    close fd]))) /\
  (find_last "nameservers" (u_v v) = None -> find_last "search" (u_v v) = None ->
   world_of (run (handle_dns plat v loc) w) = w).
Proof.
  assert (Hscan := handle_dns_scan_fold (u_v v) (None, None) w).
  split; [ | split; [ | split ] ].
  - intros a Ha Hl. unfold handle_dns. rewrite run_bind, run_jexpect.
    destruct (jtypes_eqb (d v) jobject); [ | eauto ]. rewrite run_bind.
    destruct (run (fold_each (u_v v) handle_dns_scan (None, None)) w)
      as [[ns sd] w1 | fe w1]; [ | eauto ].
    destruct Hscan as (-> & Hns & _). simpl in Hns. rewrite Ha in Hns. simpl in Hns.
    subst ns. now apply handle_dns_write_too_many_ns.
  - intros s Hs Hl. unfold handle_dns. rewrite run_bind, run_jexpect.
    destruct (jtypes_eqb (d v) jobject); [ | eauto ]. rewrite run_bind.
    destruct (run (fold_each (u_v v) handle_dns_scan (None, None)) w)
      as [[ns sd] w1 | fe w1]; [ | eauto ].
    destruct Hscan as (-> & _ & Hsd). simpl in Hsd. rewrite Hs in Hsd. simpl in Hsd.
    subst sd. destruct ns; now apply handle_dns_write_too_many_sd.
  - intros a s Hb Hd Hk Ha Hs Hsa Hss Hla Hls Hfa Hfs fd.
    unfold handle_dns. rewrite run_bind, run_jexpect, Hd. cbn [jtypes_eqb].
    rewrite run_bind.
    destruct (handle_dns_scan_progress (u_v v) (None, None) w Hk) as [[ns sd] Hv].
    rewrite Hv in Hscan. rewrite Hv. destruct Hscan as (_ & Hns & Hsd).
    simpl in Hns, Hsd. rewrite Ha in Hns. rewrite Hs in Hsd. simpl in Hns, Hsd.
    subst ns sd.
    rewrite (handle_dns_write_ok plat a s w) by assumption.
    unfold called, resolv_conf_calls. fold fd. now rewrite map_map.
  - intros Hn Hs. unfold handle_dns. rewrite run_bind, run_jexpect.
    destruct (jtypes_eqb (d v) jobject); [ | reflexivity ]. rewrite run_bind.
    destruct (run (fold_each (u_v v) handle_dns_scan (None, None)) w)
      as [[ns sd] w1 | fe w1]; [ | now destruct Hscan ].
    destruct Hscan as (-> & Hns & Hsd). simpl in Hns, Hsd.
    rewrite Hn in Hns. rewrite Hs in Hsd. simpl in Hns, Hsd. now subst ns sd.
Qed.

(** Exactly three name servers and six search domains: four lines. *)
Lemma C7_handle_dns_witness :
  run (handle_dns demo_plat dns_full "handle_net") w0 =
  Ret tt (mk_world []
            [mkdir "/etc" 493; open "/etc/resolv.conf" [O_WRONLY; O_CREAT] 420;
             write 0 ("nameserver 10.0.0.1" ++ nl)%string;
             write 0 ("nameserver 10.0.0.2" ++ nl)%string;
             write 0 ("nameserver 10.0.0.3" ++ nl)%string;
             write 0 ("search a.example b.example c.example d.example e.example f.example"
                      ++ nl)%string;
             close 0]).
Proof.
  apply (proj1 (proj2 (proj2 (C7_handle_dns demo_plat dns_full "handle_net" w0)))
           (jarr "nameservers" [jstr "" "10.0.0.1"; jstr "" "10.0.0.2"; jstr "" "10.0.0.3"])
           (jarr "search" [jstr "" "a.example"; jstr "" "b.example"; jstr "" "c.example";
                           jstr "" "d.example"; jstr "" "e.example"; jstr "" "f.example"])).
  - exact benign_demo_plat.
  - reflexivity.
  - repeat constructor.
  - reflexivity.
  - reflexivity.
  - repeat constructor.
  - repeat constructor.
  - simpl; lia.
  - simpl; lia.
  - repeat constructor; simpl; lia.
  - apply Nat.leb_le. reflexivity.
Defined.

(** ** Mount points *)

Lemma strfrom_add_app (pre rest : string) (k : nat) :
  strfrom (String.length pre + k) (pre ++ rest) = strfrom k rest.
Proof. induction pre as [ | a pre IH]; simpl; [ reflexivity | exact IH ]. Qed.

Lemma strupto_add_app (pre rest : string) (k : nat) :
  strupto (String.length pre + k) (pre ++ rest) = (pre ++ strupto k rest)%string.
Proof. induction pre as [ | a pre IH]; simpl; [ reflexivity | now rewrite IH ]. Qed.

Lemma strupto_strfrom (k : nat) (s : string) : (strupto k s ++ strfrom k s)%string = s.
Proof.
  revert s. induction k as [ | k IH]; intros [ | a s]; simpl; try reflexivity.
  now rewrite IH.
Qed.

Lemma length_strfrom (k : nat) (s : string) :
  String.length (strfrom k s) = (String.length s - k)%nat.
Proof.
  revert s. induction k as [ | k IH]; intros [ | a s]; simpl; try reflexivity.
  apply IH.
Qed.

Lemma length_strupto (k : nat) (s : string) :
  (k <= String.length s)%nat -> String.length (strupto k s) = k.
Proof.
  revert s. induction k as [ | k IH]; intros [ | a s]; simpl; intros H; try lia.
  rewrite IH; lia.
Qed.

Lemma strspn_le (s : string) (c : ascii) : (strspn s c <= String.length s)%nat.
Proof. induction s as [ | a s IH]; simpl; [ lia | destruct (Ascii.eqb a c); lia ]. Qed.

Lemma strcspn_le (s : string) (c : ascii) : (strcspn s c <= String.length s)%nat.
Proof. induction s as [ | a s IH]; simpl; [ lia | destruct (Ascii.eqb a c); lia ]. Qed.

Lemma string_length_zero (s : string) : String.length s = 0%nat -> s = "".
Proof. destruct s; [ reflexivity | discriminate ]. Qed.

(** The two spans of one turn of the loop stay inside the string, and move
    forward unless they reach its end. *)
Lemma spans_le (rest : string) (c : ascii) :
  (strspn rest c + strcspn (strfrom (strspn rest c) rest) c <= String.length rest)%nat.
Proof.
  pose proof (strspn_le rest c) as H1.
  pose proof (strcspn_le (strfrom (strspn rest c) rest) c) as H2.
  rewrite length_strfrom in H2. lia.
Qed.

Lemma spans_progress (rest : string) (c : ascii) :
  (strspn rest c + strcspn (strfrom (strspn rest c) rest) c < String.length rest)%nat ->
  (1 <= strspn rest c + strcspn (strfrom (strspn rest c) rest) c)%nat.
Proof.
  destruct rest as [ | a rest]; simpl; [ lia | ].
  destruct (Ascii.eqb a c) eqn:E; simpl; [ lia | ]. rewrite E. lia.
Qed.

Lemma string_app_cons (pre : string) (c : ascii) (s : string) :
  ((pre ++ String c "") ++ s)%string = (pre ++ String c s)%string.
Proof. now rewrite string_app_assoc. Qed.

(** Inside a name, the scan goes to the end of the name. *)
Lemma dir_prefixes_in_segment (rest pre : string) :
  dir_prefixes_from pre true rest =
  (pre ++ strupto (strcspn rest "/") rest)%string
  :: match strfrom (strcspn rest "/") rest with
     | EmptyString => []
     | String _ _ =>
         dir_prefixes_from (pre ++ strupto (strcspn rest "/") rest) false
           (strfrom (strcspn rest "/") rest)
     end.
Proof.
  revert pre. induction rest as [ | a rest IH]; intros pre.
  - simpl. now rewrite string_app_nil_r.
  - cbn [dir_prefixes_from strcspn]. destruct (Ascii.eqb a "/") eqn:E.
    + cbn [strupto strfrom]. rewrite string_app_nil_r.
      cbn [dir_prefixes_from app]. now rewrite E.
    + cbn [strupto strfrom]. rewrite IH, string_app_cons. reflexivity.
Qed.

(** One turn of the loop: past the slashes and to the end of the next
    name. *)
Lemma dir_prefixes_turn (rest pre : string) :
  dir_prefixes_from pre false rest =
  (pre ++ strupto (strspn rest "/" + strcspn (strfrom (strspn rest "/") rest) "/") rest)%string
  :: match strfrom (strspn rest "/" + strcspn (strfrom (strspn rest "/") rest) "/") rest with
     | EmptyString => []
     | String _ _ =>
         dir_prefixes_from
           (pre ++ strupto (strspn rest "/" + strcspn (strfrom (strspn rest "/") rest) "/")
                     rest)
           false
           (strfrom (strspn rest "/" + strcspn (strfrom (strspn rest "/") rest) "/") rest)
     end.
Proof.
  revert pre. induction rest as [ | a rest IH]; intros pre.
  - simpl. now rewrite string_app_nil_r.
  - cbn [dir_prefixes_from strspn]. destruct (Ascii.eqb a "/") eqn:E.
    + cbn [app strfrom Nat.add strupto]. rewrite IH.
      apply Ascii.eqb_eq in E. subst a. rewrite !string_app_cons. reflexivity.
    + cbn [strfrom Nat.add]. rewrite dir_prefixes_in_segment.
      cbn [strcspn]. rewrite E. cbn [strupto strfrom].
      rewrite !string_app_cons. reflexivity.
Qed.

(** The loop of [mkdirhier] makes the directories of [dir_prefixes], in
    their order. *)
Lemma mkdirhier_loop_prefixes (plat : platform) (fuel : nat) (pre rest : string) :
  (String.length rest < fuel)%nat ->
  meq (mkdirhier_loop plat fuel (pre ++ rest) (String.length pre))
      (for_each (dir_prefixes_from pre false rest) (mkdirhier_mkdir plat)).
Proof.
  revert pre rest. induction fuel as [ | fuel IH]; intros pre rest Hf; [ lia | ].
  cbn [mkdirhier_loop]. rewrite strfrom_app.
  rewrite strfrom_add_app, <- Nat.add_assoc, strupto_add_app.
  rewrite (dir_prefixes_turn rest pre).
  set (k := (strspn rest "/" + strcspn (strfrom (strspn rest "/") rest) "/")%nat).
  pose proof (spans_le rest "/") as Hk. fold k in Hk.
  cbn [for_each]. apply meq_bind; [ apply meq_refl | intros _ ].
  rewrite string_length_app.
  destruct (Nat.leb_spec (String.length pre + String.length rest)
              (String.length pre + k)) as [Hend | Hend].
  - assert (E : strfrom k rest = "")
      by (apply string_length_zero; rewrite length_strfrom; lia).
    rewrite E. apply meq_refl.
  - assert (Hlen : String.length (strfrom k rest) = (String.length rest - k)%nat)
      by apply length_strfrom.
    destruct (strfrom k rest) as [ | a r2] eqn:E; [ simpl in Hlen; lia | ].
    rewrite <- E.
    pose proof (spans_progress rest "/") as Hp. fold k in Hp.
    replace (pre ++ rest)%string with ((pre ++ strupto k rest) ++ strfrom k rest)%string
      by now rewrite string_app_assoc, strupto_strfrom.
    replace (String.length pre + k)%nat with (String.length (pre ++ strupto k rest))
      by (rewrite string_length_app, length_strupto; lia).
    apply IH. rewrite length_strfrom. lia.
Qed.

Lemma mkdirhier_prefixes (plat : platform) (path : string) :
  meq (mkdirhier plat path) (for_each (dir_prefixes path) (mkdirhier_mkdir plat)).
Proof.
  unfold mkdirhier, dir_prefixes.
  apply (mkdirhier_loop_prefixes plat (S (String.length path)) "" path). lia.
Qed.

(** Where [mkdir] fails on directories that are there only, all of them
    are made. *)
Lemma mkdirhier_run (plat : platform) (path : string) (w : world) :
  benign plat ->
  run (mkdirhier plat path) w =
  Ret tt (called w (map (fun p => mkdir p 493) (dir_prefixes path))).
Proof.
  intros Hb. unfold run. rewrite mkdirhier_prefixes.
  fold (run (for_each (dir_prefixes path) (mkdirhier_mkdir plat)) w).
  revert w. induction (dir_prefixes path) as [ | p ps IH]; intros w; simpl.
  - now rewrite called_nil.
  - rewrite run_bind. unfold mkdirhier_mkdir at 1.
    rewrite run_bind, run_sys_called, benign_mkdir, run_ret by assumption.
    rewrite IH, called_called. reflexivity.
Qed.

Lemma handle_mount_scan_step (i : jvalue) (mp : string) (vars : mount_vars) (w : world) :
  mount_member_ok i = true ->
  exists vars1,
    run (handle_mount_scan mp vars i) w = Ret vars1 w /\
    m_source vars1 = if streq (n i) "source" then Some (u_s i) else m_source vars.
Proof.
  intros Hi. unfold handle_mount_scan, mount_member_ok in *.
  destruct (streq (n i) "source") eqn:E1;
    [ | destruct (streq (n i) "path") eqn:E2;
        [ | destruct (streq (n i) "options") eqn:E3 ] ];
    cbn [andb orb] in Hi.
  - rewrite run_bind, run_jexpect.
    destruct (jtypes_eqb (d i) jstring).
    + eexists. split; reflexivity.
    + key_eq E1. rewrite E1 in Hi.
      cbn [streq String.eqb Ascii.eqb Bool.eqb andb orb] in Hi. discriminate Hi.
  - rewrite run_bind, run_jexpect.
    destruct (jtypes_eqb (d i) jstring).
    + eexists. split; reflexivity.
    + key_eq E2. rewrite E2 in Hi.
      cbn [streq String.eqb Ascii.eqb Bool.eqb andb orb] in Hi. discriminate Hi.
  - rewrite run_bind, run_jexpect.
    destruct (jtypes_eqb (d i) jobject).
    + eexists. split; reflexivity.
    + cbn [andb orb] in Hi. discriminate Hi.
  - discriminate Hi.
Qed.

Lemma handle_mount_scan_ok (l : list jvalue) (mp : string) (vars : mount_vars) (w : world) :
  forallb mount_member_ok l = true ->
  exists vars',
    run (fold_each l (handle_mount_scan mp) vars) w = Ret vars' w /\
    m_source vars' = orelse (option_map u_s (find_last "source" l)) (m_source vars).
Proof.
  revert vars. induction l as [ | i l IH]; intros vars H.
  - exists vars. now split.
  - cbn [forallb] in H. apply andb_true_iff in H. destruct H as [Hi Hl].
    destruct (handle_mount_scan_step i mp vars w Hi) as (vars1 & H1 & Hs1).
    destruct (IH vars1 Hl) as (vars' & H2 & Hs2).
    exists vars'. split.
    + cbn [fold_each]. now rewrite run_bind, H1.
    + rewrite Hs2, Hs1. cbn [find_last].
      destruct (find_last "source" l); [ reflexivity | ].
      now destruct (streq (n i) "source").
Qed.

(** Every directory made is the path up to some point, and the last one
    is the whole path. *)
Lemma dir_prefixes_from_upto (rest seen : string) (b : bool) (q : string) :
  In q (dir_prefixes_from seen b rest) ->
  exists k, (k <= String.length rest)%nat /\ q = (seen ++ strupto k rest)%string.
Proof.
  revert seen b. induction rest as [ | a rest IH]; intros seen b; simpl.
  - intros [<- | []]. exists 0%nat. split; [ lia | now rewrite string_app_nil_r ].
  - destruct (Ascii.eqb a "/") eqn:E; intros Hq.
    + apply in_app_or in Hq. destruct Hq as [Hq | Hq].
      * destruct b; [ | contradiction ]. destruct Hq as [<- | []].
        exists 0%nat. split; [ lia | now rewrite string_app_nil_r ].
      * destruct (IH _ _ Hq) as (k & Hk & ->). exists (S k). split; [ lia | ].
        apply Ascii.eqb_eq in E. subst a. cbn [strupto]. now rewrite string_app_cons.
    + destruct (IH _ _ Hq) as (k & Hk & ->). exists (S k). split; [ lia | ].
      cbn [strupto]. now rewrite string_app_cons.
Qed.

Lemma dir_prefixes_from_nonempty (rest seen : string) (b : bool) :
  dir_prefixes_from seen b rest <> [].
Proof.
  revert seen b. induction rest as [ | a rest IH]; intros seen b; simpl.
  - discriminate.
  - destruct (Ascii.eqb a "/"); [ | apply IH ].
    intros H. apply app_eq_nil in H. destruct H as [_ H]. exact (IH _ _ H).
Qed.

Lemma last_app_nonempty {A : Type} (l1 l2 : list A) (x : A) :
  l2 <> [] -> last (l1 ++ l2) x = last l2 x.
Proof.
  intros H. induction l1 as [ | a l1 IH]; simpl; [ reflexivity | ].
  destruct (l1 ++ l2) eqn:E; [ | exact IH ].
  apply app_eq_nil in E. destruct E as [_ E]. contradiction.
Qed.

Lemma dir_prefixes_from_last (rest seen : string) (b : bool) :
  last (dir_prefixes_from seen b rest) "" = (seen ++ rest)%string.
Proof.
  revert seen b. induction rest as [ | a rest IH]; intros seen b; simpl.
  - now rewrite string_app_nil_r.
  - destruct (Ascii.eqb a "/") eqn:E.
    + apply Ascii.eqb_eq in E. subst a.
      rewrite last_app_nonempty by apply dir_prefixes_from_nonempty.
      rewrite IH. apply string_app_cons.
    + rewrite IH. apply string_app_cons.
Qed.

Lemma benign_fs_plat : benign fs_plat.
Proof.
  intros h c H. destruct c; try discriminate H.
  cbn [fs_plat os fs_os] in H |- *.
  destruct (streq path "/" || streq path "/mnt" || made_before h path);
    [ | discriminate H ].
  split; [ eauto | reflexivity ].
Qed.

(** *** Claim C10 *)

(** C10: for a mount entry that is well formed but for its [source], which
    is none of blk, kernfs and tmpfs, [handle_mount] first calls [mkdir]
    on the mount point up to the end of each of its names, a directory
    that is there being no error, and only then stops with the error of
    the unknown source; the world it stops in holds these calls, so the
    directories made stay. *)
Theorem C10_unknown_source_after_mkdirhier (plat : platform) (v : jvalue) (loc : string)
  (w : world) (vsrc : jvalue) :
  benign plat ->
  d v = jobject ->
  forallb mount_member_ok (u_v v) = true ->
  find_last "source" (u_v v) = Some vsrc ->
  u_s vsrc <> "blk" -> u_s vsrc <> "kernfs" -> u_s vsrc <> "tmpfs" ->
  run (handle_mount plat v loc) w =
    Exit (Errx (fmt ["handle_mount"; ": unknown source "; dq; u_s vsrc; dq; " in "; dq;
                     n v; dq]))
         (mk_world (rumprun_execs w)
            (history w ++ map (fun p => mkdir p 493) (dir_prefixes (n v)))) /\
  last (dir_prefixes (n v)) "" = n v /\
  (forall q, In q (dir_prefixes (n v)) -> exists k, q = strupto k (n v)) /\
  dir_prefixes "/data/db/logs" = ["/data"; "/data/db"; "/data/db/logs"].
Proof.
  intros Hb Hd Hok Hsrc H1 H2 H3. split; [ | split; [ | split ] ].
  - unfold handle_mount. rewrite run_bind, run_jexpect, Hd. cbn [jtypes_eqb].
    rewrite run_bind.
    destruct (handle_mount_scan_ok (u_v v) (n v) (mk_mount_vars None None None) w Hok)
      as (vars & -> & Hs).
    rewrite Hsrc in Hs. cbn [option_map orelse] in Hs. rewrite Hs.
    rewrite run_bind, (mkdirhier_run plat (n v) w Hb).
    unfold mounters. cbn [find fst]. unfold streq.
    destruct (String.eqb_spec (u_s vsrc) "blk"); [ contradiction | ].
    destruct (String.eqb_spec (u_s vsrc) "kernfs"); [ contradiction | ].
    destruct (String.eqb_spec (u_s vsrc) "tmpfs"); [ contradiction | ].
    reflexivity.
  - apply (dir_prefixes_from_last (n v) "" false).
  - intros q Hq. destruct (dir_prefixes_from_upto (n v) "" false q Hq) as (k & _ & ->).
    now exists k.
  - reflexivity.
Qed.

(** The entry ["/mnt/data": {"source":"nfs"}] where [/mnt] is there:
    [/mnt/data] is made before the entry is rejected. *)
Lemma C10_unknown_source_after_mkdirhier_witness :
  run (handle_mount fs_plat (jobj "/mnt/data" [jstr "source" "nfs"]) "handle_mounts") w0 =
  Exit (Errx (fmt ["handle_mount"; ": unknown source "; dq; "nfs"; dq; " in "; dq;
                   "/mnt/data"; dq]))
       (mk_world [] [mkdir "/mnt" 493; mkdir "/mnt/data" 493]).
Proof.
  apply (C10_unknown_source_after_mkdirhier fs_plat
           (jobj "/mnt/data" [jstr "source" "nfs"]) "handle_mounts" w0
           (jstr "source" "nfs")).
  - exact benign_fs_plat.
  - reflexivity.
  - reflexivity.
  - reflexivity.
  - discriminate.
  - discriminate.
  - discriminate.
Defined.

(** * Further properties of the interpreter *)

(** ** Loops that only read *)

(** A loop over [l] whose body keeps the world and carries the relation
    [R] from the members read so far to one more keeps the world and ends
    with [R] of all of [l]. *)
Lemma fold_each_rel {A S : Type} (f : S -> A -> M S) (R : list A -> S -> Prop)
  (l : list A) (w : world) :
  (forall pre x s, R pre s -> pure_outcome (run (f s x) w) w (R (pre ++ [x]))) ->
  forall pre s, R pre s ->
  pure_outcome (run (fold_each l f s) w) w (R (pre ++ l)).
Proof.
  intros Hstep. induction l as [ | x l IH]; intros pre s HR; simpl.
  - rewrite app_nil_r. now split.
  - rewrite run_bind. specialize (Hstep pre x s HR).
    destruct (run (f s x) w) as [s' w' | e w']; simpl in Hstep.
    + destruct Hstep as [-> HR']. specialize (IH (pre ++ [x]) s' HR').
      now rewrite <- app_assoc in IH.
    + exact Hstep.
Qed.

Lemma find_last_snoc (k : string) (l : list jvalue) (x : jvalue) :
  find_last k (l ++ [x]) = if streq (n x) k then Some x else find_last k l.
Proof.
  rewrite find_last_app. simpl. now destruct (streq (n x) k).
Qed.

Lemma getmain_world (plat : platform) (bin : string) (m : rre_mainfn) (w w1 : world) :
  run (getmain plat bin) w = Ret (Some m) w ->
  run (getmain plat bin) w1 = Ret (Some m) w1.
Proof.
  rewrite !getmain_run. destruct (streq "*" bin).
  - destruct (rumprun_bins plat); [ discriminate | ]. congruence.
  - congruence.
Qed.

(** ** One [rc] entry *)

(** X3: [handle_bin] calls nothing on the platform; when it stops it
    leaves the queue as it was, and when it returns it has appended
    exactly one entry, whose working directory is the last [workdir] and
    whose sysctl assignments are the members of the last [netbsd.sysctl]
    with the prefix [proc.curproc]: [{"x":"5"}] gives [proc.curproc.x]. *)
Theorem X3_handle_bin_one_entry (plat : platform) (v : jvalue) (loc : string) (w : world) :
  match run (handle_bin plat v loc) w with
  | Ret _ w' =>
      history w' = history w /\
      exists rre,
        rumprun_execs w' = rumprun_execs w ++ [rre] /\
        rre_workdir rre = option_map u_s (find_last "workdir" (u_v v)) /\
        rre_sc rre =
          match rc_sysctl (u_v v) with
          | Some o =>
              map (fun i => mk_sysctl ("proc.curproc." ++ n i)
                              (match d i with
                               | jtrue => "1"
                               | jfalse => "0"
                               | _ => u_s i
                               end)) (u_v o)
          | None => []
          end
  | Exit _ w' => w' = w
  end /\
  run (handle_bin demo_plat
         (jobj "" [jstr "bin" "foo"; jobj "netbsd" [jobj "sysctl" [jstr "x" "5"]]]) loc) w =
    Ret tt (mk_world (rumprun_execs w
                      ++ [mk_rre 1 0 None [mk_sysctl "proc.curproc.x" "5"] ["foo"]])
              (history w)).
Proof.
  split; [ | reflexivity ].
  pose proof (handle_bin_inv plat v loc w) as H.
  destruct (run (handle_bin plat v loc) w) as [u w' | e w']; [ | exact H ].
  destruct H as (_ & vbin & binmain & flags & _ & _ & _ & _ & ->).
  split; [ reflexivity | ]. eexists. split; [ reflexivity | ]. split; [ reflexivity | ].
  cbn [rre_sc]. unfold rc_sc, sysctl_list. now destruct (rc_sysctl (u_v v)).
Qed.

Lemma fold_each_single {A S : Type} (f : S -> A -> M S) (x : A) (s : S) (w : world) :
  run (fold_each [x] f s) w = run (f s x) w.
Proof.
  simpl. rewrite run_bind. now destruct (run (f s x) w).
Qed.

Lemma handle_bin_netbsd_fold_bad (l : list jvalue) (vars : bin_vars) (w : world) :
  forallb (fun j => streq (n j) "sysctl" && jtypes_eqb (d j) jobject) l = false ->
  exists msg, run (fold_each l handle_bin_netbsd vars) w = Exit (Errx msg) w.
Proof.
  revert vars. induction l as [ | j l IH]; intros vars H; simpl in H; [ discriminate | ].
  cbn [fold_each]. rewrite run_bind. unfold handle_bin_netbsd at 1.
  destruct (streq (n j) "sysctl"); [ | mrun; eauto ].
  mrun. destruct (jtypes_eqb (d j) jobject); [ | eauto ].
  cbn [andb] in H. apply IH, H.
Qed.

Lemma handle_bin_scan_step_bad (x : jvalue) (vars : bin_vars) (w : world) :
  rc_member_ok x = false ->
  exists msg, run (handle_bin_scan vars x) w = Exit (Errx msg) w.
Proof.
  intros H. unfold handle_bin_scan. unfold rc_member_ok in H.
  destruct (streq (n x) "bin") eqn:E1;
    [ | destruct (streq (n x) "argv") eqn:E2;
        [ | destruct (streq (n x) "runmode") eqn:E3;
            [ | destruct (streq (n x) "workdir") eqn:E4;
                [ | destruct (streq (n x) "netbsd") eqn:E5 ] ] ] ].
  - mrun. destruct (jtypes_eqb (d x) jstring); [ discriminate H | eauto ].
  - mrun. destruct (jtypes_eqb (d x) jarray); [ discriminate H | eauto ].
  - mrun. destruct (jtypes_eqb (d x) jstring); [ | eauto ].
    cbn [andb orb] in H. discriminate H.
  - mrun. destruct (jtypes_eqb (d x) jstring); [ | eauto ].
    cbn [andb orb] in H. discriminate H.
  - mrun. destruct (jtypes_eqb (d x) jobject); [ | eauto ].
    cbn [andb orb] in H. now apply handle_bin_netbsd_fold_bad.
  - mrun. eauto.
Qed.

Lemma handle_bin_scan_bad (l : list jvalue) (vars : bin_vars) (w : world) :
  forallb rc_member_ok l = false ->
  exists msg, run (fold_each l handle_bin_scan vars) w = Exit (Errx msg) w.
Proof.
  revert vars. induction l as [ | x l IH]; intros vars H; [ discriminate | ].
  cbn [forallb] in H. cbn [fold_each]. rewrite run_bind.
  destruct (rc_member_ok x) eqn:Ex.
  - destruct (handle_bin_scan_progress [x] vars w) as [vars1 H1].
    { simpl. now rewrite Ex. }
    rewrite fold_each_single in H1. rewrite H1. apply IH, H.
  - destruct (handle_bin_scan_step_bad x vars w Ex) as [msg ->]. eauto.
Qed.

(** X2: inside an [rc] entry nothing unknown is let through: a member that
    is none of [bin], [argv], [runmode], [workdir] and [netbsd], a member
    of [netbsd] that is not [sysctl], and any of them of the wrong kind
    stop [handle_bin] with an [errx], the queue and the platform
    untouched. *)
Theorem X2_handle_bin_rejects_unknown (plat : platform) (v : jvalue) (loc : string)
  (w : world) (i : jvalue) :
  In i (u_v v) ->
  (n i <> "bin" /\ n i <> "argv" /\ n i <> "runmode" /\ n i <> "workdir" /\ n i <> "netbsd")
  \/ (n i = "netbsd" /\ exists j, In j (u_v i) /\ n j <> "sysctl")
  \/ rc_member_ok i = false ->
  exists msg, run (handle_bin plat v loc) w = Exit (Errx msg) w.
Proof.
  intros Hin Hbad.
  assert (Hi : rc_member_ok i = false).
  { destruct Hbad as [(H1 & H2 & H3 & H4 & H5) | [(Hn & j & Hj & Hs) | H]];
      [ | | exact H ]; unfold rc_member_ok, streq.
    - apply String.eqb_neq in H1, H2, H3, H4, H5.
      now rewrite H1, H2, H3, H4, H5.
    - rewrite Hn. cbn [String.eqb Ascii.eqb Bool.eqb andb orb].
      destruct (jtypes_eqb (d i) jobject); [ | reflexivity ]. cbn [andb].
      apply not_true_is_false. intros Hall. rewrite forallb_forall in Hall.
      specialize (Hall j Hj). apply andb_true_iff in Hall. destruct Hall as [Hall _].
      apply String.eqb_eq in Hall. contradiction. }
  assert (Hl : forallb rc_member_ok (u_v v) = false).
  { apply not_true_is_false. intros Hall. rewrite forallb_forall in Hall.
    rewrite (Hall i Hin) in Hi. discriminate. }
  unfold handle_bin. rewrite run_bind, run_jexpect.
  destruct (jtypes_eqb (d v) jobject); [ | eauto ].
  rewrite run_bind.
  destruct (handle_bin_scan_bad (u_v v) (mk_bin_vars None None None None None) w Hl)
    as [msg ->].
  eauto.
Qed.

(** The entry [{"bin":"foo", "nice":"1"}]. *)
Lemma X2_handle_bin_rejects_unknown_witness :
  exists msg,
    run (handle_bin demo_plat (jobj "" [jstr "bin" "foo"; jstr "nice" "1"]) "handle_rc") w0
    = Exit (Errx msg) w0.
Proof.
  apply (X2_handle_bin_rejects_unknown demo_plat
           (jobj "" [jstr "bin" "foo"; jstr "nice" "1"]) "handle_rc" w0 (jstr "nice" "1")).
  - right. left. reflexivity.
  - left. repeat split; discriminate.
Defined.

(** ** The [rc] array *)

Lemma handle_bin_entry (plat : platform) (e : jvalue) (loc : string) (w : world) :
  match run (handle_bin plat e loc) w with
  | Ret _ w' =>
      exists rre, w' = mk_world (rumprun_execs w ++ [rre]) (history w) /\
                  rc_entry_of plat e rre
  | Exit _ w' => w' = w
  end.
Proof.
  pose proof (handle_bin_inv plat e loc w) as H.
  destruct (run (handle_bin plat e loc) w) as [u w' | fe w']; [ | exact H ].
  destruct H as (_ & vbin & binmain & flags & Hb & Hg & Hf & _ & ->).
  eexists. split; [ reflexivity | ].
  exists vbin. cbn [rre_main rre_flags rre_argv rre_workdir rre_sc].
  repeat split; try assumption.
  intros w1. exact (getmain_world plat (u_s vbin) binmain w w1 Hg).
Qed.

Lemma handle_bin_each (plat : platform) (l : list jvalue) (w : world) :
  match run (for_each l (fun i => handle_bin plat i "handle_rc")) w with
  | Ret _ w' =>
      exists entries, w' = mk_world (rumprun_execs w ++ entries) (history w) /\
                      Forall2 (rc_entry_of plat) l entries
  | Exit _ w' =>
      exists entries, w' = mk_world (rumprun_execs w ++ entries) (history w) /\
                      (length entries < length l)%nat
  end.
Proof.
  revert w. induction l as [ | e l IH]; intros w; simpl.
  - exists []. rewrite app_nil_r. split; [ now destruct w | constructor ].
  - rewrite run_bind. pose proof (handle_bin_entry plat e "handle_rc" w) as He.
    destruct (run (handle_bin plat e "handle_rc") w) as [u w1 | fe w1].
    + destruct He as (rre & -> & Hr). specialize (IH (mk_world (rumprun_execs w ++ [rre])
                                                      (history w))).
      destruct (run _ (mk_world (rumprun_execs w ++ [rre]) (history w)))
        as [u' w2 | fe w2]; destruct IH as (entries & -> & Hl);
        exists (rre :: entries); cbn [rumprun_execs history];
        rewrite <- app_assoc; cbn [app]; split; try reflexivity.
      * now constructor.
      * simpl. lia.
    + subst w1. exists []. rewrite app_nil_r. split; [ now destruct w | simpl; lia ].
Qed.

(** X1: the boot plan follows the [rc] array: when [handle_rc] returns it
    has appended one entry per element, in the order of the array, each
    the one its element asks for, and has called nothing on the platform;
    when it stops, the entries of the elements before the rejected one
    are in the queue. *)
Theorem X1_handle_rc_plan_order (plat : platform) (v : jvalue) (loc : string) (w : world) :
  match run (handle_rc plat v loc) w with
  | Ret _ w' =>
      d v = jarray /\ history w' = history w /\
      exists entries,
        rumprun_execs w' = rumprun_execs w ++ entries /\
        length entries = length (u_v v) /\
        Forall2 (rc_entry_of plat) (u_v v) entries
  | Exit _ w' =>
      history w' = history w /\
      exists entries,
        rumprun_execs w' = rumprun_execs w ++ entries /\
        ((d v <> jarray /\ entries = []) \/ (length entries < length (u_v v))%nat)
  end.
Proof.
  unfold handle_rc. rewrite run_bind, run_jexpect.
  destruct (jtypes_eqb (d v) jarray) eqn:Ed.
  - apply jtypes_eqb_eq in Ed.
    pose proof (handle_bin_each plat (u_v v) w) as H.
    destruct (run (for_each (u_v v) _) w) as [u w' | fe w'];
      destruct H as (entries & -> & Hl); cbn [history rumprun_execs].
    + repeat split; try assumption. exists entries. repeat split; try assumption.
      symmetry. exact (Forall2_length Hl).
    + split; [ reflexivity | ]. exists entries. split; [ reflexivity | now right ].
  - split; [ reflexivity | ]. exists []. rewrite app_nil_r. split; [ reflexivity | ].
    left. split; [ | reflexivity ]. intros E. rewrite E in Ed. discriminate.
Qed.

(** ** The end of [rumprun_config], further *)

Lemma keeps_handle_rc_empty (plat : platform) (v : jvalue) (loc : string) :
  u_v v = [] -> keeps_execs (handle_rc plat v loc).
Proof.
  intros E. unfold handle_rc. rewrite E. simpl.
  apply keeps_bind; [ apply keeps_jexpect | intros _; apply keeps_ret ].
Qed.

Lemma keeps_rumprun_config_root_empty_rc (plat : platform) (root : jvalue) :
  (forall i, In i (u_v root) -> n i = "rc" -> u_v i = []) ->
  keeps_execs (rumprun_config_root plat root).
Proof.
  intros Hrc. unfold rumprun_config_root. apply keeps_handle_object.
  intros hj i Hhj Hi Hn.
  destruct Hhj as [<- | [<- | [<- | [<- | [<- | [<- | []]]]]]]; simpl in *.
  - apply keeps_handle_netbsd.
  - key_eq Hn. apply keeps_handle_rc_empty. now apply Hrc.
  - apply keeps_handle_env.
  - apply keeps_handle_blks.
  - apply keeps_handle_mounts.
  - apply keeps_handle_net.
Qed.

(** X4: the default plan is what an empty queue gives, not what a missing
    [rc] gives: a document whose [rc] members are all empty arrays ends
    like one without [rc], with one foreground entry per program of the
    registry, in its order, or with the internal error when the registry
    is empty. *)
Theorem X4_empty_rc_default_plan (plat : platform) (root : jvalue) (w w1 : world) :
  (forall i, In i (u_v root) -> n i = "rc" -> u_v i = []) ->
  rumprun_execs w = [] ->
  run (rumprun_config_root plat root) w = Ret tt w1 ->
  (rumprun_bins plat <> [] ->
   exists w',
     run (rumprun_config_root plat root ;; rumprun_config_finish plat) w = Ret tt w' /\
     history w' = history w1 /\
     map rre_flags (rumprun_execs w') = map (fun _ => 0%Z) (rumprun_bins plat) /\
     map rre_main (rumprun_execs w') = map main (rumprun_bins plat) /\
     map rre_argv (rumprun_execs w') = map (fun b => [binname b]) (rumprun_bins plat)) /\
  (rumprun_bins plat = [] ->
   run (rumprun_config_root plat root ;; rumprun_config_finish plat) w =
   Exit (Errx "internal error: no rumprun_execs[]") w1).
Proof.
  intros Hrc Hw Hrun.
  assert (Hw1 : rumprun_execs w1 = []).
  { pose proof (keeps_rumprun_config_root_empty_rc plat root Hrc w) as Hk.
    rewrite Hrun in Hk. simpl in Hk. congruence. }
  rewrite run_bind, Hrun, (rumprun_config_finish_empty plat w1 Hw1).
  split.
  - intros Hb. destruct (rumprun_bins plat) as [ | b bins] eqn:Eb; [ contradiction | ].
    eexists. split; [ reflexivity | ]. cbn [history rumprun_execs].
    unfold dummy_plan. rewrite !map_map. now repeat split.
  - intros Hb. now rewrite Hb.
Qed.

(** The document [{"rc":[]}]. *)
Lemma X4_empty_rc_default_plan_witness :
  exists w',
    run (rumprun_config_root demo_plat (jobj "" [jarr "rc" []]) ;;
         rumprun_config_finish demo_plat) w0 = Ret tt w' /\
    history w' = history w0 /\
    map rre_flags (rumprun_execs w') = map (fun _ => 0%Z) (rumprun_bins demo_plat) /\
    map rre_main (rumprun_execs w') = map main (rumprun_bins demo_plat) /\
    map rre_argv (rumprun_execs w') = map (fun b => [binname b]) (rumprun_bins demo_plat).
Proof.
  apply (proj1 (X4_empty_rc_default_plan demo_plat (jobj "" [jarr "rc" []]) w0 w0
                  ltac:(simpl; intros i [<- | []] _; reflexivity) eq_refl eq_refl)).
  discriminate.
Defined.

(** X5: when the queue is not empty the end of [rumprun_config] adds
    nothing to it: it returns with the world as it is when the pipe bit
    is clear in the flags of the last entry, and stops when the bit is
    set, whatever the other bits. *)
Theorem X5_finish_keeps_plan (plat : platform) (w : world) (rre : rumprun_exec) :
  last (map Some (rumprun_execs w)) None = Some rre ->
  run (rumprun_config_finish plat) w =
  if (Z.land (rre_flags rre) (RUMPRUN_EXEC_PIPE plat) =? 0)%Z then Ret tt w
  else Exit (Errx "rumprun_config: last rc entry may not output to pipe") w.
Proof.
  intros Hl. unfold rumprun_config_finish.
  rewrite run_bind, run_TAILQ_LAST, Hl, run_bind, run_ret.
  now destruct (Z.land (rre_flags rre) (RUMPRUN_EXEC_PIPE plat) =? 0)%Z.
Qed.

(** A queue with one background entry. *)
Lemma X5_finish_keeps_plan_witness :
  run (rumprun_config_finish demo_plat) (mk_world [mk_rre 1 1 None [] ["foo"]] []) =
  Ret tt (mk_world [mk_rre 1 1 None [] ["foo"]] []).
Proof.
  apply (X5_finish_keeps_plan demo_plat (mk_world [mk_rre 1 1 None [] ["foo"]] [])
           (mk_rre 1 1 None [] ["foo"])).
  reflexivity.
Defined.

(** X6: a command line that names no file of the root file system and has
    no brace is not an error: [rumprun_config] warns and goes on to the
    default plan; one with a brace is parsed from the first brace on, and
    a parse that fails is fatal before anything is done. *)
Theorem X6_rumprun_config_no_json (plat : platform) (cmdline : string) (w : world) :
  rumprun_config_path cmdline = None ->
  (strchr cmdline "{" = None ->
   run (rumprun_config plat cmdline) w = run (rumprun_config_finish plat) w /\
   In "could not find start of json.  no config?"
      (warnings (rumprun_config plat cmdline) w)) /\
  (forall k, strchr cmdline "{" = Some k -> jparse plat (strfrom k cmdline) = None ->
   run (rumprun_config plat cmdline) w = Exit (Errx "jparse failed") w) /\
  (forall k root, strchr cmdline "{" = Some k ->
   jparse plat (strfrom k cmdline) = Some root ->
   run (rumprun_config plat cmdline) w =
   run (rumprun_config_root plat root ;; rumprun_config_finish plat) w).
Proof.
  intros Hp. unfold rumprun_config. rewrite Hp.
  split; [ | split ].
  - intros Hb. split.
    + rewrite run_bind, run_ret. cbv beta. rewrite Hb.
      now rewrite run_bind, run_warnx.
    + rewrite warnings_bind, run_ret. cbv beta. rewrite Hb, warnings_bind.
      apply in_or_app. right. apply in_or_app. left. now left.
  - intros k Hk Hj. rewrite run_bind, run_ret. cbv beta. rewrite Hk, Hj. reflexivity.
  - intros k root Hk Hj. rewrite run_bind, run_ret. cbv beta. now rewrite Hk, Hj.
Qed.

(** The empty command line. *)
Lemma X6_rumprun_config_no_json_witness :
  run (rumprun_config demo_plat "") w0 = run (rumprun_config_finish demo_plat) w0 /\
  In "could not find start of json.  no config?" (warnings (rumprun_config demo_plat "") w0).
Proof.
  apply (proj1 (X6_rumprun_config_no_json demo_plat "" w0 eq_refl)). reflexivity.
Defined.

(** ** Loops that call the platform *)

Lemma for_each_all_ok {A : Type} (l : list A) (body : A -> M unit) (c : A -> call)
  (w : world) :
  (forall x w1, In x l -> run (body x) w1 = Ret tt (called w1 [c x])) ->
  run (for_each l body) w = Ret tt (called w (map c l)).
Proof.
  revert w. induction l as [ | x l IH]; intros w H; simpl.
  - now rewrite called_nil.
  - rewrite run_bind, (H x w) by now left.
    rewrite IH by (intros y w1 Hy; apply H; now right).
    now rewrite called_called.
Qed.

Lemma for_each_stop {A : Type} (l1 l2 : list A) (x : A) (body : A -> M unit)
  (w w1 w2 : world) (e : fatal) :
  run (for_each l1 body) w = Ret tt w1 ->
  run (body x) w1 = Exit e w2 ->
  run (for_each (l1 ++ x :: l2) body) w = Exit e w2.
Proof.
  intros H1 H2. rewrite run_for_each_app, H1. simpl. now rewrite run_bind, H2.
Qed.

(** ** Kernel tunables and the environment *)

(** X7: [handle_sysctl] writes the assignments of the object in its order,
    each key as it stands, and the first write that the platform refuses
    is fatal: the writes before it stay made and none is made after it. *)
Theorem X7_handle_sysctl_writes (plat : platform) (v : jvalue) (loc : string) (w : world) :
  d v = jobject ->
  Forall (fun i => In (d i) [jtrue; jfalse; jstring; jnumber]) (u_v v) ->
  ((forall j h, In j (u_v v) ->
      rv (os plat h (rumprun_sysctlw (n j) (sysctl_value j))) = 0%Z) ->
   run (handle_sysctl plat v loc) w =
   Ret tt (called w (map (fun j => rumprun_sysctlw (n j) (sysctl_value j)) (u_v v)))) /\
  (forall l1 i l2,
     u_v v = l1 ++ i :: l2 ->
     (forall j h, In j l1 ->
        rv (os plat h (rumprun_sysctlw (n j) (sysctl_value j))) = 0%Z) ->
     (forall h, rv (os plat h (rumprun_sysctlw (n i) (sysctl_value i))) <> 0%Z) ->
     exists msg,
       run (handle_sysctl plat v loc) w =
       Exit (Errx msg)
            (called w (map (fun j => rumprun_sysctlw (n j) (sysctl_value j)) (l1 ++ [i])))).
Proof.
  intros Hd Hk.
  assert (Hrun : forall w1,
    run (handle_sysctl plat v loc) w1 =
    run (for_each (u_v v) (fun j =>
           r <- sys plat (rumprun_sysctlw (n j) (sysctl_value j)) ;;
           if negb (rv r =? 0)%Z
           then errx ["error writing sysctl key "; dq; n j; dq; ": "; strerror plat (rv r)]
           else ret tt)) w1).
  { intros w1. unfold handle_sysctl.
    rewrite run_bind, run_jexpect, Hd. cbn [jtypes_eqb].
    rewrite run_bind, (sysctl_parse_ok v None _ w1 Hk).
    unfold sysctl_list, run. rewrite for_each_map. reflexivity. }
  split.
  - intros Hok. rewrite Hrun. apply for_each_all_ok.
    intros j w1 Hj. rewrite run_bind, run_sys_called, (Hok j (history w1) Hj). reflexivity.
  - intros l1 i l2 El Hok Hbad. rewrite Hrun, El.
    eexists. eapply for_each_stop.
    + apply (for_each_all_ok l1 _ (fun j => rumprun_sysctlw (n j) (sysctl_value j))).
      intros j w1 Hj. rewrite run_bind, run_sys_called, (Hok j (history w1) Hj).
      reflexivity.
    + rewrite run_bind, run_sys_called.
      specialize (Hbad (history (called w (map (fun j => rumprun_sysctlw (n j)
                                                             (sysctl_value j)) l1)))).
      apply Z.eqb_neq in Hbad. rewrite Hbad. cbn [negb]. rewrite run_errx.
      rewrite called_called, map_app. reflexivity.
Qed.

(** The object [{"kern.maxfiles":"64", "ddb.onpanic":false}]. *)
Lemma X7_handle_sysctl_writes_witness :
  run (handle_sysctl demo_plat
         (jobj "sysctl" [jstr "kern.maxfiles" "64"; jbool "ddb.onpanic" false])
         "handle_netbsd") w0 =
  Ret tt (called w0 (map (fun j => rumprun_sysctlw (n j) (sysctl_value j))
                       [jstr "kern.maxfiles" "64"; jbool "ddb.onpanic" false])).
Proof.
  apply (proj1 (X7_handle_sysctl_writes demo_plat
                  (jobj "sysctl" [jstr "kern.maxfiles" "64"; jbool "ddb.onpanic" false])
                  "handle_netbsd" w0 eq_refl
                  ltac:(repeat constructor; simpl; tauto))).
  reflexivity.
Defined.

(** X8: [handle_env] sets the variables in the order of the object, each
    with overwriting; a member that is not a string is fatal once the
    variables before it are set, and none after it is. *)
Theorem X8_handle_env_sets (plat : platform) (v : jvalue) (loc : string) (w : world) :
  d v = jobject ->
  (Forall (fun i => d i = jstring) (u_v v) ->
   (forall j h, In j (u_v v) -> rv (os plat h (setenv (n j) (u_s j) 1)) <> (-1)%Z) ->
   run (handle_env plat v loc) w =
   Ret tt (called w (map (fun j => setenv (n j) (u_s j) 1) (u_v v)))) /\
  (forall l1 i l2,
     u_v v = l1 ++ i :: l2 ->
     Forall (fun j => d j = jstring) l1 -> d i <> jstring ->
     (forall j h, In j l1 -> rv (os plat h (setenv (n j) (u_s j) 1)) <> (-1)%Z) ->
     exists msg,
       run (handle_env plat v loc) w =
       Exit (Errx msg) (called w (map (fun j => setenv (n j) (u_s j) 1) l1))).
Proof.
  intros Hd.
  assert (Hstep : forall l, Forall (fun j => d j = jstring) l ->
    (forall j h, In j l -> rv (os plat h (setenv (n j) (u_s j) 1)) <> (-1)%Z) ->
    forall j w1, In j l ->
    run (jexpect jstring j "handle_env" ;;
         r <- sys plat (setenv (n j) (u_s j) 1) ;;
         if (rv r =? -1)%Z then err ["setenv"] else ret tt) w1
    = Ret tt (called w1 [setenv (n j) (u_s j) 1])).
  { intros l Hs Hok j w1 Hj. rewrite Forall_forall in Hs.
    rewrite run_bind, run_jexpect, (Hs j Hj). cbn [jtypes_eqb].
    rewrite run_bind, run_sys_called.
    specialize (Hok j (history w1) Hj). apply Z.eqb_neq in Hok. now rewrite Hok. }
  unfold handle_env. rewrite run_bind, run_jexpect, Hd. cbn [jtypes_eqb].
  split.
  - intros Hs Hok. apply for_each_all_ok. now apply (Hstep (u_v v)).
  - intros l1 i l2 El Hs Hi Hok. rewrite El. eexists. eapply for_each_stop.
    + apply (for_each_all_ok l1 _ (fun j => setenv (n j) (u_s j) 1)).
      now apply (Hstep l1).
    + rewrite run_bind, run_jexpect.
      destruct (jtypes_eqb (d i) jstring) eqn:E; [ | reflexivity ].
      apply jtypes_eqb_eq in E. contradiction.
Qed.

(** The object [{"HOME":"/", "TERM":"vt100"}]. *)
Lemma X8_handle_env_sets_witness :
  run (handle_env demo_plat (jobj "env" [jstr "HOME" "/"; jstr "TERM" "vt100"])
         "rumprun_config") w0 =
  Ret tt (called w0 [setenv "HOME" "/" 1; setenv "TERM" "vt100" 1]).
Proof.
  apply (proj1 (X8_handle_env_sets demo_plat
                  (jobj "env" [jstr "HOME" "/"; jstr "TERM" "vt100"])
                  "rumprun_config" w0 eq_refl)).
  - repeat constructor.
  - intros j h _. discriminate.
Defined.

(** ** The network *)

Lemma for_each_calls {A : Type} (l : list A) (cs : list call) (body : A -> M unit)
  (w : world) :
  Forall2 (fun x c => forall w1, run (body x) w1 = Ret tt (called w1 [c])) l cs ->
  run (for_each l body) w = Ret tt (called w cs).
Proof.
  intros H. revert w. induction H as [ | x c l cs Hx _ IH]; intros w; simpl.
  - now rewrite called_nil.
  - now rewrite run_bind, Hx, IH, called_called.
Qed.

Lemma fold_each_pure {A S : Type} (l : list A) (body : S -> A -> M S) (step : S -> A -> S)
  (s : S) (w : world) :
  (forall s1 x, In x l -> run (body s1 x) w = Ret (step s1 x) w) ->
  run (fold_each l body s) w = Ret (fold_left step l s) w.
Proof.
  revert s. induction l as [ | x l IH]; intros s H; simpl.
  - reflexivity.
  - rewrite run_bind, H by now left. apply IH. intros s1 y Hy. apply H. now right.
Qed.

Lemma streq_sym (a b : string) : streq a b = streq b a.
Proof. unfold streq. apply String.eqb_sym. Qed.

(** The scan of a [gateways] element ends with its last [type] and its
    last [addr]. *)
Lemma gateway_scan (l : list jvalue) :
  fold_left (fun (ta : option string * option string) i =>
               let '(type, addr) := ta in
               if streq (n i) "type" then (Some (u_s i), addr)
               else if streq (n i) "addr" then (type, Some (u_s i))
               else ta) l (None, None)
  = (option_map u_s (find_last "type" l), option_map u_s (find_last "addr" l)).
Proof.
  induction l as [ | i l IH] using rev_ind; [ reflexivity | ].
  rewrite fold_left_app, IH, !find_last_snoc. cbn [fold_left].
  destruct (streq (n i) "type") eqn:E1.
  - key_eq E1. rewrite E1. reflexivity.
  - now destruct (streq (n i) "addr").
Qed.

Lemma gateway_entry_run (plat : platform) (a : jvalue) (w : world) :
  d a = jobject ->
  run (jexpect jobject a "handle_gateways" ;;
    ta <- fold_each (u_v a) (fun (ta : option string * option string) i =>
            let '(type, addr) := ta in
            if streq (n i) "type" then ret (Some (u_s i), addr)
            else if streq (n i) "addr" then ret (type, Some (u_s i))
            else
              warnx ["handle_gateways"; ": unexpected key "; dq; n i; dq;
                     " in gateways[], ignored"] ;;
              ret ta) (None, None) ;;
    let '(type, addr) := ta in
    match type, addr with
    | Some type, Some addr =>
        if streq type "inet" then
          r <- sys plat (rump_pub_netconfig_ipv4_gw addr) ;;
          if negb (rv r =? 0)%Z
          then errx ["handle_gateways"; ": gw "; dq; addr; dq; " addition failed: ";
                     strerror plat (rv r)]
          else ret tt
        else if streq type "inet6" then
          r <- sys plat (rump_pub_netconfig_ipv6_gw addr) ;;
          if negb (rv r =? 0)%Z
          then errx ["handle_gateways"; ": gw "; dq; addr; dq; " addition failed: ";
                     strerror plat (rv r)]
          else ret tt
        else errx ["handle_gateways"; ": gateway type "; dq; type; dq; " not supported ";
                   "in gateways[]"]
    | _, _ => errx ["handle_gateways"; ": missing type/addr in gateways[]"]
    end) w
  = match gateway_call a with
    | Some c =>
        if (rv (os plat (history w) c) =? 0)%Z then Ret tt (called w [c])
        else Exit (Errx (fmt ["handle_gateways"; ": gw "; dq;
                              match c with
                              | rump_pub_netconfig_ipv4_gw ad => ad
                              | rump_pub_netconfig_ipv6_gw ad => ad
                              | _ => ""
                              end; dq; " addition failed: ";
                              strerror plat (rv (os plat (history w) c))]))
                  (called w [c])
    | None =>
        Exit (Errx (match find_last "type" (u_v a), find_last "addr" (u_v a) with
                    | Some t, Some _ =>
                        fmt ["handle_gateways"; ": gateway type "; dq; u_s t; dq;
                             " not supported "; "in gateways[]"]
                    | _, _ => fmt ["handle_gateways"; ": missing type/addr in gateways[]"]
                    end)) w
    end.
Proof.
  intros Hd. rewrite run_bind, run_jexpect, Hd. cbn [jtypes_eqb].
  rewrite run_bind.
  rewrite (fold_each_pure (u_v a) _
             (fun (ta : option string * option string) i =>
                let '(type, addr) := ta in
                if streq (n i) "type" then (Some (u_s i), addr)
                else if streq (n i) "addr" then (type, Some (u_s i))
                else ta)).
  2:{ intros [t ad] i _. destruct (streq (n i) "type"); [ reflexivity | ].
      destruct (streq (n i) "addr"); [ reflexivity | ].
      now rewrite run_bind, run_warnx, run_ret. }
  rewrite gateway_scan. unfold gateway_call.
  destruct (find_last "type" (u_v a)) as [t | ], (find_last "addr" (u_v a)) as [ad | ];
    cbn [option_map]; try reflexivity.
  destruct (streq (u_s t) "inet").
  - rewrite run_bind, run_sys_called.
    now destruct (rv (os plat (history w) _) =? 0)%Z.
  - destruct (streq (u_s t) "inet6"); [ | reflexivity ].
    rewrite run_bind, run_sys_called.
    now destruct (rv (os plat (history w) _) =? 0)%Z.
Qed.

(** X9: [handle_gateways] adds the gateways in the order of the array,
    each by the last [type] and the last [addr] of its element; an element
    without one of them, or of another type than [inet] and [inet6], is
    fatal once the gateways before it are added. *)
Theorem X9_handle_gateways_order (plat : platform) (v : jvalue) (loc : string) (w : world) :
  d v = jarray ->
  (forall cs,
     Forall2 (fun a c => d a = jobject /\ gateway_call a = Some c /\
                         forall h, rv (os plat h c) = 0%Z) (u_v v) cs ->
     run (handle_gateways plat v loc) w = Ret tt (called w cs)) /\
  (forall l1 a l2 cs,
     u_v v = l1 ++ a :: l2 ->
     Forall2 (fun a c => d a = jobject /\ gateway_call a = Some c /\
                         forall h, rv (os plat h c) = 0%Z) l1 cs ->
     d a = jobject -> gateway_call a = None ->
     exists msg, run (handle_gateways plat v loc) w = Exit (Errx msg) (called w cs)).
Proof.
  intros Hd. unfold handle_gateways.
  rewrite run_bind, run_jexpect, Hd. cbn [jtypes_eqb].
  match goal with |- context [for_each (u_v v) ?f] => set (body := f) end.
  assert (Hok : forall l cs,
    Forall2 (fun a c => d a = jobject /\ gateway_call a = Some c /\
                        forall h, rv (os plat h c) = 0%Z) l cs ->
    Forall2 (fun x c => forall w1, run (body x) w1 = Ret tt (called w1 [c])) l cs).
  { intros l cs H.
    induction H as [ | a c l cs (Ha & Hc & Hr) _ IH]; constructor; [ | exact IH ].
    intros w1. unfold body. rewrite (gateway_entry_run plat a w1 Ha), Hc, Hr.
    reflexivity. }
  split.
  - intros cs H. apply for_each_calls. now apply Hok.
  - intros l1 a l2 cs El H Ha Hc. rewrite El. eexists.
    eapply for_each_stop.
    + apply for_each_calls. apply (Hok _ _ H).
    + unfold body. rewrite (gateway_entry_run plat a _ Ha), Hc. reflexivity.
Qed.

(** Two gateways, one of each family. *)
Lemma X9_handle_gateways_order_witness :
  run (handle_gateways demo_plat
         (jarr "gateways" [jobj "" [jstr "type" "inet"; jstr "addr" "10.0.0.1"];
                           jobj "" [jstr "addr" "fe80::1"; jstr "type" "inet6"]])
         "handle_net") w0
  = Ret tt (called w0 [rump_pub_netconfig_ipv4_gw "10.0.0.1";
                       rump_pub_netconfig_ipv6_gw "fe80::1"]).
Proof.
  apply (proj1 (X9_handle_gateways_order demo_plat
                  (jarr "gateways" [jobj "" [jstr "type" "inet"; jstr "addr" "10.0.0.1"];
                                    jobj "" [jstr "addr" "fe80::1"; jstr "type" "inet6"]])
                  "handle_net" w0 eq_refl)).
  repeat constructor.
Defined.

Lemma config_ipv4_call (plat : platform) (ifname method : string) (cidr : option string)
  (w : world) :
  match ipv4_call ifname method cidr with
  | Some c =>
      exists msg,
        run (config_ipv4 plat ifname method cidr) w =
        if (rv (os plat (history w) c) =? 0)%Z then Ret tt (called w [c])
        else Exit (Errx msg) (called w [c])
  | None => exists msg, run (config_ipv4 plat ifname method cidr) w = Exit (Errx msg) w
  end.
Proof.
  unfold ipv4_call, config_ipv4, addr_mask.
  destruct (streq method "dhcp").
  - eexists. rewrite run_bind, run_sys_called.
    destruct (rv _ =? 0)%Z; reflexivity.
  - destruct (streq method "static"); [ | now eexists ].
    destruct cidr as [cidr | ]; [ | now eexists ].
    destruct (strchr cidr "/") as [k | ]; [ | now eexists ].
    cbn [option_map fst snd]. eexists. rewrite run_bind, run_sys_called.
    destruct (rv _ =? 0)%Z; reflexivity.
Qed.

Lemma config_ipv6_call (plat : platform) (ifname method : string) (addrmask : option string)
  (w : world) :
  match ipv6_call ifname method addrmask with
  | Some c =>
      exists msg,
        run (config_ipv6 plat ifname method addrmask) w =
        if (rv (os plat (history w) c) =? 0)%Z then Ret tt (called w [c])
        else Exit (Errx msg) (called w [c])
  | None => exists msg, run (config_ipv6 plat ifname method addrmask) w = Exit (Errx msg) w
  end.
Proof.
  unfold ipv6_call, config_ipv6, addr_mask.
  destruct (streq method "auto").
  - eexists. rewrite run_bind, run_sys_called.
    destruct (rv _ =? 0)%Z; reflexivity.
  - destruct (streq method "static"); [ | now eexists ].
    destruct addrmask as [addrmask | ]; [ | now eexists ].
    destruct (strchr addrmask "/") as [k | ]; [ | now eexists ].
    cbn [option_map fst snd]. eexists. rewrite run_bind, run_sys_called.
    destruct (rv _ =? 0)%Z; reflexivity.
Qed.

Lemma addr_mask_split (a m : string) :
  strchr a "/" = None -> addr_mask (Some (a ++ "/" ++ m)%string) = Some (a, atoi m).
Proof.
  intros H. unfold addr_mask.
  change (a ++ "/" ++ m)%string with (a ++ String "/" m)%string.
  now rewrite (strchr_app a m "/" H), strupto_app, strfrom_app_S.
Qed.

(** X10: [config_ipv6] makes one call or none.  A static address is cut at
    its first slash and the prefix length is what [atoi] reads behind it; a
    static address that is missing or has no slash, and a method that is
    neither [auto] nor [static], are fatal before any call. *)
Theorem X10_config_ipv6_calls (plat : platform) (ifname : string) (w : world) :
  (forall a m,
     strchr a "/" = None ->
     rv (os plat (history w) (rump_pub_netconfig_ipv6_ifaddr ifname a (atoi m))) = 0%Z ->
     run (config_ipv6 plat ifname "static" (Some (a ++ "/" ++ m)%string)) w =
     Ret tt (called w [rump_pub_netconfig_ipv6_ifaddr ifname a (atoi m)])) /\
  (forall addrmask,
     (forall s, addrmask = Some s -> strchr s "/" = None) ->
     exists msg, run (config_ipv6 plat ifname "static" addrmask) w = Exit (Errx msg) w) /\
  (forall method addrmask,
     method <> "auto" -> method <> "static" ->
     exists msg, run (config_ipv6 plat ifname method addrmask) w = Exit (Errx msg) w) /\
  (forall addrmask,
     rv (os plat (history w) (rump_pub_netconfig_auto_ipv6 ifname)) = 0%Z ->
     run (config_ipv6 plat ifname "auto" addrmask) w =
     Ret tt (called w [rump_pub_netconfig_auto_ipv6 ifname])).
Proof.
  repeat split.
  - intros a m Ha Hr.
    pose proof (config_ipv6_call plat ifname "static" (Some (a ++ "/" ++ m)%string) w) as H.
    unfold ipv6_call in H. cbn [streq String.eqb Ascii.eqb Bool.eqb] in H.
    rewrite (addr_mask_split a m Ha) in H. cbn [option_map fst snd] in H.
    destruct H as [msg H]. rewrite H, Hr. reflexivity.
  - intros addrmask Hs.
    pose proof (config_ipv6_call plat ifname "static" addrmask w) as H.
    unfold ipv6_call, addr_mask in H. cbn [streq String.eqb Ascii.eqb Bool.eqb] in H.
    destruct addrmask as [s | ]; [ | exact H ].
    now rewrite (Hs s eq_refl) in H.
  - intros method addrmask H1 H2.
    pose proof (config_ipv6_call plat ifname method addrmask w) as H.
    unfold ipv6_call in H.
    apply String.eqb_neq in H1, H2. unfold streq in H. now rewrite H1, H2 in H.
  - intros addrmask Hr.
    pose proof (config_ipv6_call plat ifname "auto" addrmask w) as H.
    unfold ipv6_call in H. cbn [streq String.eqb Ascii.eqb Bool.eqb] in H.
    destruct H as [msg H]. rewrite H, Hr. reflexivity.
Qed.

(** The address [fe80::2/64] of the interface [xn0]. *)
Lemma X10_config_ipv6_calls_witness :
  run (config_ipv6 demo_plat "xn0" "static" (Some "fe80::2/64")) w0 =
  Ret tt (called w0 [rump_pub_netconfig_ipv6_ifaddr "xn0" "fe80::2" 64]).
Proof.
  apply (proj1 (X10_config_ipv6_calls demo_plat "xn0" w0) "fe80::2" "64");
    reflexivity.
Defined.

Lemma interface_scan_fold (l : list jvalue) :
  fold_left (fun (vars : option jvalue * option jvalue) i =>
               let '(addrs, create) := vars in
               if streq (n i) "create" then (addrs, Some i)
               else if streq (n i) "addrs" then (Some i, create)
               else vars) l (None, None)
  = (find_last "addrs" l, find_last "create" l).
Proof.
  induction l as [ | i l IH] using rev_ind; [ reflexivity | ].
  rewrite fold_left_app, IH, !find_last_snoc. cbn [fold_left].
  destruct (streq (n i) "create") eqn:E1.
  - key_eq E1. rewrite E1. reflexivity.
  - now destruct (streq (n i) "addrs").
Qed.

Lemma handle_interface_scan_run (ifname : string) (l : list jvalue) (w : world) :
  forallb interface_member_ok l = true ->
  run (fold_each l (handle_interface_scan ifname) (None, None)) w =
  Ret (find_last "addrs" l, find_last "create" l) w.
Proof.
  intros Hok. rewrite <- interface_scan_fold. apply fold_each_pure.
  intros [addrs create] i Hi.
  rewrite forallb_forall in Hok. specialize (Hok i Hi).
  unfold interface_member_ok in Hok. unfold handle_interface_scan.
  destruct (streq (n i) "create").
  - destruct (jtypes_eqb (d i) jtrue), (jtypes_eqb (d i) jfalse);
      try discriminate Hok; reflexivity.
  - destruct (streq (n i) "addrs").
    + rewrite run_bind, run_jexpect, Hok. reflexivity.
    + now rewrite run_bind, run_warnx, run_ret.
Qed.

Lemma addr_scan_fold (l : list jvalue) :
  fold_left (fun (tma : option string * option string * option string) i =>
               let '(type, method, addr) := tma in
               if streq (n i) "type" then (Some (u_s i), method, addr)
               else if streq (n i) "method" then (type, Some (u_s i), addr)
               else if streq (n i) "addr" then (type, method, Some (u_s i))
               else tma) l (None, None, None)
  = (option_map u_s (find_last "type" l), option_map u_s (find_last "method" l),
     option_map u_s (find_last "addr" l)).
Proof.
  induction l as [ | i l IH] using rev_ind; [ reflexivity | ].
  rewrite fold_left_app, IH, !find_last_snoc. cbn [fold_left].
  destruct (streq (n i) "type") eqn:E1.
  - key_eq E1. rewrite E1. reflexivity.
  - destruct (streq (n i) "method") eqn:E2.
    + key_eq E2. rewrite E2. reflexivity.
    + now destruct (streq (n i) "addr").
Qed.

(** An element of [addrs] makes the call [addr_call] names, or none. *)
Lemma handle_interface_addr_run (plat : platform) (ifname : string) (a : jvalue)
  (w : world) :
  d a = jobject ->
  match addr_call ifname a with
  | Some c =>
      exists msg,
        run (handle_interface_addr plat ifname a) w =
        if (rv (os plat (history w) c) =? 0)%Z then Ret tt (called w [c])
        else Exit (Errx msg) (called w [c])
  | None => exists msg, run (handle_interface_addr plat ifname a) w = Exit (Errx msg) w
  end.
Proof.
  intros Hd. unfold handle_interface_addr.
  rewrite run_bind, run_jexpect, Hd. cbn [jtypes_eqb].
  rewrite run_bind.
  rewrite (fold_each_pure (u_v a) _
             (fun (tma : option string * option string * option string) i =>
                let '(type, method, addr) := tma in
                if streq (n i) "type" then (Some (u_s i), method, addr)
                else if streq (n i) "method" then (type, Some (u_s i), addr)
                else if streq (n i) "addr" then (type, method, Some (u_s i))
                else tma)).
  2:{ intros [[t m] ad] i _. destruct (streq (n i) "type"); [ reflexivity | ].
      destruct (streq (n i) "method"); [ reflexivity | ].
      destruct (streq (n i) "addr"); [ reflexivity | ].
      now rewrite run_bind, run_warnx, run_ret. }
  rewrite addr_scan_fold. unfold addr_call.
  destruct (find_last "type" (u_v a)) as [t | ]; cbn [option_map]; [ | now eexists ].
  destruct (find_last "method" (u_v a)) as [m | ]; cbn [option_map]; [ | now eexists ].
  destruct (streq (u_s t) "inet"); [ apply config_ipv4_call | ].
  destruct (streq (u_s t) "inet6"); [ apply config_ipv6_call | now eexists ].
Qed.

(** Once the interface is made, [handle_interface] is left with its
    addresses. *)
Lemma handle_interface_create_run (plat : platform) (v : jvalue) (loc : string) (w : world) :
  d v = jobject ->
  forallb interface_member_ok (u_v v) = true ->
  (forall c, In c (create_calls v) -> rv (os plat (history w) c) = 0%Z) ->
  let rest :=
    match find_last "addrs" (u_v v) with
    | None =>
        warnx ["handle_interface"; ": no addresses configured for interface "; dq; n v; dq]
    | Some addrs => for_each (u_v addrs) (handle_interface_addr plat (n v))
    end in
  run (handle_interface plat v loc) w = run rest (called w (create_calls v)) /\
  (forall line, In line (warnings rest (called w (create_calls v))) ->
                In line (warnings (handle_interface plat v loc) w)).
Proof.
  intros Hd Hok Hc rest.
  pose proof (handle_interface_scan_run (n v) (u_v v) w Hok) as Hs.
  unfold handle_interface.
  change (fold_each (u_v v) _ (None, None))
    with (fold_each (u_v v) (handle_interface_scan (n v)) (None, None)).
  assert (Hcr : forall m : M unit,
    (m = match find_last "create" (u_v v) with
         | Some c =>
             if jtypes_eqb (d c) jtrue then
               r <- sys plat (rump_pub_netconfig_ifcreate (n v)) ;;
               if negb (rv r =? 0)%Z
               then errx ["handle_interface"; ": ifcreate("; n v; ") failed: ";
                          strerror plat (rv r)]
               else ret tt
             else ret tt
         | None => ret tt
         end) ->
    run m w = Ret tt (called w (create_calls v))).
  { intros m ->. unfold create_calls in *.
    destruct (find_last "create" (u_v v)) as [c | ]; [ | now rewrite called_nil ].
    destruct (jtypes_eqb (d c) jtrue); [ | now rewrite called_nil ].
    rewrite run_bind, run_sys_called, (Hc _ (or_introl eq_refl)). reflexivity. }
  split.
  - rewrite run_bind, run_jexpect, Hd. cbn [jtypes_eqb].
    rewrite run_bind, Hs. cbn beta iota.
    rewrite run_bind, (Hcr _ eq_refl). reflexivity.
  - intros line Hl.
    rewrite warnings_bind, run_jexpect, Hd. cbn [jtypes_eqb].
    apply in_or_app. right.
    rewrite warnings_bind, Hs. cbn beta iota.
    apply in_or_app. right.
    rewrite warnings_bind, (Hcr _ eq_refl).
    apply in_or_app. right. exact Hl.
Qed.

(** X11: [handle_interface] makes the interface first, and only when its
    last [create] is true, wherever [create] stands among the members; a
    failure to make it is fatal before any address is touched.  An
    interface without [addrs] is not an error: a warning says so. *)
Theorem X11_handle_interface_create (plat : platform) (v : jvalue) (loc : string)
  (w : world) :
  d v = jobject ->
  forallb interface_member_ok (u_v v) = true ->
  (forall c,
     find_last "create" (u_v v) = Some c -> d c = jtrue ->
     rv (os plat (history w) (rump_pub_netconfig_ifcreate (n v))) <> 0%Z ->
     exists msg,
       run (handle_interface plat v loc) w =
       Exit (Errx msg) (called w [rump_pub_netconfig_ifcreate (n v)])) /\
  (find_last "addrs" (u_v v) = None ->
   (forall c, In c (create_calls v) -> rv (os plat (history w) c) = 0%Z) ->
   run (handle_interface plat v loc) w = Ret tt (called w (create_calls v)) /\
   In (fmt ["handle_interface"; ": no addresses configured for interface "; dq; n v; dq])
      (warnings (handle_interface plat v loc) w)).
Proof.
  intros Hd Hok. split.
  - intros c Hc Hdc Hr.
    pose proof (handle_interface_scan_run (n v) (u_v v) w Hok) as Hs.
    unfold handle_interface.
    change (fold_each (u_v v) _ (None, None))
      with (fold_each (u_v v) (handle_interface_scan (n v)) (None, None)).
    rewrite run_bind, run_jexpect, Hd. cbn [jtypes_eqb].
    rewrite run_bind, Hs. cbn beta iota.
    rewrite Hc, Hdc. cbn [jtypes_eqb].
    rewrite !run_bind, run_sys_called.
    apply Z.eqb_neq in Hr. rewrite Hr. cbn [negb]. rewrite run_errx. now eexists.
  - intros Ha Hc.
    destruct (handle_interface_create_run plat v loc w Hd Hok Hc) as [Hrun Hw].
    rewrite Ha in Hrun, Hw. split.
    + rewrite Hrun. reflexivity.
    + apply Hw. now left.
Qed.

(** The interface [tap0] with [create] alone. *)
Lemma X11_handle_interface_create_witness :
  run (handle_interface demo_plat (jobj "tap0" [jbool "create" true]) "handle_interfaces") w0
  = Ret tt (called w0 [rump_pub_netconfig_ifcreate "tap0"]).
Proof.
  apply (proj2 (X11_handle_interface_create demo_plat (jobj "tap0" [jbool "create" true])
                  "handle_interfaces" w0 eq_refl eq_refl)).
  - reflexivity.
  - intros c _. reflexivity.
Defined.

(** X12: [handle_interface] configures the addresses in the order of
    [addrs], after the interface is made: each element by its last [type],
    [method] and [addr], [inet] through [config_ipv4] and [inet6] through
    [config_ipv6].  An element that names no call is fatal once the
    addresses before it are configured. *)
Theorem X12_handle_interface_addrs (plat : platform) (v : jvalue) (loc : string)
  (w : world) (arr : jvalue) :
  d v = jobject ->
  forallb interface_member_ok (u_v v) = true ->
  find_last "addrs" (u_v v) = Some arr ->
  (forall c, In c (create_calls v) -> rv (os plat (history w) c) = 0%Z) ->
  (forall cs,
     Forall2 (fun a c => d a = jobject /\ addr_call (n v) a = Some c /\
                         forall h, rv (os plat h c) = 0%Z) (u_v arr) cs ->
     run (handle_interface plat v loc) w = Ret tt (called w (create_calls v ++ cs))) /\
  (forall l1 a l2 cs,
     u_v arr = l1 ++ a :: l2 ->
     Forall2 (fun a c => d a = jobject /\ addr_call (n v) a = Some c /\
                         forall h, rv (os plat h c) = 0%Z) l1 cs ->
     d a = jobject -> addr_call (n v) a = None ->
     exists msg,
       run (handle_interface plat v loc) w =
       Exit (Errx msg) (called w (create_calls v ++ cs))).
Proof.
  intros Hd Hok Ha Hc.
  destruct (handle_interface_create_run plat v loc w Hd Hok Hc) as [Hrun _].
  rewrite Ha in Hrun. rewrite Hrun. clear Hrun.
  assert (H2 : forall l cs,
    Forall2 (fun a c => d a = jobject /\ addr_call (n v) a = Some c /\
                        forall h, rv (os plat h c) = 0%Z) l cs ->
    Forall2 (fun x c => forall w1,
               run (handle_interface_addr plat (n v) x) w1 = Ret tt (called w1 [c])) l cs).
  { intros l cs H.
    induction H as [ | a c l cs (Hda & Hca & Hr) _ IH]; constructor; [ | exact IH ].
    intros w1. pose proof (handle_interface_addr_run plat (n v) a w1 Hda) as H.
    rewrite Hca in H. destruct H as [msg H]. now rewrite H, Hr. }
  split.
  - intros cs H. rewrite (for_each_calls _ cs _ _ (H2 _ _ H)).
    now rewrite called_called.
  - intros l1 a l2 cs El H Hda Hca. rewrite El.
    pose proof (handle_interface_addr_run plat (n v) a
                  (called (called w (create_calls v)) cs) Hda) as Hx.
    rewrite Hca in Hx. destruct Hx as [msg Hx]. exists msg.
    rewrite <- called_called.
    eapply for_each_stop; [ | exact Hx ].
    apply for_each_calls. now apply H2.
Qed.

(** An interface made first, with a static address and one from DHCP. *)
Lemma X12_handle_interface_addrs_witness :
  run (handle_interface demo_plat
         (jobj "tap0"
            [jarr "addrs"
               [jobj "" [jstr "type" "inet"; jstr "method" "static";
                         jstr "addr" "10.0.0.2/24"];
                jobj "" [jstr "method" "dhcp"; jstr "type" "inet"]];
             jbool "create" true])
         "handle_interfaces") w0
  = Ret tt (called w0 [rump_pub_netconfig_ifcreate "tap0";
                       rump_pub_netconfig_ipv4_ifaddr_cidr "tap0" "10.0.0.2" 24;
                       rump_pub_netconfig_dhcp_ipv4_oneshot "tap0"]).
Proof.
  apply (proj1 (X12_handle_interface_addrs demo_plat
                  (jobj "tap0"
                     [jarr "addrs"
                        [jobj "" [jstr "type" "inet"; jstr "method" "static";
                                  jstr "addr" "10.0.0.2/24"];
                         jobj "" [jstr "method" "dhcp"; jstr "type" "inet"]];
                      jbool "create" true])
                  "handle_interfaces" w0
                  (jarr "addrs"
                     [jobj "" [jstr "type" "inet"; jstr "method" "static";
                               jstr "addr" "10.0.0.2/24"];
                      jobj "" [jstr "method" "dhcp"; jstr "type" "inet"]])
                  eq_refl eq_refl eq_refl ltac:(intros c _; reflexivity))
               [rump_pub_netconfig_ipv4_ifaddr_cidr "tap0" "10.0.0.2" 24;
                rump_pub_netconfig_dhcp_ipv4_oneshot "tap0"]).
  repeat constructor.
Defined.

(** ** Block devices *)

Lemma fold_each_fails {A S : Type} (f : S -> A -> M S) (l : list A) (x : A) (s : S)
  (w : world) :
  (forall s1 y, In y l -> pure_outcome (run (f s1 y) w) w (fun _ => True)) ->
  In x l ->
  (forall s1, exists msg, run (f s1 x) w = Exit (Errx msg) w) ->
  exists msg, run (fold_each l f s) w = Exit (Errx msg) w.
Proof.
  intros Hp Hx Hf. revert s. induction l as [ | y l IH]; intros s; [ destruct Hx | ].
  cbn [fold_each]. rewrite run_bind.
  destruct Hx as [-> | Hx].
  - destruct (Hf s) as [msg ->]. now exists msg.
  - pose proof (Hp s y (or_introl eq_refl)) as Hy.
    destruct (run (f s y) w) as [s' w' | e w'].
    + destruct Hy as [-> _]. apply IH; [ | exact Hx ].
      intros s1 z Hz. apply Hp. now right.
    + destruct Hy as (-> & msg & ->). now exists msg.
Qed.

Lemma handle_blk_scan_step (dev : string) (tp : option string * option string) (i : jvalue)
  (w : world) :
  run (handle_blk_scan dev tp i) w =
  if blk_member_ok i
  then Ret (if streq (n i) "type" then (Some (u_s i), snd tp)
            else (fst tp, Some (u_s i))) w
  else Exit (Errx (if streq (n i) "type" || streq (n i) "path"
                   then fmt ["handle_blk"; ": expected "; jtypestr jstring; ", got ";
                             jtypestr (d i)]
                   else fmt ["handle_blk"; ": unexpected key "; dq; n i; dq; " in "; dq;
                             dev; dq])) w.
Proof.
  destruct tp as [type path]. unfold handle_blk_scan, blk_member_ok.
  destruct (streq (n i) "type"); cbn [orb andb fst snd].
  - rewrite run_bind, run_jexpect. now destruct (jtypes_eqb (d i) jstring).
  - destruct (streq (n i) "path"); cbn [andb]; [ | reflexivity ].
    rewrite run_bind, run_jexpect. now destruct (jtypes_eqb (d i) jstring).
Qed.

Lemma blk_scan_fold (l : list jvalue) :
  forallb blk_member_ok l = true ->
  fold_left (fun (tp : option string * option string) i =>
               if streq (n i) "type" then (Some (u_s i), snd tp)
               else (fst tp, Some (u_s i))) l (None, None)
  = (option_map u_s (find_last "type" l), option_map u_s (find_last "path" l)).
Proof.
  induction l as [ | i l IH] using rev_ind; [ reflexivity | ].
  rewrite forallb_app. intros H. apply andb_true_iff in H. destruct H as [Hl Hi].
  rewrite fold_left_app, (IH Hl), !find_last_snoc. cbn [fold_left fst snd].
  cbn [forallb] in Hi. unfold blk_member_ok in Hi.
  destruct (streq (n i) "type") eqn:E1.
  - key_eq E1. rewrite E1. reflexivity.
  - destruct (streq (n i) "path"); [ reflexivity | discriminate Hi ].
Qed.

(** X13: [handle_blk] reads the whole device before it acts: a member other
    than a string [type] or [path], a missing [type] or [path] and a type
    other than [etfs] and [vnd] are fatal with no call made.  An [etfs]
    device is registered under [/dev/] and its name, cut to the 31
    characters of the key buffer, and a failure to register it is fatal;
    a [vnd] device goes to [configvnd]. *)
Theorem X13_handle_blk_reads_first (plat : platform) (v : jvalue) (loc : string)
  (w : world) :
  d v = jobject ->
  (forall i, In i (u_v v) -> blk_member_ok i = false ->
     exists msg, run (handle_blk plat v loc) w = Exit (Errx msg) w) /\
  (forallb blk_member_ok (u_v v) = true ->
   match find_last "type" (u_v v), find_last "path" (u_v v) with
   | Some t, Some p =>
       if streq (u_s t) "etfs" then
         let c := rump_pub_etfs_register (snprintf 32 ("/dev/" ++ n v)) (u_s p) in
         exists msg,
           run (handle_blk plat v loc) w =
           if (rv (os plat (history w) c) =? 0)%Z then Ret tt (called w [c])
           else Exit (Errx msg) (called w [c])
       else if streq (u_s t) "vnd" then
         run (handle_blk plat v loc) w = run (configvnd plat (n v) (u_s p)) w
       else exists msg, run (handle_blk plat v loc) w = Exit (Errx msg) w
   | _, _ => exists msg, run (handle_blk plat v loc) w = Exit (Errx msg) w
   end).
Proof.
  intros Hd. unfold handle_blk.
  change (fold_each (u_v v) _ (None, None))
    with (fold_each (u_v v) (handle_blk_scan (n v)) (None, None)).
  rewrite run_bind, run_jexpect, Hd. cbn [jtypes_eqb]. rewrite run_bind.
  split.
  - intros i Hi Hbad.
    destruct (fold_each_fails (handle_blk_scan (n v)) (u_v v) i (None, None) w)
      as [msg Hm].
    + intros s1 y _. rewrite handle_blk_scan_step.
      destruct (blk_member_ok y); simpl; eauto.
    + exact Hi.
    + intros s1. rewrite handle_blk_scan_step, Hbad. now eexists.
    + rewrite Hm. now exists msg.
  - intros Hok.
    rewrite (fold_each_pure (u_v v) _
               (fun (tp : option string * option string) i =>
                  if streq (n i) "type" then (Some (u_s i), snd tp)
                  else (fst tp, Some (u_s i)))).
    2:{ intros s1 i Hi. rewrite forallb_forall in Hok.
        now rewrite handle_blk_scan_step, (Hok i Hi). }
    rewrite (blk_scan_fold _ Hok).
    destruct (find_last "type" (u_v v)) as [t | ]; cbn [option_map]; [ | now eexists ].
    destruct (find_last "path" (u_v v)) as [p | ]; cbn [option_map]; [ | now eexists ].
    destruct (streq (u_s t) "etfs").
    + unfold configetfs. cbv zeta. eexists. rewrite run_bind, run_sys_called.
      rewrite andb_true_r.
      change (fmt ["/dev/"; n v]) with ("/dev/" ++ n v)%string.
      destruct (rv _ =? 0)%Z; reflexivity.
    + destruct (streq (u_s t) "vnd"); [ reflexivity | now eexists ].
Qed.

(** The device [{"ld1": {"type": "etfs", "path": "blkfront:xvdb"}}]. *)
Lemma X13_handle_blk_reads_first_witness :
  exists msg,
    run (handle_blk demo_plat
           (jobj "ld1" [jstr "type" "etfs"; jstr "path" "blkfront:xvdb"]) "handle_blks") w0
    = if (rv (os demo_plat (history w0)
                (rump_pub_etfs_register (snprintf 32 ("/dev/" ++ "ld1")) "blkfront:xvdb"))
          =? 0)%Z
      then Ret tt (called w0 [rump_pub_etfs_register (snprintf 32 ("/dev/" ++ "ld1"))
                                "blkfront:xvdb"])
      else Exit (Errx msg)
                (called w0 [rump_pub_etfs_register (snprintf 32 ("/dev/" ++ "ld1"))
                              "blkfront:xvdb"]).
Proof.
  exact (proj2 (X13_handle_blk_reads_first demo_plat
                  (jobj "ld1" [jstr "type" "etfs"; jstr "path" "blkfront:xvdb"])
                  "handle_blks" w0 eq_refl) eq_refl).
Defined.

Lemma digit_val_bound (a : ascii) : isdigit a = true -> (0 <= digit_val a <= 9)%Z.
Proof.
  unfold isdigit, digit_val. intros H. apply andb_true_iff in H.
  destruct H as [H1 H2]. apply Nat.leb_le in H1, H2. lia.
Qed.

Lemma digits_bound (s : string) (acc : Z) :
  (0 <= acc)%Z ->
  (0 <= digits s acc < (acc + 1) * 10 ^ Z.of_nat (String.length s))%Z.
Proof.
  revert acc. induction s as [ | a s IH]; intros acc Hacc.
  - cbn [digits String.length Z.of_nat]. change (10 ^ 0)%Z with 1%Z. lia.
  - cbn [digits String.length]. rewrite Nat2Z.inj_succ, Z.pow_succ_r by lia.
    assert (Hpos : (0 < 10 ^ Z.of_nat (String.length s))%Z) by (apply Z.pow_pos_nonneg; lia).
    destruct (isdigit a) eqn:Ea.
    + pose proof (digit_val_bound a Ea) as Hv.
      specialize (IH (10 * acc + digit_val a)%Z ltac:(lia)). nia.
    + nia.
Qed.

Lemma scan_d_digits (a : ascii) (ds g : string) :
  isdigit a = true -> all_digits ds = true -> no_digit_ahead g = true ->
  scan_d (String a ds ++ g) = Some (to_int (Z.min LONG_MAX (digits (String a ds) 0))).
Proof.
  intros Ha Hd Hg.
  assert (E : scan_d (String a ds ++ g)
              = Some (to_int (Z.min LONG_MAX (digits (String a ds ++ g) 0)))).
  { unfold scan_d. simpl append.
    destruct a as [[] [] [] [] [] [] [] []]; try discriminate Ha; reflexivity. }
  rewrite E, digits_app; [ reflexivity | simpl; now rewrite Ha | assumption ].
Qed.

(** X14: [configvnd] takes the unit from the digits behind [vnd] and
    ignores what follows them: the unit is their value, saturated at
    [LONG_MAX] and cast to [int], so up to nine digits give their value and
    twenty nines give -1.  A name that does not have this form is fatal
    before any call.  When the raw device opens, the image is
    attached with one [ioctl] and the device is closed; when opening fails
    for another reason than a missing node, that is fatal and no node is
    made. *)
Theorem X14_configvnd_attach (plat : platform) (dev path : string) (w : world) :
  (sscanf_vnd_d dev = None ->
   exists msg, run (configvnd plat dev path) w = Exit (Errx msg) w) /\
  (forall unit,
     sscanf_vnd_d dev = Some unit ->
     let o := open (makevnddev true unit (RAW_PART plat) 32) [O_RDWR] 0 in
     let r := os plat (history w) o in
     (rv r <> (-1)%Z ->
      rv (os plat (history w ++ [o]) (ioctl_VNDIOCSET (rv r) path)) <> (-1)%Z ->
      run (configvnd plat dev path) w =
      Ret tt (called w [o; ioctl_VNDIOCSET (rv r) path; close (rv r)])) /\
     (rv r = (-1)%Z -> errno r <> ENOENT ->
      exists msg, run (configvnd plat dev path) w = Exit (Err msg) (called w [o]))) /\
  (forall a ds g,
     isdigit a = true -> all_digits ds = true -> no_digit_ahead g = true ->
     sscanf_vnd_d ("vnd" ++ String a ds ++ g)
     = Some (to_int (Z.min LONG_MAX (digits (String a ds) 0))) /\
     ((String.length ds < 9)%nat ->
      sscanf_vnd_d ("vnd" ++ String a ds ++ g) = Some (digits (String a ds) 0))) /\
  sscanf_vnd_d "vnd99999999999999999999" = Some (-1)%Z /\
  makevnddev true (-1) 3 32 = "/dev/rvnd-1d" /\
  (String.prefix "vnd" dev = false -> sscanf_vnd_d dev = None).
Proof.
  split; [ | split; [ | split; [ | split; [ | split ] ] ] ].
  - intros H. unfold configvnd. rewrite H. now eexists.
  - intros unit H o r. split.
    + intros Hr Hi. unfold configvnd. rewrite H.
      rewrite run_bind, run_sys_called. fold o. fold r.
      apply Z.eqb_neq in Hr, Hi. rewrite run_bind, Hr, run_ret.
      rewrite run_bind, run_sys_called. cbn [history called].
      rewrite run_bind, Hi, run_ret.
      rewrite run_bind, run_sys_called, run_ret, !called_called. reflexivity.
    + intros Hr He. unfold configvnd. rewrite H. eexists.
      rewrite run_bind, run_sys_called. fold o. fold r.
      apply Z.eqb_neq in He. apply Z.eqb_eq in Hr.
      rewrite Hr, He. cbn iota.
      rewrite !run_bind, run_ret, Hr, run_err. reflexivity.
  - intros a ds g Ha Hd Hg.
    assert (E : sscanf_vnd_d ("vnd" ++ String a ds ++ g)
                = Some (to_int (Z.min LONG_MAX (digits (String a ds) 0)))).
    { unfold sscanf_vnd_d.
      change (String.prefix "vnd" ("vnd" ++ String a ds ++ g)) with true.
      change (strfrom 3 ("vnd" ++ String a ds ++ g)) with (String a ds ++ g)%string.
      now apply scan_d_digits. }
    split; [ exact E | ].
    intros Hl. rewrite E. f_equal.
    pose proof (digits_bound (String a ds) 0) as Hb.
    cbn [String.length] in Hb.
    assert (Hp : (10 ^ Z.of_nat (S (String.length ds)) <= 10 ^ 9)%Z)
      by (apply Z.pow_le_mono_r; lia).
    change (10 ^ 9)%Z with 1000000000%Z in Hp.
    unfold to_int, LONG_MAX.
    rewrite Z.min_r by lia.
    change (2 ^ 31)%Z with 2147483648%Z. change (2 ^ 32)%Z with 4294967296%Z.
    rewrite Z.mod_small by lia. lia.
  - reflexivity.
  - reflexivity.
  - intros H. unfold sscanf_vnd_d. now rewrite H.
Qed.

(** The image [disk.img] on [vnd1]. *)
Lemma X14_configvnd_attach_witness :
  run (configvnd demo_plat "vnd1" "disk.img") w0 =
  Ret tt (called w0 [open "/dev/rvnd1d" [O_RDWR] 0; ioctl_VNDIOCSET 0 "disk.img"; close 0]).
Proof.
  apply (proj1 (proj1 (proj2 (X14_configvnd_attach demo_plat "vnd1" "disk.img" w0))
                  1%Z eq_refl)); discriminate.
Defined.

Lemma history_called (w : world) (cs : list call) :
  history (called w cs) = (history w ++ cs)%list.
Proof. reflexivity. Qed.

(** X15: when the raw node of the unit is missing, [configvnd] reads the
    majors of unit 0, makes the block node and the raw node of the unit,
    both as block special files, opens the raw node again and attaches
    the image. *)
Theorem X15_configvnd_makes_nodes (plat : platform) (dev path : string) (w : world)
  (unit : Z) :
  sscanf_vnd_d dev = Some unit ->
  let part := RAW_PART plat in
  let o := open (makevnddev true unit part 32) [O_RDWR] 0 in
  let sb := stat (makevnddev false 0 part 32) in
  let sr := stat (makevnddev true 0 part 32) in
  let bmaj := major plat (st_rdev (os plat (history w ++ [o]) sb)) in
  let rmaj := major plat (st_rdev (os plat (history w ++ [o; sb]) sr)) in
  let mb := mknod (makevnddev false unit part 32) (Z.lor 438 S_IFBLK) bmaj unit part in
  let mr := mknod (makevnddev true unit part 32) (Z.lor 438 S_IFBLK) rmaj unit part in
  let fd := rv (os plat (history w ++ [o; sb; sr; mb; mr]) o) in
  rv (os plat (history w) o) = (-1)%Z ->
  errno (os plat (history w) o) = ENOENT ->
  rv (os plat (history w ++ [o]) sb) <> (-1)%Z ->
  rv (os plat (history w ++ [o; sb]) sr) <> (-1)%Z ->
  rv (os plat (history w ++ [o; sb; sr]) mb) <> (-1)%Z ->
  rv (os plat (history w ++ [o; sb; sr; mb]) mr) <> (-1)%Z ->
  fd <> (-1)%Z ->
  rv (os plat (history w ++ [o; sb; sr; mb; mr; o]) (ioctl_VNDIOCSET fd path)) <> (-1)%Z ->
  run (configvnd plat dev path) w =
  Ret tt (called w [o; sb; sr; mb; mr; o; ioctl_VNDIOCSET fd path; close fd]).
Proof.
  intros Hu. cbv zeta. intros Hr He H1 H2 H3 H4 H5 H6.
  apply Z.eqb_neq in H1, H2, H3, H4, H5, H6.
  unfold configvnd. rewrite Hu.
  rewrite run_bind, run_sys_called, Hr, He.
  change (ENOENT =? ENOENT)%Z with true. cbn [Z.eqb Pos.eqb]. unfold getvndmajor.
  repeat (rewrite ?run_bind, ?run_sys_called, ?run_ret, ?called_called, ?history_called;
          cbn [app]; rewrite ?H1, ?H2, ?H3, ?H4, ?H5, ?H6; cbn beta iota).
  reflexivity.
Qed.

(** The image [disk.img] on [vnd1] where no node [/dev/rvnd1d] is. *)
Lemma X15_configvnd_makes_nodes_witness :
  run (configvnd vnd_plat "vnd1" "disk.img") w0 =
  Ret tt (called w0 [open "/dev/rvnd1d" [O_RDWR] 0;
                     stat "/dev/vnd0d"; stat "/dev/rvnd0d";
                     mknod "/dev/vnd1d" (Z.lor 438 S_IFBLK) 0 1 3;
                     mknod "/dev/rvnd1d" (Z.lor 438 S_IFBLK) 0 1 3;
                     open "/dev/rvnd1d" [O_RDWR] 0;
                     ioctl_VNDIOCSET 3 "disk.img"; close 3]).
Proof.
  apply (X15_configvnd_makes_nodes vnd_plat "vnd1" "disk.img" w0 1%Z eq_refl eq_refl eq_refl);
    discriminate.
Defined.

(** ** Mounting *)

Lemma mount_blk_run (plat : platform) (dev mp : string) (opts : option jvalue)
  (w : world) :
  exists k,
    (k < 3)%nat /\
    run (mount_blk plat (Some dev) mp opts) w =
    Ret (rv (os plat (history w ++ firstn k (blk_probes dev mp))
               (nth k (blk_probes dev mp) (chdir ""))) =? 0)%Z
        (called w (firstn (S k) (blk_probes dev mp))) /\
    (forall j, (j < k)%nat ->
       rv (os plat (history w ++ firstn j (blk_probes dev mp))
             (nth j (blk_probes dev mp) (chdir ""))) <> 0%Z) /\
    (rv (os plat (history w ++ firstn k (blk_probes dev mp))
           (nth k (blk_probes dev mp) (chdir ""))) <> 0%Z -> k = 2%nat).
Proof.
  unfold mount_blk, mount_ok.
  destruct (rv (os plat (history w) (mount MOUNT_FFS mp [] (ufs_args dev))) =? 0)%Z eqn:E0.
  { exists 0%nat. cbn [firstn nth blk_probes]. rewrite app_nil_r.
    split; [ lia | split; [ | split ] ].
    - rewrite !run_bind, run_sys_called, run_ret, E0. reflexivity.
    - intros j Hj. lia.
    - apply Z.eqb_eq in E0. intros H. contradiction. }
  destruct (rv (os plat (history w ++ [mount MOUNT_FFS mp [] (ufs_args dev)])
                  (mount MOUNT_EXT2FS mp [] (ufs_args dev))) =? 0)%Z eqn:E1.
  { exists 1%nat. cbn [firstn nth blk_probes].
    split; [ lia | split; [ | split ] ].
    - rewrite !run_bind, run_sys_called, run_ret, E0.
      rewrite !run_bind, run_sys_called, run_ret, history_called, E1, called_called.
      reflexivity.
    - intros j Hj. assert (j = 0)%nat as -> by lia.
      cbn [firstn nth]. rewrite app_nil_r. now apply Z.eqb_neq.
    - apply Z.eqb_eq in E1. intros H. contradiction. }
  exists 2%nat. cbn [firstn nth blk_probes].
  split; [ lia | split; [ | split ] ].
  - rewrite !run_bind, run_sys_called, run_ret, E0.
    rewrite !run_bind, run_sys_called, run_ret, history_called, E1.
    rewrite !run_bind, run_sys_called, run_ret, called_called, history_called.
    cbn [app].
    match goal with
    | |- context [if ?b then ret true else ret false] => destruct b
    end; rewrite run_ret, called_called; reflexivity.
  - intros j Hj. assert (j = 0 \/ j = 1)%nat as [-> | ->] by lia; cbn [firstn nth].
    + rewrite app_nil_r. now apply Z.eqb_neq.
    + now apply Z.eqb_neq.
  - reflexivity.
Qed.

(** X16: [mount_blk] never aborts.  Without a device it makes no call and
    says no; with one it tries FFS, then ext2, then CD9660 read-only,
    stops at the first mount that returns 0, and says whether one did. *)
Theorem X16_mount_blk_probes (plat : platform) (dev mp : string) (opts : option jvalue)
  (w : world) :
  run (mount_blk plat None mp opts) w = Ret false w /\
  exists k,
    (k < 3)%nat /\
    run (mount_blk plat (Some dev) mp opts) w =
    Ret (rv (os plat (history w ++ firstn k (blk_probes dev mp))
               (nth k (blk_probes dev mp) (chdir ""))) =? 0)%Z
        (called w (firstn (S k) (blk_probes dev mp))) /\
    (forall j, (j < k)%nat ->
       rv (os plat (history w ++ firstn j (blk_probes dev mp))
             (nth j (blk_probes dev mp) (chdir ""))) <> 0%Z) /\
    (rv (os plat (history w ++ firstn k (blk_probes dev mp))
           (nth k (blk_probes dev mp) (chdir ""))) <> 0%Z -> k = 2%nat).
Proof.
  split; [ reflexivity | apply mount_blk_run ].
Qed.

Lemma mkdirhier_mkdir_run (plat : platform) (p : string) (w : world) :
  run (mkdirhier_mkdir plat p) w =
  let r := os plat (history w) (mkdir p 493) in
  if (rv r =? -1)%Z && negb (errno r =? EEXIST)%Z
  then Exit (Err (fmt ["mkdirhier"; ": mkdir("; dq; p; dq; ") failed"]))
            (called w [mkdir p 493])
  else Ret tt (called w [mkdir p 493]).
Proof.
  unfold mkdirhier_mkdir. rewrite run_bind, run_sys_called. cbv zeta.
  now destruct ((rv _ =? -1)%Z && negb (errno _ =? EEXIST)%Z).
Qed.

Lemma mkdirs_run (plat : platform) (ps : list string) (w : world) :
  (forall q h, In q ps -> rv (os plat h (mkdir q 493)) = (-1)%Z ->
               errno (os plat h (mkdir q 493)) = EEXIST) ->
  run (for_each ps (mkdirhier_mkdir plat)) w =
  Ret tt (called w (map (fun p => mkdir p 493) ps)).
Proof.
  intros H. apply for_each_all_ok. intros q w1 Hq.
  rewrite mkdirhier_mkdir_run. cbv zeta.
  destruct (rv _ =? -1)%Z eqn:E; [ | reflexivity ].
  apply Z.eqb_eq in E. rewrite (H q _ Hq E). reflexivity.
Qed.

Lemma mkdirhier_run_tolerant (plat : platform) (path : string) (w : world) :
  mkdir_tolerant plat ->
  run (mkdirhier plat path) w =
  Ret tt (called w (map (fun p => mkdir p 493) (dir_prefixes path))).
Proof.
  intros Ht. unfold run. rewrite mkdirhier_prefixes.
  apply mkdirs_run. intros q h _. apply Ht.
Qed.

(** X17: [mkdirhier] makes the directories on the way to the path from
    the outermost on and goes past those that are there; the first one
    that cannot be made for another reason is fatal, and none is tried
    after it. *)
Theorem X17_mkdirhier_stops (plat : platform) (path : string) (w : world) :
  (mkdir_tolerant plat ->
   run (mkdirhier plat path) w =
   Ret tt (called w (map (fun p => mkdir p 493) (dir_prefixes path)))) /\
  (forall l1 p l2,
     dir_prefixes path = l1 ++ p :: l2 ->
     (forall q h, In q l1 -> rv (os plat h (mkdir q 493)) = (-1)%Z ->
                  errno (os plat h (mkdir q 493)) = EEXIST) ->
     let r := os plat (history w ++ map (fun q => mkdir q 493) l1) (mkdir p 493) in
     rv r = (-1)%Z -> errno r <> EEXIST ->
     run (mkdirhier plat path) w =
     Exit (Err (fmt ["mkdirhier"; ": mkdir("; dq; p; dq; ") failed"]))
          (called w (map (fun q => mkdir q 493) (l1 ++ [p])))).
Proof.
  split; [ apply mkdirhier_run_tolerant | ].
  intros l1 p l2 El H1 r Hr He.
  unfold run. rewrite mkdirhier_prefixes, El.
  apply (for_each_stop l1 l2 p _ w (called w (map (fun q => mkdir q 493) l1))).
  - now apply mkdirs_run.
  - rewrite mkdirhier_mkdir_run, history_called. fold r. cbv zeta.
    apply Z.eqb_neq in He. rewrite Hr, He. cbn [Z.eqb Pos.eqb andb negb].
    now rewrite called_called, map_app.
Qed.

(** [/mnt/x] on a file system that takes no new directory. *)
Lemma X17_mkdirhier_stops_witness :
  run (mkdirhier ro_plat "/mnt/x") w0 =
  Exit (Err (fmt ["mkdirhier"; ": mkdir("; dq; "/mnt/x"; dq; ") failed"]))
       (called w0 [mkdir "/mnt" 493; mkdir "/mnt/x" 493]).
Proof.
  apply (proj2 (X17_mkdirhier_stops ro_plat "/mnt/x" w0) ["/mnt"] "/mnt/x" [] eq_refl).
  - intros q h [<- | []] _. reflexivity.
  - reflexivity.
  - discriminate.
Defined.

Lemma handle_mount_scan_run (mp : string) (vars : mount_vars) (i : jvalue) (w : world) :
  run (handle_mount_scan mp vars i) w =
  if mount_member_ok i
  then Ret (if streq (n i) "source"
            then mk_mount_vars (Some (u_s i)) (m_path vars) (m_options vars)
            else if streq (n i) "path"
            then mk_mount_vars (m_source vars) (Some (u_s i)) (m_options vars)
            else mk_mount_vars (m_source vars) (m_path vars) (Some i)) w
  else Exit (Errx (if streq (n i) "source" || streq (n i) "path"
                   then fmt ["handle_mount"; ": expected "; jtypestr jstring; ", got ";
                             jtypestr (d i)]
                   else if streq (n i) "options"
                   then fmt ["handle_mount"; ": expected "; jtypestr jobject; ", got ";
                             jtypestr (d i)]
                   else fmt ["handle_mount"; ": unexpected key "; dq; n i; dq; " in "; dq;
                             mp; dq])) w.
Proof.
  unfold handle_mount_scan, mount_member_ok.
  destruct (streq (n i) "source") eqn:E1.
  - key_eq E1. rewrite E1.
    cbn [streq String.eqb Ascii.eqb Bool.eqb orb andb].
    rewrite run_bind, run_jexpect. now destruct (jtypes_eqb (d i) jstring).
  - destruct (streq (n i) "path") eqn:E2.
    + key_eq E2. rewrite E2.
      cbn [streq String.eqb Ascii.eqb Bool.eqb orb andb].
      rewrite run_bind, run_jexpect. now destruct (jtypes_eqb (d i) jstring).
    + destruct (streq (n i) "options"); cbn [orb andb]; [ | reflexivity ].
      rewrite run_bind, run_jexpect. now destruct (jtypes_eqb (d i) jobject).
Qed.

Lemma mount_scan_fold (l : list jvalue) :
  forallb mount_member_ok l = true ->
  fold_left (fun vars i =>
               if streq (n i) "source"
               then mk_mount_vars (Some (u_s i)) (m_path vars) (m_options vars)
               else if streq (n i) "path"
               then mk_mount_vars (m_source vars) (Some (u_s i)) (m_options vars)
               else mk_mount_vars (m_source vars) (m_path vars) (Some i))
            l (mk_mount_vars None None None)
  = mk_mount_vars (option_map u_s (find_last "source" l))
                  (option_map u_s (find_last "path" l)) (find_last "options" l).
Proof.
  induction l as [ | i l IH] using rev_ind; [ reflexivity | ].
  rewrite forallb_app. intros H. apply andb_true_iff in H. destruct H as [Hl Hi].
  rewrite fold_left_app, (IH Hl), !find_last_snoc.
  cbn [fold_left m_source m_path m_options].
  cbn [forallb] in Hi. unfold mount_member_ok in Hi.
  destruct (streq (n i) "source") eqn:E1.
  - key_eq E1. rewrite E1. reflexivity.
  - destruct (streq (n i) "path") eqn:E2.
    + key_eq E2. rewrite E2. reflexivity.
    + destruct (streq (n i) "options"); [ reflexivity | discriminate Hi ].
Qed.

(** What [handle_mount] is left with once its members are read and the
    mount point is made. *)
Lemma handle_mount_run (plat : platform) (v : jvalue) (loc : string) (w : world)
  (src : jvalue) :
  mkdir_tolerant plat ->
  d v = jobject ->
  forallb mount_member_ok (u_v v) = true ->
  find_last "source" (u_v v) = Some src ->
  run (handle_mount plat v loc) w =
  run (match find (fun m => streq (u_s src) (fst m)) (mounters plat) with
       | Some m =>
           ok <- snd m (option_map u_s (find_last "path" (u_v v))) (n v)
                   (find_last "options" (u_v v)) ;;
           if negb ok
           then err ["handle_mount"; ": mount "; dq;
                     (match option_map u_s (find_last "path" (u_v v)) with
                      | Some p => p
                      | None => "(none)"
                      end); dq;
                     " on "; dq; n v; dq; " "; "type "; dq; u_s src; dq; " failed"]
           else ret tt
       | None =>
           errx ["handle_mount"; ": unknown source "; dq; u_s src; dq; " in "; dq; n v; dq]
       end)
      (called w (map (fun p => mkdir p 493) (dir_prefixes (n v)))).
Proof.
  intros Ht Hd Hok Hs. unfold handle_mount.
  rewrite run_bind, run_jexpect, Hd. cbn [jtypes_eqb]. rewrite run_bind.
  rewrite (fold_each_pure (u_v v) _
             (fun vars i =>
                if streq (n i) "source"
                then mk_mount_vars (Some (u_s i)) (m_path vars) (m_options vars)
                else if streq (n i) "path"
                then mk_mount_vars (m_source vars) (Some (u_s i)) (m_options vars)
                else mk_mount_vars (m_source vars) (m_path vars) (Some i))).
  2:{ intros s1 i Hi. rewrite forallb_forall in Hok.
      now rewrite handle_mount_scan_run, (Hok i Hi). }
  rewrite (mount_scan_fold _ Hok), Hs. cbn [m_source m_path m_options option_map].
  rewrite run_bind, (mkdirhier_run_tolerant plat (n v) w Ht). reflexivity.
Qed.

(** X18: [handle_mount] reads the whole entry before it touches the file
    system: a member other than a string [source], a string [path] or an
    object [options], and an entry without [source], are fatal with no
    directory made. *)
Theorem X18_handle_mount_reads_first (plat : platform) (v : jvalue) (loc : string)
  (w : world) :
  d v = jobject ->
  (forall i, In i (u_v v) -> mount_member_ok i = false ->
     exists msg, run (handle_mount plat v loc) w = Exit (Errx msg) w) /\
  (forallb mount_member_ok (u_v v) = true ->
   find_last "source" (u_v v) = None ->
   run (handle_mount plat v loc) w =
   Exit (Errx (fmt ["handle_mount"; ": missing "; dq; "source"; dq; " in "; dq; n v; dq])) w).
Proof.
  intros Hd. unfold handle_mount.
  rewrite run_bind, run_jexpect, Hd. cbn [jtypes_eqb]. rewrite run_bind.
  split.
  - intros i Hi Hbad.
    destruct (fold_each_fails (handle_mount_scan (n v)) (u_v v) i
                (mk_mount_vars None None None) w) as [msg Hm].
    + intros s1 y _. rewrite handle_mount_scan_run.
      destruct (mount_member_ok y); simpl; eauto.
    + exact Hi.
    + intros s1. rewrite handle_mount_scan_run, Hbad. now eexists.
    + rewrite Hm. now exists msg.
  - intros Hok Hs.
    rewrite (fold_each_pure (u_v v) _
               (fun vars i =>
                  if streq (n i) "source"
                  then mk_mount_vars (Some (u_s i)) (m_path vars) (m_options vars)
                  else if streq (n i) "path"
                  then mk_mount_vars (m_source vars) (Some (u_s i)) (m_options vars)
                  else mk_mount_vars (m_source vars) (m_path vars) (Some i))).
    2:{ intros s1 i Hi. rewrite forallb_forall in Hok.
        now rewrite handle_mount_scan_run, (Hok i Hi). }
    rewrite (mount_scan_fold _ Hok), Hs. reflexivity.
Qed.

(** The entry [{"/data": {"path": "/dev/ld1a"}}], which names no source. *)
Lemma X18_handle_mount_reads_first_witness :
  run (handle_mount demo_plat (jobj "/data" [jstr "path" "/dev/ld1a"]) "handle_mounts") w0 =
  Exit (Errx (fmt ["handle_mount"; ": missing "; dq; "source"; dq; " in "; dq; "/data"; dq]))
       w0.
Proof.
  exact (proj2 (X18_handle_mount_reads_first demo_plat
                  (jobj "/data" [jstr "path" "/dev/ld1a"]) "handle_mounts" w0 eq_refl)
               eq_refl eq_refl).
Defined.

(** X19: once the mount point is made, [handle_mount] mounts by the last
    [source].  [kernfs] is one mount.  [blk] probes the device of the last
    [path] as [mount_blk] does, and without a [path] no mount is tried.
    A mount that does not succeed is fatal. *)
Theorem X19_handle_mount_mounts (plat : platform) (v : jvalue) (loc : string) (w : world)
  (src : jvalue) :
  mkdir_tolerant plat ->
  d v = jobject ->
  forallb mount_member_ok (u_v v) = true ->
  find_last "source" (u_v v) = Some src ->
  let dirs := map (fun p => mkdir p 493) (dir_prefixes (n v)) in
  (u_s src = "kernfs" ->
   let c := mount MOUNT_KERNFS (n v) [] no_args in
   exists msg,
     run (handle_mount plat v loc) w =
     if (rv (os plat (history w ++ dirs) c) =? 0)%Z then Ret tt (called w (dirs ++ [c]))
     else Exit (Err msg) (called w (dirs ++ [c]))) /\
  (u_s src = "blk" -> find_last "path" (u_v v) = None ->
   exists msg, run (handle_mount plat v loc) w = Exit (Err msg) (called w dirs)) /\
  (u_s src = "blk" ->
   forall p, find_last "path" (u_v v) = Some p ->
   let probes := blk_probes (u_s p) (n v) in
   exists k msg,
     (k < 3)%nat /\
     run (handle_mount plat v loc) w =
     if (rv (os plat (history w ++ dirs ++ firstn k probes) (nth k probes (chdir ""))) =? 0)%Z
     then Ret tt (called w (dirs ++ firstn (S k) probes))
     else Exit (Err msg) (called w (dirs ++ firstn (S k) probes))).
Proof.
  intros Ht Hd Hok Hs dirs.
  pose proof (handle_mount_run plat v loc w src Ht Hd Hok Hs) as Hrun.
  fold dirs in Hrun. split; [ | split ].
  - intros Hk c. rewrite Hrun, Hk.
    change (find _ (mounters plat)) with (Some ("kernfs", mount_kernfs plat)).
    cbn [snd]. unfold mount_kernfs, mount_ok. eexists.
    rewrite !run_bind, run_sys_called, run_ret, history_called, called_called. fold c.
    destruct (rv _ =? 0)%Z; reflexivity.
  - intros Hk Hp. rewrite Hrun, Hk, Hp.
    change (find _ (mounters plat)) with (Some ("blk", mount_blk plat)).
    cbn [snd option_map mount_blk]. eexists. rewrite run_bind, run_ret. reflexivity.
  - intros Hk p Hp probes. rewrite Hrun, Hk, Hp.
    change (find _ (mounters plat)) with (Some ("blk", mount_blk plat)).
    cbn [snd option_map].
    destruct (mount_blk_run plat (u_s p) (n v) (find_last "options" (u_v v))
                (called w dirs)) as (k & Hlt & Hr & _).
    exists k. eexists. split; [ exact Hlt | ].
    rewrite run_bind, Hr, history_called, called_called, <- app_assoc. fold probes.
    match goal with
    | |- _ = (if ?b then _ else _) => destruct b
    end; reflexivity.
Qed.

(** The kernel file system on [/kern]. *)
Lemma X19_handle_mount_mounts_witness :
  exists msg,
    run (handle_mount fs_plat (jobj "/kern" [jstr "source" "kernfs"]) "handle_mounts") w0 =
    if (rv (os fs_plat (history w0 ++ map (fun p => mkdir p 493) (dir_prefixes "/kern"))
              (mount MOUNT_KERNFS "/kern" [] no_args)) =? 0)%Z
    then Ret tt (called w0 (map (fun p => mkdir p 493) (dir_prefixes "/kern")
                            ++ [mount MOUNT_KERNFS "/kern" [] no_args]))
    else Exit (Err msg)
              (called w0 (map (fun p => mkdir p 493) (dir_prefixes "/kern")
                          ++ [mount MOUNT_KERNFS "/kern" [] no_args])).
Proof.
  assert (Ht : mkdir_tolerant fs_plat).
  { intros h p m E. pose proof (benign_fs_plat h (mkdir p m) E) as [_ He]. exact He. }
  exact (proj1 (X19_handle_mount_mounts fs_plat (jobj "/kern" [jstr "source" "kernfs"])
                  "handle_mounts" w0 (jstr "source" "kernfs") Ht eq_refl eq_refl eq_refl)
               eq_refl).
Defined.

Lemma mount_tmpfs_scan_run (opt_size : option string) (i : jvalue) (w : world) :
  run (mount_tmpfs_scan opt_size i) w =
  if streq (n i) "size" && jtypes_eqb (d i) jstring then Ret (Some (u_s i)) w
  else Exit (Errx (if streq (n i) "size"
                   then fmt ["mount_tmpfs"; ": expected "; jtypestr jstring; ", got ";
                             jtypestr (d i)]
                   else fmt ["mount_tmpfs"; ": unexpected key "; dq; n i; dq; " in "; dq;
                             "options"; dq])) w.
Proof.
  unfold mount_tmpfs_scan. destruct (streq (n i) "size"); cbn [andb]; [ | reflexivity ].
  rewrite run_bind, run_jexpect. now destruct (jtypes_eqb (d i) jstring).
Qed.

Lemma tmpfs_scan_fold (l : list jvalue) :
  forallb (fun i => streq (n i) "size" && jtypes_eqb (d i) jstring) l = true ->
  fold_left (fun (_ : option string) i => Some (u_s i)) l None
  = option_map u_s (find_last "size" l).
Proof.
  induction l as [ | i l IH] using rev_ind; [ reflexivity | ].
  rewrite forallb_app. intros H. apply andb_true_iff in H. destruct H as [_ Hi].
  rewrite fold_left_app, find_last_snoc. cbn [fold_left forallb] in *.
  destruct (streq (n i) "size"); [ reflexivity | discriminate Hi ].
Qed.

Lemma mount_tmpfs_run (plat : platform) (dev : option string) (mp : string)
  (options : option jvalue) (w : world) :
  (forall o, options = Some o ->
     d o = jobject /\
     forallb (fun i => streq (n i) "size" && jtypes_eqb (d i) jstring) (u_v o) = true) ->
  run (mount_tmpfs plat dev mp options) w =
  match dehumanize_number plat (tmpfs_size options) with
  | None => Exit (Errx (fmt ["mount_tmpfs"; ": bad size for "; mp])) w
  | Some size =>
      Ret (rv (os plat (history w) (mount MOUNT_TMPFS mp [] (tmpfs_args size 1023))) =? 0)%Z
          (called w [mount MOUNT_TMPFS mp [] (tmpfs_args size 1023)])
  end.
Proof.
  intros Ho. unfold mount_tmpfs, tmpfs_size. rewrite run_bind.
  assert (E : run (match options with
                   | Some options =>
                       jexpect jobject options "mount_tmpfs" ;;
                       fold_each (u_v options) mount_tmpfs_scan None
                   | None => ret None
                   end) w
              = Ret (match options with
                     | Some o => option_map u_s (find_last "size" (u_v o))
                     | None => None
                     end) w).
  { destruct options as [o | ]; [ | reflexivity ].
    destruct (Ho o eq_refl) as [Hd Hok].
    rewrite run_bind, run_jexpect, Hd. cbn [jtypes_eqb].
    rewrite (fold_each_pure (u_v o) _ (fun (_ : option string) i => Some (u_s i))).
    - now rewrite tmpfs_scan_fold.
    - intros s1 i Hi. rewrite forallb_forall in Hok.
      now rewrite mount_tmpfs_scan_run, (Hok i Hi). }
  change (fun (opt_size : option string) (i : jvalue) =>
            if streq (n i) "size"
            then jexpect jstring i "mount_tmpfs" ;; ret (Some (u_s i))
            else errx ["mount_tmpfs"; ": unexpected key "; dq; n i; dq; " in "; dq;
                       "options"; dq])
    with mount_tmpfs_scan.
  rewrite E. cbv zeta.
  assert (E2 : match match options with
                     | Some o => option_map u_s (find_last "size" (u_v o))
                     | None => None
                     end with
               | Some s => s
               | None => "1M"
               end
               = match options with
                 | Some o => match find_last "size" (u_v o) with
                             | Some s => u_s s
                             | None => "1M"
                             end
                 | None => "1M"
                 end).
  { destruct options as [o | ]; [ | reflexivity ]. now destruct (find_last "size" (u_v o)). }
  rewrite E2.
  destruct (dehumanize_number plat _) as [size | ]; [ | reflexivity ].
  unfold mount_ok. rewrite !run_bind, run_sys_called, run_ret.
  destruct (rv _ =? 0)%Z; reflexivity.
Qed.

Lemma mount_tmpfs_bad_option (plat : platform) (dev : option string) (mp : string)
  (o i : jvalue) (w : world) :
  d o = jobject -> In i (u_v o) ->
  streq (n i) "size" && jtypes_eqb (d i) jstring = false ->
  exists msg, run (mount_tmpfs plat dev mp (Some o)) w = Exit (Errx msg) w.
Proof.
  intros Hd Hi Hbad. unfold mount_tmpfs.
  rewrite !run_bind, run_jexpect, Hd. cbn [jtypes_eqb].
  destruct (fold_each_fails mount_tmpfs_scan (u_v o) i None w) as [msg Hm].
  - intros s1 y _. rewrite mount_tmpfs_scan_run.
    destruct (streq (n y) "size" && jtypes_eqb (d y) jstring); simpl; eauto.
  - exact Hi.
  - intros s1. rewrite mount_tmpfs_scan_run, Hbad. now eexists.
  - change (fold_each (u_v o) _ None) with (fold_each (u_v o) mount_tmpfs_scan None).
    rewrite Hm. now exists msg.
Qed.

(** X20: a [tmpfs] entry is mounted with the size of the last [size] of
    its last [options], or of one megabyte when there is none, and with
    the mode 01777.  An option other than a string [size], and a size that
    [dehumanize_number] does not read, are fatal once the mount point is
    made and before any mount. *)
Theorem X20_handle_mount_tmpfs (plat : platform) (v : jvalue) (loc : string) (w : world)
  (src : jvalue) :
  mkdir_tolerant plat ->
  d v = jobject ->
  forallb mount_member_ok (u_v v) = true ->
  find_last "source" (u_v v) = Some src ->
  u_s src = "tmpfs" ->
  let dirs := map (fun p => mkdir p 493) (dir_prefixes (n v)) in
  let options := find_last "options" (u_v v) in
  (forall o i,
     options = Some o -> In i (u_v o) ->
     streq (n i) "size" && jtypes_eqb (d i) jstring = false ->
     exists msg, run (handle_mount plat v loc) w = Exit (Errx msg) (called w dirs)) /\
  ((forall o, options = Some o ->
      forallb (fun i => streq (n i) "size" && jtypes_eqb (d i) jstring) (u_v o) = true) ->
   match dehumanize_number plat (tmpfs_size options) with
   | None => exists msg, run (handle_mount plat v loc) w = Exit (Errx msg) (called w dirs)
   | Some size =>
       let c := mount MOUNT_TMPFS (n v) [] (tmpfs_args size 1023) in
       exists msg,
         run (handle_mount plat v loc) w =
         if (rv (os plat (history w ++ dirs) c) =? 0)%Z
         then Ret tt (called w (dirs ++ [c]))
         else Exit (Err msg) (called w (dirs ++ [c]))
   end).
Proof.
  intros Ht Hd Hok Hs Hk dirs options.
  pose proof (handle_mount_run plat v loc w src Ht Hd Hok Hs) as Hrun.
  fold dirs in Hrun. fold options in Hrun. rewrite Hk in Hrun.
  change (find _ (mounters plat)) with (Some ("tmpfs", mount_tmpfs plat)) in Hrun.
  cbn [snd] in Hrun.
  assert (Hobj : forall o, options = Some o -> d o = jobject).
  { intros o Ho. apply find_last_key in Ho. destruct Ho as [Hin Hn].
    rewrite forallb_forall in Hok. specialize (Hok o Hin).
    unfold mount_member_ok in Hok. rewrite Hn in Hok.
    cbn [streq String.eqb Ascii.eqb Bool.eqb orb andb] in Hok.
    now apply jtypes_eqb_eq. }
  split.
  - intros o i Ho Hi Hbad. rewrite Hrun, Ho.
    destruct (mount_tmpfs_bad_option plat (option_map u_s (find_last "path" (u_v v)))
                (n v) o i (called w dirs) (Hobj o Ho) Hi Hbad) as [msg Hm].
    exists msg. now rewrite run_bind, Hm.
  - intros Hopt. rewrite Hrun, run_bind.
    rewrite (mount_tmpfs_run plat _ (n v) options (called w dirs))
      by (intros o Ho; split; [ now apply Hobj | now apply Hopt ]).
    destruct (dehumanize_number plat (tmpfs_size options)) as [size | ].
    + cbv zeta. eexists. rewrite history_called, called_called.
      destruct (rv _ =? 0)%Z; reflexivity.
    + now eexists.
Qed.

(** A [tmpfs] on [/tmp] with no options. *)
Lemma X20_handle_mount_tmpfs_witness :
  exists msg,
    run (handle_mount fs_plat (jobj "/tmp" [jstr "source" "tmpfs"]) "handle_mounts") w0 =
    if (rv (os fs_plat (history w0 ++ map (fun p => mkdir p 493) (dir_prefixes "/tmp"))
              (mount MOUNT_TMPFS "/tmp" [] (tmpfs_args 1048576 1023))) =? 0)%Z
    then Ret tt (called w0 (map (fun p => mkdir p 493) (dir_prefixes "/tmp")
                            ++ [mount MOUNT_TMPFS "/tmp" [] (tmpfs_args 1048576 1023)]))
    else Exit (Err msg)
              (called w0 (map (fun p => mkdir p 493) (dir_prefixes "/tmp")
                          ++ [mount MOUNT_TMPFS "/tmp" [] (tmpfs_args 1048576 1023)])).
Proof.
  assert (Ht : mkdir_tolerant fs_plat).
  { intros h p m E. pose proof (benign_fs_plat h (mkdir p m) E) as [_ He]. exact He. }
  apply (proj2 (X20_handle_mount_tmpfs fs_plat (jobj "/tmp" [jstr "source" "tmpfs"])
                  "handle_mounts" w0 (jstr "source" "tmpfs") Ht eq_refl eq_refl eq_refl
                  eq_refl)).
  intros o Ho. discriminate Ho.
Defined.

(** ** The configuration file on the root file system *)

Lemma mount_blk_fails (plat : platform) (dev mp : string) (opts : option jvalue)
  (w : world) :
  (forall h t dir fl a, rv (os plat h (mount t dir fl a)) <> 0%Z) ->
  run (mount_blk plat (Some dev) mp opts) w = Ret false (called w (blk_probes dev mp)).
Proof.
  intros H.
  assert (H' : forall h t dir fl a, (rv (os plat h (mount t dir fl a)) =? 0)%Z = false)
    by (intros; apply Z.eqb_neq, H).
  unfold mount_blk, mount_ok, blk_probes.
  repeat (rewrite ?run_bind, ?run_sys_called, ?run_ret, ?called_called, ?H';
          cbn [app]; cbn beta iota).
  reflexivity.
Qed.

(** X21: [getcmdlinefromroot] wants to make [/rootfs] itself: when [mkdir]
    fails, also because the directory is there, that is fatal.  It then
    probes [/dev/ld0a] and [/dev/sd0a]; when neither mounts it registers
    [blkfront:sda1] as [/dev/rootfs], whether or not that works, and
    probes it; when that does not mount either, the boot ends. *)
Theorem X21_getcmdlinefromroot_no_root (plat : platform) (cfgname : string) (w : world) :
  (rv (os plat (history w) (mkdir "/rootfs" 511)) = (-1)%Z ->
   run (getcmdlinefromroot plat cfgname) w =
   Exit (Err "mkdir /rootfs failed") (called w [mkdir "/rootfs" 511])) /\
  (rv (os plat (history w) (mkdir "/rootfs" 511)) <> (-1)%Z ->
   (forall h t dir fl a, rv (os plat h (mount t dir fl a)) <> 0%Z) ->
   run (getcmdlinefromroot plat cfgname) w =
   Exit (Errx "failed to mount /rootfs")
        (called w ([mkdir "/rootfs" 511]
                   ++ blk_probes "/dev/ld0a" "/rootfs"
                   ++ blk_probes "/dev/sd0a" "/rootfs"
                   ++ [rump_pub_etfs_register "/dev/rootfs" "blkfront:sda1"]
                   ++ blk_probes "/dev/rootfs" "/rootfs"))).
Proof.
  split.
  - intros Hr. unfold getcmdlinefromroot.
    rewrite run_bind, run_sys_called, Hr. reflexivity.
  - intros Hr Hm. apply Z.eqb_neq in Hr. unfold getcmdlinefromroot.
    rewrite run_bind, run_sys_called, Hr.
    cbn [try_roots]. unfold configetfs.
    repeat (rewrite ?run_bind, ?run_sys_called, ?run_ret,
              ?(fun dev mp o w1 => mount_blk_fails plat dev mp o w1 Hm),
              ?andb_false_r, ?called_called;
            cbn [negb]; cbn beta iota).
    reflexivity.
Qed.

(** A machine without a disk. *)
Lemma X21_getcmdlinefromroot_no_root_witness :
  run (getcmdlinefromroot diskless_plat "/boot.json") w0 =
  Exit (Errx "failed to mount /rootfs")
       (called w0 ([mkdir "/rootfs" 511]
                   ++ blk_probes "/dev/ld0a" "/rootfs"
                   ++ blk_probes "/dev/sd0a" "/rootfs"
                   ++ [rump_pub_etfs_register "/dev/rootfs" "blkfront:sda1"]
                   ++ blk_probes "/dev/rootfs" "/rootfs")).
Proof.
  apply (proj2 (X21_getcmdlinefromroot_no_root diskless_plat "/boot.json" w0)).
  - discriminate.
  - intros h t dir fl a. discriminate.
Defined.

Lemma strspn_strfrom (s : string) (c : ascii) : strspn (strfrom (strspn s c) s) c = O.
Proof.
  induction s as [ | a s IH]; [ reflexivity | ].
  cbn [strspn]. destruct (Ascii.eqb a c) eqn:E; cbn [strfrom]; [ exact IH | ].
  cbn [strspn]. now rewrite E.
Qed.

(** X22: once [/rootfs] is made and one of the two devices is mounted,
    [getcmdlinefromroot] takes the file name without its leading slashes,
    relative to [/rootfs]: it changes to [/rootfs], opens the file
    read-only, asks for its size, reads that many bytes, closes the file,
    and what it read is the document. *)
Theorem X22_getcmdlinefromroot_reads (plat : platform) (cfgname : string) (w w1 : world) :
  rv (os plat (history w) (mkdir "/rootfs" 511)) <> (-1)%Z ->
  run (try_roots plat ["/dev/ld0a"; "/dev/sd0a"]) (called w [mkdir "/rootfs" 511])
  = Ret true w1 ->
  let name := strfrom (strspn cfgname "/") cfgname in
  let cd := chdir "/rootfs" in
  let o := open name [O_RDONLY] 0 in
  let fd := rv (os plat (history w1 ++ [cd]) o) in
  let sb := os plat (history w1 ++ [cd; o]) (stat name) in
  let r := os plat (history w1 ++ [cd; o; stat name]) (read fd (st_size sb)) in
  rv (os plat (history w1) cd) <> (-1)%Z ->
  fd <> (-1)%Z ->
  rv sb <> (-1)%Z ->
  (st_size sb <= CFGMAXSIZE)%Z ->
  rv r = st_size sb ->
  run (getcmdlinefromroot plat cfgname) w =
  Ret (data r) (called w1 [cd; o; stat name; read fd (st_size sb); close fd]) /\
  strspn name "/" = O.
Proof.
  intros Hm Ht. cbv zeta. intros Hc Hf Hs Hz Hr.
  split; [ | apply strspn_strfrom ].
  apply Z.eqb_neq in Hm, Hc, Hf, Hs. apply Z.ltb_ge in Hz.
  unfold getcmdlinefromroot.
  rewrite run_bind, run_sys_called, Hm.
  rewrite run_bind, run_ret. rewrite run_bind, Ht. cbn [negb].
  repeat (rewrite ?run_bind, ?run_sys_called, ?run_ret, ?called_called, ?history_called;
          cbn [app]; rewrite ?Hc, ?Hf, ?Hs, ?Hz, ?Hr, ?Z.eqb_refl; cbn [negb];
          cbn beta iota).
  reflexivity.
Qed.

(** The file [boot.json] of a root on [/dev/ld0a]. *)
Lemma X22_getcmdlinefromroot_reads_witness :
  run (getcmdlinefromroot demo_plat "//boot.json") w0 =
  Ret ""
      (called (called w0 [mkdir "/rootfs" 511;
                          mount MOUNT_FFS "/rootfs" [] (ufs_args "/dev/ld0a")])
         [chdir "/rootfs"; open "boot.json" [O_RDONLY] 0; stat "boot.json";
          read 0 0; close 0]).
Proof.
  apply (X22_getcmdlinefromroot_reads demo_plat "//boot.json" w0
           (called w0 [mkdir "/rootfs" 511;
                       mount MOUNT_FFS "/rootfs" [] (ufs_args "/dev/ld0a")]));
    try discriminate; reflexivity.
Defined.

(** *** What the calls of a computation have in common *)

Lemma emits_ret {A : Type} (P : call -> Prop) (a : A) : emits P (ret a).
Proof. intros w. exists []. now rewrite app_nil_r. Qed.

Lemma emits_errx {A : Type} (P : call -> Prop) (l : list string) : emits P (@errx A l).
Proof. intros w. exists []. now rewrite app_nil_r. Qed.

Lemma emits_err {A : Type} (P : call -> Prop) (l : list string) : emits P (@err A l).
Proof. intros w. exists []. now rewrite app_nil_r. Qed.

Lemma emits_sys (plat : platform) (P : call -> Prop) (c : call) :
  P c -> emits P (sys plat c).
Proof. intros H w. exists [c]. rewrite run_sys_called. split; [ reflexivity | now constructor ]. Qed.

Lemma emits_bind {A B : Type} (P : call -> Prop) (m : M A) (f : A -> M B) :
  emits P m -> (forall a, emits P (f a)) -> emits P (bind m f).
Proof.
  intros Hm Hf w. destruct (Hm w) as (cs1 & E1 & H1). rewrite run_bind.
  destruct (run m w) as [a w' | e w']; cbn [world_of] in *.
  - destruct (Hf a w') as (cs2 & E2 & H2). exists (cs1 ++ cs2).
    rewrite E2, E1, app_assoc. split; [ reflexivity | now apply Forall_app ].
  - now exists cs1.
Qed.

Lemma emits_if {A : Type} (P : call -> Prop) (c : bool) (m1 m2 : M A) :
  emits P m1 -> emits P m2 -> emits P (if c then m1 else m2).
Proof. now destruct c. Qed.

Lemma emits_guard {B : Type} (P : call -> Prop) (c : bool) (l : list string) (k : M B) :
  (c = false -> emits P k) -> emits P ((if c then errx l else ret tt) ;; k).
Proof.
  intros H. destruct c.
  - intros w. exists []. rewrite run_bind, run_errx, app_nil_r. now split.
  - apply emits_bind; [ apply emits_ret | intros _; now apply H ].
Qed.

Ltac emits_step :=
  match goal with
  | |- emits _ (ret _) => apply emits_ret
  | |- emits _ (errx _) => apply emits_errx
  | |- emits _ (err _) => apply emits_err
  | |- emits _ (sys _ _) => apply emits_sys; try exact I
  | |- emits _ (bind (if (CFGMAXSIZE <? _)%Z then _ else _) _) =>
      apply emits_guard; intros ?Hsize
  | |- emits _ (bind _ _) => apply emits_bind; [ | intros ? ]
  | |- emits _ (if _ then _ else _) => apply emits_if
  end.

(** X23: whatever the platform answers, [getcmdlinefromroot] reads at most
    [CFGMAXSIZE] bytes: a file that is larger stops the boot before it is
    read. *)
Theorem X23_getcmdlinefromroot_read_cap (plat : platform) (cfgname : string) (w : world) :
  exists cs,
    history (world_of (run (getcmdlinefromroot plat cfgname) w)) = (history w ++ cs)%list /\
    Forall small_read cs /\
    CFGMAXSIZE = 65536%Z.
Proof.
  assert (H : emits small_read (getcmdlinefromroot plat cfgname)).
  { unfold getcmdlinefromroot. cbn [try_roots]. unfold configetfs, mount_blk, mount_ok.
    repeat emits_step.
    cbn [small_read]. apply Z.ltb_ge. assumption. }
  destruct (H w) as (cs & E & Hcs). exists cs. repeat split; assumption.
Qed.

(** ** The marker of the configuration file *)

Lemma prefix_app (p s : string) :
  String.prefix p s = true <-> exists r, s = (p ++ r)%string.
Proof.
  revert s. induction p as [ | a p IH]; intros s.
  - split; [ intros _; now exists s | now destruct s ].
  - destruct s as [ | b s]; simpl.
    + split; [ discriminate | intros [r Hr]; discriminate Hr ].
    + destruct (ascii_dec a b) as [-> | Hab].
      * rewrite IH. split; intros [r Hr]; exists r; [ now rewrite Hr | now injection Hr ].
      * split; [ discriminate | intros [r Hr]; injection Hr as Hr1 _; now subst ].
Qed.

Lemma strstr_some (hay needle : string) (k : nat) :
  strstr hay needle = Some k ->
  hay = (strupto k hay ++ needle ++ strfrom (k + String.length needle) hay)%string /\
  String.length (strupto k hay) = k /\
  (forall pre rest, hay = (pre ++ needle ++ rest)%string -> (k <= String.length pre)%nat).
Proof.
  revert k. induction hay as [ | a hay IH]; intros k.
  - cbn [strstr]. destruct (String.prefix needle "") eqn:E.
    + intros [= <-]. apply prefix_app in E. destruct E as [r Hr].
      destruct needle; [ | discriminate Hr ].
      repeat split. intros pre rest _. lia.
    + discriminate.
  - cbn [strstr]. destruct (String.prefix needle (String a hay)) eqn:E.
    + intros [= <-]. apply prefix_app in E. destruct E as [r Hr].
      cbn [strupto String.length Nat.add append]. split; [ | split; [ reflexivity | ] ].
      * rewrite Hr at 1. f_equal. rewrite Hr. now rewrite strfrom_app.
      * intros pre rest _. lia.
    + destruct (strstr hay needle) as [k' | ] eqn:Ek; [ | discriminate ].
      intros [= <-]. destruct (IH k' eq_refl) as (H1 & H2 & H3).
      cbn [strupto String.length Nat.add append strfrom]. split; [ | split ].
      * now rewrite <- H1.
      * now rewrite H2.
      * intros pre rest Hp. destruct pre as [ | b pre].
        -- exfalso. assert (String.prefix needle (String a hay) = true)
             by (apply prefix_app; now exists rest).
           congruence.
        -- cbn [String.length]. injection Hp as _ Hp. specialize (H3 pre rest Hp). lia.
Qed.

Lemma strstr_none (hay needle : string) :
  strstr hay needle = None ->
  forall pre rest, hay <> (pre ++ needle ++ rest)%string.
Proof.
  induction hay as [ | a hay IH]; cbn [strstr].
  - destruct (String.prefix needle "") eqn:E; [ discriminate | ].
    intros _ pre rest Hp. destruct pre; [ | discriminate Hp ].
    assert (String.prefix needle "" = true) by (apply prefix_app; now exists rest).
    congruence.
  - destruct (String.prefix needle (String a hay)) eqn:E; [ discriminate | ].
    destruct (strstr hay needle) eqn:Ek; [ discriminate | ].
    intros _ pre rest Hp. destruct pre as [ | b pre].
    + assert (String.prefix needle (String a hay) = true)
        by (apply prefix_app; now exists rest).
      congruence.
    + injection Hp as _ Hp. now apply (IH eq_refl pre rest).
Qed.

(** X24: [rumprun_config_path] gives all of the command line behind the
    first [_RUMPRUN_ROOTFSCFG=], up to its end, and nothing when the
    command line does not have the marker. *)
Theorem X24_rumprun_config_path_first (cmdline : string) :
  (forall cfg,
     rumprun_config_path cmdline = Some cfg ->
     exists pre,
       cmdline = (pre ++ ROOTCFG ++ cfg)%string /\
       forall pre' cfg', cmdline = (pre' ++ ROOTCFG ++ cfg')%string ->
                         (String.length pre <= String.length pre')%nat) /\
  (rumprun_config_path cmdline = None ->
   forall pre cfg, cmdline <> (pre ++ ROOTCFG ++ cfg)%string).
Proof.
  unfold rumprun_config_path. split.
  - intros cfg H. destruct (strstr cmdline ROOTCFG) as [k | ] eqn:E; [ | discriminate H ].
    injection H as <-. destruct (strstr_some _ _ _ E) as (H1 & H2 & H3).
    exists (strupto k cmdline). split; [ exact H1 | ].
    intros pre' cfg' Hp. rewrite H2. now apply (H3 pre' cfg').
  - intros H. destruct (strstr cmdline ROOTCFG) as [k | ] eqn:E; [ discriminate H | ].
    now apply strstr_none.
Qed.

(** The command line [rumprun _RUMPRUN_ROOTFSCFG=/boot.json]. *)
Lemma X24_rumprun_config_path_first_witness :
  exists pre,
    "rumprun _RUMPRUN_ROOTFSCFG=/boot.json" = (pre ++ ROOTCFG ++ "/boot.json")%string /\
    forall pre' cfg',
      "rumprun _RUMPRUN_ROOTFSCFG=/boot.json" = (pre' ++ ROOTCFG ++ cfg')%string ->
      (String.length pre <= String.length pre')%nat.
Proof.
  exact (proj1 (X24_rumprun_config_path_first "rumprun _RUMPRUN_ROOTFSCFG=/boot.json")
               "/boot.json" eq_refl).
Defined.

(** X25: with the marker on the command line, [rumprun_config] goes on
    with what [getcmdlinefromroot] read as if that had been the command
    line: nothing else of the command line is looked at. *)
Theorem X25_rumprun_config_from_file (plat : platform) (cmdline cfg doc : string)
  (w w1 : world) :
  rumprun_config_path cmdline = Some cfg ->
  run (getcmdlinefromroot plat cfg) w = Ret doc w1 ->
  rumprun_config_path doc = None ->
  run (rumprun_config plat cmdline) w = run (rumprun_config plat doc) w1.
Proof.
  intros Hc Hg Hd. unfold rumprun_config.
  rewrite Hc, Hd. now rewrite !run_bind, Hg, run_ret.
Qed.

(** The empty file [boot.json] of a root on [/dev/ld0a]. *)
Lemma X25_rumprun_config_from_file_witness :
  run (rumprun_config demo_plat "rumprun _RUMPRUN_ROOTFSCFG=/boot.json") w0 =
  run (rumprun_config demo_plat "")
      (called w0 [mkdir "/rootfs" 511;
                  mount MOUNT_FFS "/rootfs" [] (ufs_args "/dev/ld0a");
                  chdir "/rootfs"; open "boot.json" [O_RDONLY] 0; stat "boot.json";
                  read 0 0; close 0]).
Proof.
  apply (X25_rumprun_config_from_file demo_plat "rumprun _RUMPRUN_ROOTFSCFG=/boot.json"
           "/boot.json" "" w0); reflexivity.
Defined.

(** ** The resolver file *)

Lemma handle_dns_nameservers_app (plat : platform) (l1 l2 : list jvalue) (fd maxlen : Z)
  (cnt : nat) (w : world) :
  benign plat ->
  Forall (fun i => d i = jstring) l1 ->
  (cnt + length l1 <= 3)%nat ->
  Forall (fun i => (Z.of_nat (String.length ("nameserver " ++ u_s i ++ nl)) < maxlen)%Z) l1 ->
  run (handle_dns_nameservers plat (l1 ++ l2) fd maxlen cnt) w =
  run (handle_dns_nameservers plat l2 fd maxlen (cnt + length l1))
      (called w (map (fun i => write fd ("nameserver " ++ u_s i ++ nl)%string) l1)).
Proof.
  intros Hb Hs. revert cnt w.
  induction Hs as [ | i l1 Hi _ IH]; intros cnt w Hc Hf.
  - cbn [app length map]. now rewrite Nat.add_0_r, called_nil.
  - inversion Hf as [ | ? ? Hfi Hfl]; subst.
    cbn [app length map handle_dns_nameservers] in *.
    rewrite run_bind, run_jexpect, Hi. cbn [jtypes_eqb].
    replace (3 <? S cnt)%nat with false by (symmetry; apply Nat.ltb_ge; lia).
    unfold dns_nameserver_line.
    change (fmt ["nameserver "; u_s i; nl]) with ("nameserver " ++ u_s i ++ nl)%string.
    replace (maxlen <=? _)%Z with false by (symmetry; apply Z.leb_gt; exact Hfi).
    rewrite run_bind, run_sys_called, benign_write by assumption.
    rewrite IH by (assumption || lia).
    rewrite called_called. cbn [app].
    now replace (S cnt + length l1)%nat with (cnt + S (length l1))%nat by lia.
Qed.

(** X26: a fourth name server stops the boot, and by then the resolver file
    has been opened and has the lines of the first three; it is not
    closed. *)
Theorem X26_handle_dns_fourth_nameserver (plat : platform) (v : jvalue) (loc : string)
  (w : world) (a : jvalue) (l3 : list jvalue) (x : jvalue) (rest : list jvalue) :
  benign plat ->
  d v = jobject ->
  Forall (fun i => n i = "nameservers" \/ n i = "search" -> d i = jarray) (u_v v) ->
  find_last "nameservers" (u_v v) = Some a ->
  u_v a = l3 ++ x :: rest ->
  length l3 = 3%nat ->
  Forall (fun i => d i = jstring) l3 -> d x = jstring ->
  Forall (fun i => (String.length (u_s i) <= 1020)%nat) l3 ->
  let fd := rv (os plat (history w ++ [mkdir "/etc" 493])
                  (open "/etc/resolv.conf" [O_WRONLY; O_CREAT] 420)) in
  run (handle_dns plat v loc) w =
  Exit (Errx "handle_dns: too many nameservers (max 3)")
       (called w ([mkdir "/etc" 493; open "/etc/resolv.conf" [O_WRONLY; O_CREAT] 420]
                  ++ map (fun i => write fd ("nameserver " ++ u_s i ++ nl)%string) l3)).
Proof.
  intros Hb Hd Hk Ha El Hl Hs Hx Hf fd.
  assert (Hscan := handle_dns_scan_fold (u_v v) (None, None) w).
  unfold handle_dns. rewrite run_bind, run_jexpect, Hd. cbn [jtypes_eqb].
  rewrite run_bind.
  destruct (handle_dns_scan_progress (u_v v) (None, None) w Hk) as [[ns sd] Hv].
  rewrite Hv in Hscan. rewrite Hv. destruct Hscan as (_ & Hns & _).
  simpl in Hns. rewrite Ha in Hns. simpl in Hns. subst ns.
  unfold handle_dns_write.
  rewrite run_bind, run_sys_called, run_bind, benign_mkdir, run_ret by assumption.
  rewrite run_bind, run_sys_called, run_bind, benign_open, run_ret by assumption.
  rewrite history_called. fold fd. rewrite run_bind, El.
  rewrite (handle_dns_nameservers_app plat l3 (x :: rest) fd _ 0); try assumption; try lia.
  2:{ eapply Forall_impl; [ | exact Hf ]. intros i Hi. cbv beta in Hi |- *.
      rewrite !string_length_app. change (String.length "nameserver ") with 11%nat.
      change (String.length nl) with 1%nat. change (String.length "search ") with 7%nat.
      lia. }
  rewrite Hl. cbn [handle_dns_nameservers Nat.add].
  rewrite run_bind, run_jexpect, Hx. cbn [jtypes_eqb Nat.ltb Nat.leb].
  rewrite run_errx, !called_called. reflexivity.
Qed.

(** Four name servers. *)
Lemma X26_handle_dns_fourth_nameserver_witness :
  run (handle_dns demo_plat
         (jobj "dns" [jarr "nameservers" [jstr "" "10.0.0.1"; jstr "" "10.0.0.2";
                                          jstr "" "10.0.0.3"; jstr "" "10.0.0.4"]])
         "handle_net") w0 =
  Exit (Errx "handle_dns: too many nameservers (max 3)")
       (called w0 ([mkdir "/etc" 493; open "/etc/resolv.conf" [O_WRONLY; O_CREAT] 420]
                   ++ map (fun i => write 0 ("nameserver " ++ u_s i ++ nl)%string)
                        [jstr "" "10.0.0.1"; jstr "" "10.0.0.2"; jstr "" "10.0.0.3"])).
Proof.
  apply (X26_handle_dns_fourth_nameserver demo_plat
           (jobj "dns" [jarr "nameservers" [jstr "" "10.0.0.1"; jstr "" "10.0.0.2";
                                            jstr "" "10.0.0.3"; jstr "" "10.0.0.4"]])
           "handle_net" w0
           (jarr "nameservers" [jstr "" "10.0.0.1"; jstr "" "10.0.0.2";
                                jstr "" "10.0.0.3"; jstr "" "10.0.0.4"])
           [jstr "" "10.0.0.1"; jstr "" "10.0.0.2"; jstr "" "10.0.0.3"]
           (jstr "" "10.0.0.4") []);
    try reflexivity.
  - exact benign_demo_plat.
  - repeat constructor.
  - repeat constructor.
  - repeat constructor; apply Nat.leb_le; reflexivity.
Defined.

Lemma handle_dns_write_run (plat : platform) (ns sd : option jvalue) (w : world) :
  benign plat ->
  (forall a, ns = Some a ->
     Forall (fun i => d i = jstring) (u_v a) /\ (length (u_v a) <= 3)%nat /\
     Forall (fun i => (String.length (u_s i) <= 1020)%nat) (u_v a)) ->
  (forall s, sd = Some s ->
     Forall (fun i => d i = jstring) (u_v s) /\ (length (u_v s) <= 6)%nat /\
     (String.length ("search " ++ String.concat " " (map u_s (u_v s)) ++ nl) <= 1032)%nat) ->
  let fd := rv (os plat (history w ++ [mkdir "/etc" 493])
                  (open "/etc/resolv.conf" [O_WRONLY; O_CREAT] 420)) in
  run (handle_dns_write plat ns sd) w =
  Ret tt (called w ([mkdir "/etc" 493; open "/etc/resolv.conf" [O_WRONLY; O_CREAT] 420]
                    ++ resolv_conf_writes fd ns sd ++ [close fd])).
Proof.
  intros Hb Hns Hsd fd. unfold handle_dns_write.
  rewrite run_bind, run_sys_called, run_bind, benign_mkdir, run_ret by assumption.
  rewrite run_bind, run_sys_called, run_bind, benign_open, run_ret by assumption.
  rewrite history_called. fold fd. rewrite called_called. cbn [app].
  rewrite run_bind.
  assert (E1 : forall w1,
    run (match ns with
         | Some nameservers =>
             handle_dns_nameservers plat (u_v nameservers) fd
               (Z.of_nat (String.length "search ") + 1024 + 2) 0
         | None => ret tt
         end) w1
    = Ret tt (called w1 (match ns with
                         | Some a =>
                             map (fun i => write fd ("nameserver " ++ u_s i ++ nl)%string)
                               (u_v a)
                         | None => []
                         end))).
  { intros w1. destruct ns as [a | ]; [ | now rewrite called_nil ].
    destruct (Hns a eq_refl) as (Ha & Hla & Hfa).
    apply handle_dns_nameservers_ok; try assumption; try lia.
    eapply Forall_impl; [ | exact Hfa ]. intros i Hi. cbv beta in Hi |- *.
    rewrite !string_length_app. change (String.length "nameserver ") with 11%nat.
    change (String.length nl) with 1%nat. change (String.length "search ") with 7%nat.
    lia. }
  rewrite E1, called_called. rewrite run_bind.
  assert (E2 : forall w1,
    run (match sd with
         | Some search =>
             nb <- handle_dns_search (u_v search)
                     (Z.of_nat (String.length "search ") + 1024 + 2) 0 "" ;;
             let '(cnt, buf) := nb in
             if (0 <? cnt)%nat then
               r <- sys plat (write fd buf) ;;
               if (rv r =? -1)%Z then err ["handle_dns"; ": write"] else ret tt
             else ret tt
         | None => ret tt
         end) w1
    = Ret tt (called w1 (match sd with
                         | Some s =>
                             match u_v s with
                             | [] => []
                             | _ :: _ =>
                                 [write fd ("search " ++ String.concat " " (map u_s (u_v s))
                                            ++ nl)%string]
                             end
                         | None => []
                         end))).
  { intros w1. destruct sd as [s | ]; [ | now rewrite called_nil ].
    destruct (Hsd s eq_refl) as (Hs & Hls & Hfs).
    destruct (u_v s) as [ | s0 sl] eqn:Es.
    - cbn [handle_dns_search]. rewrite run_bind, run_ret. cbn [Nat.ltb Nat.leb].
      now rewrite run_ret, called_nil.
    - assert (Eline : search_pieces (Nat.eqb 0 0) (map u_s (s0 :: sl))
                      = ("search " ++ String.concat " " (map u_s (s0 :: sl)) ++ nl)%string).
      { cbn [Nat.eqb map]. apply search_pieces_line. }
      rewrite run_bind.
      rewrite (handle_dns_search_ok (s0 :: sl) _ 0 "");
        [ | assumption | lia
          | rewrite Eline; change (String.length "search ") with 7%nat; lia ].
      rewrite Eline. cbn [length Nat.add Nat.ltb Nat.leb].
      rewrite run_bind, run_sys_called, benign_write, run_ret by assumption.
      reflexivity. }
  rewrite E2, called_called.
  rewrite run_bind, run_sys_called, run_ret, called_called.
  unfold resolv_conf_writes. rewrite <- !app_assoc. reflexivity.
Qed.

(** X27: with one of [nameservers] and [search], [handle_dns] makes [/etc],
    opens the resolver file for writing without truncating it, writes one
    line for each name server and then one line with the search domains
    when there are some, and closes the file.  An empty [search] array
    writes no line. *)
Theorem X27_handle_dns_either (plat : platform) (v : jvalue) (loc : string) (w : world) :
  benign plat ->
  d v = jobject ->
  Forall (fun i => n i = "nameservers" \/ n i = "search" -> d i = jarray) (u_v v) ->
  let ns := find_last "nameservers" (u_v v) in
  let sd := find_last "search" (u_v v) in
  (ns <> None \/ sd <> None) ->
  (forall a, ns = Some a ->
     Forall (fun i => d i = jstring) (u_v a) /\ (length (u_v a) <= 3)%nat /\
     Forall (fun i => (String.length (u_s i) <= 1020)%nat) (u_v a)) ->
  (forall s, sd = Some s ->
     Forall (fun i => d i = jstring) (u_v s) /\ (length (u_v s) <= 6)%nat /\
     (String.length ("search " ++ String.concat " " (map u_s (u_v s)) ++ nl) <= 1032)%nat) ->
  let fd := rv (os plat (history w ++ [mkdir "/etc" 493])
                  (open "/etc/resolv.conf" [O_WRONLY; O_CREAT] 420)) in
  run (handle_dns plat v loc) w =
  Ret tt (called w ([mkdir "/etc" 493; open "/etc/resolv.conf" [O_WRONLY; O_CREAT] 420]
                    ++ resolv_conf_writes fd ns sd ++ [close fd])).
Proof.
  intros Hb Hd Hk ns sd Hone Hns Hsd fd.
  assert (Hscan := handle_dns_scan_fold (u_v v) (None, None) w).
  unfold handle_dns. rewrite run_bind, run_jexpect, Hd. cbn [jtypes_eqb].
  rewrite run_bind.
  destruct (handle_dns_scan_progress (u_v v) (None, None) w Hk) as [[ns' sd'] Hv].
  rewrite Hv in Hscan. rewrite Hv. destruct Hscan as (_ & Hn & Hs).
  cbn [fst snd] in Hn, Hs. rewrite orelse_none_r in Hn, Hs.
  fold ns in Hn. fold sd in Hs. subst ns' sd'.
  pose proof (handle_dns_write_run plat ns sd w Hb Hns Hsd) as Hw.
  cbv zeta in Hw. fold fd in Hw.
  destruct ns as [a | ]; [ exact Hw | ].
  destruct sd as [s | ]; [ exact Hw | ].
  destruct Hone as [H | H]; now contradiction H.
Qed.

(** A resolver configuration with an empty list of search domains. *)
Lemma X27_handle_dns_either_witness :
  run (handle_dns demo_plat
         (jobj "dns" [jarr "search" []; jarr "nameservers" [jstr "" "10.0.0.1"]])
         "handle_net") w0 =
  Ret tt (called w0 [mkdir "/etc" 493; open "/etc/resolv.conf" [O_WRONLY; O_CREAT] 420;
                     write 0 ("nameserver " ++ "10.0.0.1" ++ nl)%string; close 0]).
Proof.
  apply (X27_handle_dns_either demo_plat
           (jobj "dns" [jarr "search" []; jarr "nameservers" [jstr "" "10.0.0.1"]])
           "handle_net" w0 benign_demo_plat eq_refl).
  - repeat constructor.
  - left. discriminate.
  - intros a [= <-]. repeat split; repeat constructor; apply Nat.leb_le; reflexivity.
  - intros s [= <-]. repeat split; repeat constructor; apply Nat.leb_le; reflexivity.
Defined.

(** ** The kinds the handlers expect *)

(** X28: every handler of the three tables looks at the kind of its value
    first: [rc] and [gateways] want an array, the others an object.  A
    value of another kind is fatal with the message of [jexpect], before
    anything is done. *)
Theorem X28_handlers_check_kind (plat : platform) (hj : jhandler) (v : jvalue)
  (loc : string) (w : world) :
  In hj (handlers_root plat ++ handlers_net plat ++ handlers_netbsd plat) ->
  let kind := if streq (name hj) "rc" || streq (name hj) "gateways"
              then jarray else jobject in
  d v <> kind ->
  exists fn,
    run (handler hj v loc) w =
    Exit (Errx (fmt [fn; ": expected "; jtypestr kind; ", got "; jtypestr (d v)])) w.
Proof.
  intros Hin kind Hd.
  assert (Hk : jtypes_eqb (d v) kind = false).
  { destruct (jtypes_eqb (d v) kind) eqn:E; [ | reflexivity ].
    apply jtypes_eqb_eq in E. contradiction. }
  cbn [handlers_root handlers_net handlers_netbsd app In] in Hin.
  repeat (destruct Hin as [<- | Hin]);
    try (cbn [name handler] in *;
         cbn [streq String.eqb Ascii.eqb Bool.eqb orb] in kind; subst kind;
         eexists;
         unfold handle_netbsd, handle_net, handle_object, handle_rc, handle_env,
           handle_blks, handle_mounts, handle_interfaces, handle_gateways, handle_dns,
           handle_sysctl;
         rewrite run_bind, run_jexpect, Hk; reflexivity).
  destruct Hin.
Qed.

(** The member [env] as a string, where an object is expected. *)
Lemma X28_handlers_check_kind_witness :
  exists fn,
    run (handle_env demo_plat (jstr "env" "HOME=/") "rumprun_config") w0 =
    Exit (Errx (fmt [fn; ": expected "; jtypestr jobject; ", got "; jtypestr jstring])) w0.
Proof.
  apply (X28_handlers_check_kind demo_plat (mk_jhandler "env" (handle_env demo_plat))
           (jstr "env" "HOME=/") "rumprun_config" w0).
  - right. right. left. reflexivity.
  - discriminate.
Defined.
